(** * remove-aws-resources: the listing and deletion engine of [src/utils.ts]

    A shallow embedding of the six listers ([getAllFunctions] ...
    [getAllIAMRoles]) and of [generateTasks] with its six per-kind deletion
    procedures, followed by the properties of the specification that were
    checked against them.

    The provider (the AWS SDK clients) is an oracle threaded through every
    program as explicit state; every run also produces the transcript of
    what it did: the provider calls with their answers, the notifications
    sent to the observer, and the waits of the retry wrapper. *)

From stdpp Require Import base list strings pretty sorting.
From Stdlib Require Import ZArith Lia.

Open Scope Z_scope.
Open Scope string_scope.
Open Scope list_scope.

(** ** Provider records *)

(** A resource record is the bag of attributes the provider returns. Only
    the attributes that [utils.ts] reads are kept: the names and identifiers
    used by the deletion procedures and, for each kind, the timestamp its
    lister sorts by (the value of [new Date(x).getTime()], in milliseconds).
    A record of one kind leaves the attributes of the other kinds blank. *)
Record Resource := mkResource {
  FunctionName : string;  LastModified : Z;       (* Lambda function *)
  logGroupName : string;  creationTime : Z;       (* CloudWatch log group *)
  id : string;  name : string;  createdDate : Z;  (* API Gateway REST API *)
  Name : string;  CreationDate : Z;               (* S3 bucket *)
  Id : string;  DomainName : string;  LastModifiedTime : Z; (* CloudFront *)
  RoleName : string;  CreateDate : Z              (* IAM role *)
}.

Definition blank : Resource :=
  mkResource "" 0 "" 0 "" "" 0 "" 0 "" "" 0 "" 0.

Definition aFunction (FunctionName : string) (LastModified : Z) : Resource :=
  mkResource FunctionName LastModified "" 0 "" "" 0 "" 0 "" "" 0 "" 0.
Definition aLogGroup (logGroupName : string) (creationTime : Z) : Resource :=
  mkResource "" 0 logGroupName creationTime "" "" 0 "" 0 "" "" 0 "" 0.
Definition aRestApi (id name : string) (createdDate : Z) : Resource :=
  mkResource "" 0 "" 0 id name createdDate "" 0 "" "" 0 "" 0.
Definition aBucket (Name : string) (CreationDate : Z) : Resource :=
  mkResource "" 0 "" 0 "" "" 0 Name CreationDate "" "" 0 "" 0.
Definition aDistribution (Id DomainName : string) (LastModifiedTime : Z) : Resource :=
  mkResource "" 0 "" 0 "" "" 0 "" 0 Id DomainName LastModifiedTime "" 0.
Definition aRole (RoleName : string) (CreateDate : Z) : Resource :=
  mkResource "" 0 "" 0 "" "" 0 "" 0 "" "" 0 RoleName CreateDate.

(** The error object of a rejected SDK call. *)
Record AWSError := mkError { code : string; message : string }.

(** What a JavaScript [throw] carries here: an SDK error, or an error wrapped
    by [new pRetry.AbortError(error)]. *)
Inductive Exn :=
| Err (e : AWSError)
| AbortError (originalError : Exn).

(** [error.code]: an [AbortError] object has no [code] property. *)
Definition codeOf (error : Exn) : option string :=
  match error with
  | Err e => Some (code e)
  | AbortError _ => None
  end.

(** [error.message]: [AbortError] copies the message of the error it wraps. *)
Fixpoint messageOf (error : Exn) : string :=
  match error with
  | Err e => message e
  | AbortError original => messageOf original
  end.

(** Response shapes, one constructor each, with the property names of the
    SDK as binder names (they are destructured in the source). *)
Inductive ListFunctionsResponse :=
  ListFunctionsOutput (Functions : list Resource) (NextMarker : option string).
Inductive DescribeLogGroupsResponse :=
  DescribeLogGroupsOutput (logGroups : list Resource) (nextToken : option string).
Inductive RestApis :=
  RestApisOutput (items : list Resource) (position : option string).
Inductive ListBucketsOutput :=
  ListBuckets (Buckets : list Resource).
Inductive DistributionList :=
  DistributionListOutput (IsTruncated : bool) (Items : list Resource)
                         (NextMarker : option string).
Inductive ListRolesResponse :=
  ListRolesOutput (Marker : option string) (IsTruncated : bool)
                  (Roles : list Resource).

Record S3Object := mkObject { Key : string; Size : Z }.
Inductive ListObjectsOutput :=
  ListObjects (Contents : list S3Object) (IsTruncated : bool).

Inductive ListRolePoliciesResponse :=
  ListRolePoliciesOutput (PolicyNames : list string).
Record AttachedPolicy := mkAttached { PolicyName : string; PolicyArn : string }.
Inductive ListAttachedRolePoliciesResponse :=
  ListAttachedRolePoliciesOutput (AttachedPolicies : list AttachedPolicy).

(** The distribution configuration: the flag the task reads and rewrites,
    and the settings that [...DistributionConfig] carries over unchanged. *)
Record DistributionConfig := mkConfig {
  Enabled : bool;
  CallerReference : string;
  Comment : string
}.
Inductive GetDistributionConfigResult :=
  GetDistributionConfigOutput (ETag : string) (DistributionConfig : DistributionConfig).

(** ** Provider calls

    Every SDK request that [utils.ts] issues, with the parameters it
    passes, indexed by the type of the answer. [None] stands for a cursor
    that is [null] or [undefined]. The [Objects] of [deleteObjects] are
    given by their keys: each is the object [{ Key }]. *)
Inductive Call : Type -> Type :=
| lambda_listFunctions (Marker : option string) (MaxItems : nat)
    : Call ListFunctionsResponse
| cloudWatchLogs_describeLogGroups (logGroupNamePrefix : string) (limit : nat)
    (nextToken : option string) : Call DescribeLogGroupsResponse
| apiGateway_getRestApis (position : option string) (limit : nat) : Call RestApis
| s3_listBuckets : Call ListBucketsOutput
| cloudFront_listDistributions (Marker : option string) (MaxItems : string)
    : Call DistributionList
| iam_listRoles (Marker : option string) (MaxItems : nat) : Call ListRolesResponse
| lambda_deleteFunction (FunctionName : string) : Call unit
| s3_listObjects (Bucket : string) (Marker : option string) : Call ListObjectsOutput
| s3_deleteObjects (Bucket : string) (Objects : list string) : Call unit
| s3_deleteBucket (Bucket : string) : Call unit
| apiGateway_deleteRestApi (restApiId : string) : Call unit
| iam_listRolePolicies (RoleName : string) : Call ListRolePoliciesResponse
| iam_deleteRolePolicy (RoleName PolicyName : string) : Call unit
| iam_listAttachedRolePolicies (RoleName : string)
    : Call ListAttachedRolePoliciesResponse
| iam_detachRolePolicy (RoleName PolicyArn : string) : Call unit
| iam_deleteRole (RoleName : string) : Call unit
| cloudFront_getDistributionConfig (Id : string) : Call GetDistributionConfigResult
| cloudFront_updateDistribution (Id : string) (DistributionConfig : DistributionConfig)
    (IfMatch : string) : Call unit
| cloudFront_deleteDistribution (Id : string) (IfMatch : string) : Call unit
| cloudWatchLogs_deleteLogGroup (logGroupName : string) : Call unit.

(** A provider answers a call from its current state: it rejects with an
    error or resolves with a response, and moves to a new state. *)
Definition Provider (W : Type) : Type :=
  forall R, Call R -> W -> (AWSError + R) * W.

(** ** Transcripts *)

Inductive Event :=
| Called {R : Type} (c : Call R) (r : AWSError + R)  (* awaited SDK call and its answer *)
| Next (msg : string)                                (* observer.next(msg) *)
| Complete                                           (* observer.complete() *)
| Error (msg : string)                               (* observer.error(msg) *)
| Sleep (ms : Z).                                    (* back-off wait of the retry wrapper *)

(** ** The monad of asynchronous procedures

    An [async] body run to its end: it returns, throws (the promise is
    rejected), or is cut off because a [while (true)] loop ran out of the
    iteration budget given to it. *)
Inductive Outcome (A : Type) :=
| Done (a : A)
| Throw (e : Exn)
| Starved.
Arguments Done {A} a.
Arguments Throw {A} e.
Arguments Starved {A}.

Definition M (W A : Type) : Type := W -> Outcome A * W * list Event.

Definition ret {W A} (a : A) : M W A := fun w => (Done a, w, []).

Definition bind {W A B} (m : M W A) (f : A -> M W B) : M W B :=
  fun w =>
    match m w with
    | (Done a, w1, l1) => let '(o, w2, l2) := f a w1 in (o, w2, l1 ++ l2)
    | (Throw e, w1, l1) => (Throw e, w1, l1)
    | (Starved, w1, l1) => (Starved, w1, l1)
    end.

Definition throw {W A} (e : Exn) : M W A := fun w => (Throw e, w, []).

(** [try { m } catch (error) { handler error }] *)
Definition tryCatch {W A} (m : M W A) (handler : Exn -> M W A) : M W A :=
  fun w =>
    match m w with
    | (Throw e, w1, l1) => let '(o, w2, l2) := handler e w1 in (o, w2, l1 ++ l2)
    | other => other
    end.

Definition emit {W} (e : Event) : M W unit := fun w => (Done tt, w, [e]).

(** The procedures are written with stdpp's monad notations:
    [x ← m; k] awaits [m] and goes on with [k], [m;; k] drops the result. *)
#[global] Instance M_ret {W} : MRet (M W) := fun A => @ret W A.
#[global] Instance M_bind {W} : MBind (M W) := fun A B f m => @bind W A B m f.

(** One turn of a [while (true)] body: go round again or [break]. *)
Inductive Turn (S A : Type) :=
| Again (s : S)
| Break (a : A).
Arguments Again {S A} s.
Arguments Break {S A} a.

(** [while (true) { body }], cut off after [fuel] iterations. The loop
    variables are [s]; [Break a] leaves the loop with [a]. *)
Fixpoint whileTrue {W S A} (fuel : nat) (body : S -> M W (Turn S A)) (s : S) : M W A :=
  match fuel with
  | O => fun w => (Starved, w, [])
  | Datatypes.S fuel' =>
      t ← body s;
      match t with
      | Again s' => whileTrue fuel' body s'
      | Break a => ret a
      end
  end.

(** [for (let i = 0; i < xs.length; i++) { body xs[i] }] *)
Fixpoint forEach {W X} (xs : list X) (body : X -> M W unit) : M W unit :=
  match xs with
  | [] => ret tt
  | x :: xs' => body x;; forEach xs' body
  end.

(** JavaScript truthiness of a cursor: [null], [undefined] and the empty
    string are all falsy. *)
Definition truthy (cursor : option string) : bool :=
  match cursor with
  | Some s => negb (String.eqb s "")
  | None => false
  end.

(** [xs.sort((a, b) => time(b) - time(a))]: the stable sort of Node, newest
    first. An element goes in front of the first one that is not newer. *)
Fixpoint insertNewest (time : Resource -> Z) (x : Resource) (l : list Resource)
  : list Resource :=
  match l with
  | [] => [x]
  | y :: l' => if (time y <=? time x)%Z then x :: l else y :: insertNewest time x l'
  end.

Definition sortNewestFirst (time : Resource -> Z) (l : list Resource) : list Resource :=
  foldr (insertNewest time) [] l.

(** ** The retry wrapper of the [p-retry] package

    [p-retry] is a dependency, not part of [utils.ts]; this is its contract
    as the package and the [retry] module under it implement it, for the
    options the source passes. [retries] is the number of retries after the
    first attempt; the waits are [minTimeout * factor ^ i]. An [AbortError]
    ends the attempts and rejects with the wrapped error; another failure
    is recorded and retried after the next wait, and when no wait is left
    the wrapper rejects with [operation.mainError()]. (The package also
    stops on a [TypeError]; the SDK calls reject with SDK errors only.) *)

(** [retry.timeouts(options)] with the defaults [maxTimeout: Infinity] and
    [randomize: false]. *)
Definition timeouts (retries : nat) (minTimeout factor : Z) : list Z :=
  map (fun i => Z.max minTimeout 1 * factor ^ Z.of_nat i) (seq 0 retries).

Fixpoint countOf (counts : list (string * nat)) (msg : string) : nat :=
  match counts with
  | [] => 0
  | (m, n) :: counts' => if String.eqb m msg then n else countOf counts' msg
  end.

(** [operation.mainError()]: the recorded error whose message occurred most
    often, the latest one on a tie. *)
Fixpoint mainErrorFrom (errors : list AWSError) (counts : list (string * nat))
    (mainError : option AWSError) (mainErrorCount : nat) : option AWSError :=
  match errors with
  | [] => mainError
  | error :: errors' =>
      let count := S (countOf counts (message error)) in
      let counts := (message error, count) :: counts in
      if (mainErrorCount <=? count)%nat
      then mainErrorFrom errors' counts (Some error) count
      else mainErrorFrom errors' counts mainError mainErrorCount
  end.

Definition mainError (errors : list AWSError) : option AWSError :=
  mainErrorFrom errors [] None 0.

Definition sleep {W} (ms : Z) : M W unit := emit (Sleep ms).

Fixpoint attempt {W} (input : M W unit) (waits : list Z) (errors : list AWSError)
  : M W unit :=
  tryCatch input (fun error =>
    match error with
    | AbortError originalError => throw originalError
    | Err e =>
        let errors := errors ++ [e] in
        match waits with
        | [] => throw (Err (default e (mainError errors)))
        | timeout :: waits' => sleep timeout;; attempt input waits' errors
        end
    end).

Definition pRetry {W} (input : M W unit) (retries : nat) (minTimeout factor : Z)
  : M W unit :=
  attempt input (timeouts retries minTimeout factor) [].

(** ** Selections and tasks *)

(** The object passed to [generateTasks]: its entries in the order
    [Object.keys] enumerates them. *)
Abbreviation Selection := (list (string * list Resource)).

(** [resources[type]] *)
Fixpoint select (resources : Selection) (type : string) : list Resource :=
  match resources with
  | [] => []
  | (k, items) :: resources' =>
      if String.eqb k type then items else select resources' type
  end.

(** A task of the returned list: its title and its run. The argument of
    [task] bounds the iterations of each [while (true)] loop of the run. *)
Record Task (W : Type) := mkTask { title : string; task : nat -> M W unit }.
Arguments mkTask {W} title task.
Arguments title {W} t.
Arguments task {W} t fuel.

(** [for] over [xs] with a body that may [return] from the procedure: the
    body answers [true] when it returned, and so does the loop. *)
Fixpoint forEachReturn {W X} (xs : list X) (body : X -> M W bool) : M W bool :=
  match xs with
  | [] => ret false
  | x :: xs' =>
      returned ← body x;
      if returned : bool then ret true else forEachReturn xs' body
  end.

Section Engine.
Context {W : Type} (aws : Provider W).

(** [await client.operation(params).promise()] *)
Definition call {R} (c : Call R) : M W R :=
  fun w =>
    let '(r, w') := aws R c w in
    (match r with inl e => Throw (Err e) | inr v => Done v end, w', [Called c r]).

Definition observer_next (msg : string) : M W unit := emit (Next msg).
Definition observer_complete : M W unit := emit Complete.
Definition observer_error (msg : string) : M W unit := emit (Error msg).

(** *** Listers *)

Definition getAllFunctions (fuel : nat) : M W (list Resource) :=
  functions ← whileTrue fuel (fun '(functions, Marker) =>
      '(ListFunctionsOutput Functions NextMarker) ←
          call (lambda_listFunctions Marker 10);
      let functions := functions ++ Functions in
      if negb (truthy NextMarker) then ret (Break functions)
      else ret (Again (functions, NextMarker)))
    ([], None);
  ret (sortNewestFirst LastModified functions).

Definition getAllLogGroups (fuel : nat) : M W (list Resource) :=
  groups ← whileTrue fuel (fun '(groups, Marker) =>
      '(DescribeLogGroupsOutput logGroups nextToken) ←
          call (cloudWatchLogs_describeLogGroups "/aws/" 50 Marker);
      let groups := groups ++ logGroups in
      if negb (truthy nextToken) then ret (Break groups)
      else ret (Again (groups, nextToken)))
    ([], None);
  ret (sortNewestFirst creationTime groups).

Definition getAllApiGateways (fuel : nat) : M W (list Resource) :=
  gateways ← whileTrue fuel (fun '(gateways, Marker) =>
      '(RestApisOutput items position) ←
          call (apiGateway_getRestApis Marker 10);
      let gateways := gateways ++ items in
      if negb (truthy position) then ret (Break gateways)
      else ret (Again (gateways, position)))
    ([], None);
  ret (sortNewestFirst createdDate gateways).

Definition getAllBuckets : M W (list Resource) :=
  '(ListBuckets Buckets) ← call s3_listBuckets;
  ret (sortNewestFirst CreationDate Buckets).

Definition getAllCloudFrontDistributions (fuel : nat) : M W (list Resource) :=
  distributions ← whileTrue fuel (fun '(distributions, Marker) =>
      '(DistributionListOutput IsTruncated Items NextMarker) ←
          call (cloudFront_listDistributions Marker "20");
      let distributions := distributions ++ Items in
      if negb IsTruncated then ret (Break distributions)
      else ret (Again (distributions, NextMarker)))
    ([], None);
  ret (sortNewestFirst LastModifiedTime distributions).

(** The predicate of [roles.filter(...)]. *)
Definition notSystemRole (r : Resource) : bool :=
  negb (String.prefix "AWSService" (RoleName r))
  && negb (String.prefix "OrganizationAccount" (RoleName r)).

Definition getAllIAMRoles (fuel : nat) : M W (list Resource) :=
  roles ← whileTrue fuel (fun '(roles, Marker) =>
      '(ListRolesOutput NextMarker IsTruncated Roles) ←
          call (iam_listRoles Marker 100);
      let roles := roles ++ Roles in
      if negb IsTruncated then ret (Break roles)
      else ret (Again (roles, NextMarker)))
    ([], None);
  ret (sortNewestFirst CreateDate (filter (fun r => notSystemRole r) roles)).

(** *** Deletion procedures, one per kind

    Each is the [async] body inside [new Observable(observer => ...)] of
    the task of its kind. *)

Definition lambdaItem (r : Resource) : M W unit :=
  let FunctionName := FunctionName r in
  observer_next ("Deleting " +:+ FunctionName +:+ "...");;
  call (lambda_deleteFunction FunctionName).

Definition lambdaRun (items : list Resource) : M W unit :=
  forEach items lambdaItem;;
  observer_complete.

(** The body of the [while (true)] loop that empties one bucket; the loop
    variable is [Marker]. *)
Definition emptyBucketTurn (Bucket : string) (Marker : option string)
  : M W (Turn (option string) unit) :=
  observer_next ("Emptying " +:+ Bucket +:+ "...");;
  '(ListObjects Contents IsTruncated) ← call (s3_listObjects Bucket Marker);
  if (length Contents =? 0)%nat then ret (Break tt)
  else
    call (s3_deleteObjects Bucket (map (fun obj => Key obj) Contents));;
    if negb IsTruncated then ret (Break tt)
    else ret (Again (Key <$> last Contents)).

(** [let Marker; while (true) { ... }] *)
Definition emptyBucket (fuel : nat) (Bucket : string) : M W unit :=
  whileTrue fuel (emptyBucketTurn Bucket) None.

Definition bucketItem (fuel : nat) (r : Resource) : M W unit :=
  let Bucket := Name r in
  emptyBucket fuel Bucket;;
  observer_next ("Deleting " +:+ Bucket +:+ "...");;
  call (s3_deleteBucket Bucket).

Definition bucketRun (fuel : nat) (items : list Resource) : M W unit :=
  forEach items (bucketItem fuel);;
  observer_complete.

(** The function handed to [pRetry]. *)
Definition deleteRestApiOnce (id : string) : M W unit :=
  tryCatch (call (apiGateway_deleteRestApi id))
    (fun error =>
       if bool_decide (codeOf error ≠ Some "TooManyRequestsException")
       then throw (AbortError error)
       else
         observer_next (messageOf error +:+ ". Will retry...");;
         throw error).

Definition apiGatewayItem (r : Resource) : M W unit :=
  let name := name r in
  let id := id r in
  observer_next ("Deleting " +:+ name +:+ "...");;
  pRetry (deleteRestApiOnce id) 3 60000 2.

Definition apiGatewayRun (items : list Resource) : M W unit :=
  forEach items apiGatewayItem;;
  observer_complete.

Definition iamRoleItem (r : Resource) : M W unit :=
  let RoleName := RoleName r in
  observer_next ("Deleting " +:+ RoleName +:+ "...");;
  '(ListRolePoliciesOutput PolicyNames) ← call (iam_listRolePolicies RoleName);
  forEach PolicyNames (fun PolicyName =>
      call (iam_deleteRolePolicy RoleName PolicyName));;
  '(ListAttachedRolePoliciesOutput AttachedPolicies) ←
      call (iam_listAttachedRolePolicies RoleName);
  forEach AttachedPolicies (fun attached =>
      call (iam_detachRolePolicy RoleName (PolicyArn attached)));;
  call (iam_deleteRole RoleName).

Definition iamRoleRun (items : list Resource) : M W unit :=
  forEach items iamRoleItem;;
  observer_complete.

(** One round of the CloudFront loop; [true] when it ended in [return]. *)
Definition cloudfrontItem (r : Resource) : M W bool :=
  let Id := Id r in
  let DomainName := DomainName r in
  observer_next ("Fetching " +:+ DomainName +:+ " configuration...");;
  '(GetDistributionConfigOutput ETag DistributionConfig) ←
      call (cloudFront_getDistributionConfig Id);
  if Enabled DistributionConfig then
    observer_next ("Disabling " +:+ DomainName +:+ "...");;
    call (cloudFront_updateDistribution Id
            {| Enabled := false;
               CallerReference := CallerReference DistributionConfig;
               Comment := Comment DistributionConfig |}
            ETag);;
    ret false
  else
    tryCatch
      (observer_next ("Deleting " +:+ DomainName +:+ "...");;
       call (cloudFront_deleteDistribution Id ETag);;
       ret false)
      (fun err =>
         observer_error (messageOf err);;
         ret true).

Definition cloudfrontRun (items : list Resource) : M W unit :=
  returned ← forEachReturn items cloudfrontItem;
  if returned : bool then ret tt else observer_complete.

Definition logGroupItem (r : Resource) : M W unit :=
  let logGroupName := logGroupName r in
  observer_next ("Deleting " +:+ logGroupName +:+ "...");;
  call (cloudWatchLogs_deleteLogGroup logGroupName).

Definition logGroupRun (items : list Resource) : M W unit :=
  forEach items logGroupItem;;
  observer_complete.

(** *** The task generator *)

(** The [switch (type)] of [generateTasks]; [None] is its [return null]. *)
Definition taskOf (resources : Selection) (type : string) : option (Task W) :=
  let count := pretty (length (select resources type)) in
  if String.eqb type "lambda" then
    Some (mkTask ("Delete " +:+ count +:+ " Lambda functions")
                 (fun _ => lambdaRun (select resources type)))
  else if String.eqb type "bucket" then
    Some (mkTask ("Delete " +:+ count +:+ " buckets")
                 (fun fuel => bucketRun fuel (select resources type)))
  else if String.eqb type "api-gateway" then
    Some (mkTask ("Delete " +:+ count +:+ " API Gateways")
                 (fun _ => apiGatewayRun (select resources type)))
  else if String.eqb type "iam-role" then
    Some (mkTask ("Delete " +:+ count +:+ " IAM roles")
                 (fun _ => iamRoleRun (select resources type)))
  else if String.eqb type "cloudfront" then
    Some (mkTask ("Delete " +:+ count +:+ " CloudFront distribution")
                 (fun _ => cloudfrontRun (select resources type)))
  else if String.eqb type "log-group" then
    Some (mkTask ("Delete " +:+ count +:+ " CloudWatch Log Groups")
                 (fun _ => logGroupRun (select resources type)))
  else None.

(** [Object.keys(resources).map(type => ...).filter(Boolean)] *)
Definition generateTasks (resources : Selection) : list (Task W) :=
  omap (fun t => t) (map (taskOf resources) (map fst resources)).

End Engine.

(** ** Scripted providers

    A provider that plays a given sequence of answers: its state is the
    number of calls answered so far, and the n-th call receives the n-th
    answer of the script, whatever the request says. An answer of the wrong
    shape for the call is a rejection. *)
Inductive Answer :=
| Rejects (e : AWSError)
| Resolves                                        (* a call without a response body *)
| FunctionsPage (r : ListFunctionsResponse)
| LogGroupsPage (r : DescribeLogGroupsResponse)
| RestApisPage (r : RestApis)
| BucketsPage (r : ListBucketsOutput)
| DistributionsPage (r : DistributionList)
| RolesPage (r : ListRolesResponse)
| ObjectsPage (r : ListObjectsOutput)
| RolePolicies (r : ListRolePoliciesResponse)
| AttachedRolePolicies (r : ListAttachedRolePoliciesResponse)
| DistributionConfigResult (r : GetDistributionConfigResult).

Definition unexpected : AWSError :=
  mkError "UnexpectedAnswer" "the script has no answer of this shape here".

Definition answerFor {R} (c : Call R) (a : Answer) : AWSError + R :=
  match c in Call R return AWSError + R with
  | lambda_listFunctions _ _ =>
      match a with FunctionsPage r => inr r | Rejects e => inl e | _ => inl unexpected end
  | cloudWatchLogs_describeLogGroups _ _ _ =>
      match a with LogGroupsPage r => inr r | Rejects e => inl e | _ => inl unexpected end
  | apiGateway_getRestApis _ _ =>
      match a with RestApisPage r => inr r | Rejects e => inl e | _ => inl unexpected end
  | s3_listBuckets =>
      match a with BucketsPage r => inr r | Rejects e => inl e | _ => inl unexpected end
  | cloudFront_listDistributions _ _ =>
      match a with DistributionsPage r => inr r | Rejects e => inl e | _ => inl unexpected end
  | iam_listRoles _ _ =>
      match a with RolesPage r => inr r | Rejects e => inl e | _ => inl unexpected end
  | s3_listObjects _ _ =>
      match a with ObjectsPage r => inr r | Rejects e => inl e | _ => inl unexpected end
  | iam_listRolePolicies _ =>
      match a with RolePolicies r => inr r | Rejects e => inl e | _ => inl unexpected end
  | iam_listAttachedRolePolicies _ =>
      match a with AttachedRolePolicies r => inr r | Rejects e => inl e | _ => inl unexpected end
  | cloudFront_getDistributionConfig _ =>
      match a with DistributionConfigResult r => inr r | Rejects e => inl e | _ => inl unexpected end
  | lambda_deleteFunction _ | s3_deleteObjects _ _ | s3_deleteBucket _
  | apiGateway_deleteRestApi _ | iam_deleteRolePolicy _ _ | iam_detachRolePolicy _ _
  | iam_deleteRole _ | cloudFront_updateDistribution _ _ _
  | cloudFront_deleteDistribution _ _ | cloudWatchLogs_deleteLogGroup _ =>
      match a with Resolves => inr tt | Rejects e => inl e | _ => inl unexpected end
  end.

Definition scripted (script : nat -> Answer) : Provider nat :=
  fun R c n => (answerFor c (script n), S n).

(** The script that plays the answers of a list and rejects afterwards. *)
Definition playing (answers : list Answer) : nat -> Answer :=
  fun n => nth n answers (Rejects unexpected).

(** A provider for the object drain: the listing calls are answered from
    one sequence and all other calls from another, each in order. The state
    counts the answers given from either. *)
Definition isListObjects {R} (c : Call R) : bool :=
  match c with s3_listObjects _ _ => true | _ => false end.

Definition servingObjects (pages others : nat -> Answer) : Provider (nat * nat) :=
  fun R c '(i, j) =>
    if isListObjects c then (answerFor c (pages i), (S i, j))
    else (answerFor c (others j), (i, S j)).

(** A provider for an account's log groups: [describeLogGroups] resolves
    with the groups whose name starts with the requested prefix, in one
    page; it answers nothing else. *)
Definition logGroupsOf (account : list Resource) : Provider unit :=
  fun R c w =>
    (match c in Call R return AWSError + R with
     | cloudWatchLogs_describeLogGroups logGroupNamePrefix _ _ =>
         inr (DescribeLogGroupsOutput
                (filter (fun g => String.prefix logGroupNamePrefix (logGroupName g)) account)
                None)
     | c' => answerFor c' (Rejects unexpected)
     end, w).

(** ** Reading transcripts *)

(** A page of a listing, as the lister of its kind reads it: the cursor the
    request carried, the items served, whether the response signals that
    more follow, and the cursor it hands out. [listBuckets] has no cursor
    and never signals more. *)
Record Page := mkPage {
  asked : option string;
  served : list Resource;
  more : bool;
  cursor : option string
}.

Definition pageOf (e : Event) : option Page :=
  match e with
  | @Called R c r =>
      match c in Call R return AWSError + R -> option Page with
      | lambda_listFunctions Marker _ => fun r =>
          match r with
          | inr (ListFunctionsOutput Functions NextMarker) =>
              Some (mkPage Marker Functions (truthy NextMarker) NextMarker)
          | inl _ => None
          end
      | cloudWatchLogs_describeLogGroups _ _ Marker => fun r =>
          match r with
          | inr (DescribeLogGroupsOutput logGroups nextToken) =>
              Some (mkPage Marker logGroups (truthy nextToken) nextToken)
          | inl _ => None
          end
      | apiGateway_getRestApis Marker _ => fun r =>
          match r with
          | inr (RestApisOutput items position) =>
              Some (mkPage Marker items (truthy position) position)
          | inl _ => None
          end
      | s3_listBuckets => fun r =>
          match r with
          | inr (ListBuckets Buckets) => Some (mkPage None Buckets false None)
          | inl _ => None
          end
      | cloudFront_listDistributions Marker _ => fun r =>
          match r with
          | inr (DistributionListOutput IsTruncated Items NextMarker) =>
              Some (mkPage Marker Items IsTruncated NextMarker)
          | inl _ => None
          end
      | iam_listRoles Marker _ => fun r =>
          match r with
          | inr (ListRolesOutput NextMarker IsTruncated Roles) =>
              Some (mkPage Marker Roles IsTruncated NextMarker)
          | inl _ => None
          end
      | _ => fun _ => None
      end r
  | _ => None
  end.

(** The pages of a transcript, in the order they were served. *)
Definition pagesOf (log : list Event) : list Page := omap pageOf log.

(** All items of the pages, in the order they were served. *)
Definition itemsOf (pages : list Page) : list Resource := concat (map served pages).

(** A full drain from cursor [c]: the first request carries [c], every
    later request carries the cursor handed out by the page before it,
    every page but the last signals more, and the last does not. *)
Fixpoint Drain (c : option string) (pages : list Page) : Prop :=
  match pages with
  | [] => False
  | p :: rest =>
      asked p = c /\
      match rest with
      | [] => more p = false
      | _ :: _ => more p = true /\ Drain (cursor p) rest
      end
  end.

(** [count p log]: how many events of the transcript satisfy [p]. *)
Definition count (p : Event -> bool) (log : list Event) : nat :=
  length (List.filter p log).

Definition isCall (p : forall R, Call R -> bool) (e : Event) : bool :=
  match e with
  | @Called R c _ => p R c
  | _ => false
  end.

Definition listsObjects : Event -> bool :=
  isCall (fun R c => match c with s3_listObjects _ _ => true | _ => false end).
Definition deletesObjects : Event -> bool :=
  isCall (fun R c => match c with s3_deleteObjects _ _ => true | _ => false end).
Definition deletesBucket : Event -> bool :=
  isCall (fun R c => match c with s3_deleteBucket _ => true | _ => false end).
Definition deletesRolePolicy : Event -> bool :=
  isCall (fun R c => match c with iam_deleteRolePolicy _ _ => true | _ => false end).
Definition detachesRolePolicy : Event -> bool :=
  isCall (fun R c => match c with iam_detachRolePolicy _ _ => true | _ => false end).
Definition deletesRole : Event -> bool :=
  isCall (fun R c => match c with iam_deleteRole _ => true | _ => false end).
Definition updatesDistribution : Event -> bool :=
  isCall (fun R c => match c with cloudFront_updateDistribution _ _ _ => true | _ => false end).
Definition deletesDistribution : Event -> bool :=
  isCall (fun R c => match c with cloudFront_deleteDistribution _ _ => true | _ => false end).
Definition deletesRestApi : Event -> bool :=
  isCall (fun R c => match c with apiGateway_deleteRestApi _ => true | _ => false end).

(** The failure signal of the progress stream. *)
Definition signalsFailure (e : Event) : bool :=
  match e with Error _ => true | _ => false end.

(** The object pages of a transcript: the resolved [listObjects] answers. *)
Definition objectPageOf (e : Event) : option ListObjectsOutput :=
  match e with
  | @Called R c r =>
      match c in Call R return AWSError + R -> option ListObjectsOutput with
      | s3_listObjects _ _ => fun r => match r with inr page => Some page | inl _ => None end
      | _ => fun _ => None
      end r
  | _ => None
  end.

Definition isEmptyPage (page : ListObjectsOutput) : bool :=
  match page with ListObjects Contents _ => (length Contents =? 0)%nat end.

(** The page at which the drain of a bucket stops: empty, or not truncated. *)
Definition endsDrain (page : ListObjectsOutput) : bool :=
  match page with
  | ListObjects Contents IsTruncated => (length Contents =? 0)%nat || negb IsTruncated
  end.

(** The pages of a finished drain: every page but the last is non-empty and
    truncated, the last one ends the drain. *)
Fixpoint Drained (pages : list ListObjectsOutput) : Prop :=
  match pages with
  | [] => False
  | page :: rest =>
      match rest with
      | [] => endsDrain page = true
      | _ :: _ => endsDrain page = false /\ Drained rest
      end
  end.

(** The transcript of draining [Bucket] through [pages], every batch
    deletion resolving: each page is announced and listed with the key of
    the last object of the page before it as marker, and a non-empty page
    is followed by the deletion of exactly its keys. *)
Fixpoint draining (Bucket : string) (Marker : option string)
    (pages : list ListObjectsOutput) : list Event :=
  match pages with
  | [] => []
  | ListObjects Contents IsTruncated :: rest =>
      Next ("Emptying " +:+ Bucket +:+ "...")
      :: Called (s3_listObjects Bucket Marker) (inr (ListObjects Contents IsTruncated))
      :: (if (length Contents =? 0)%nat then []
          else [Called (s3_deleteObjects Bucket (map Key Contents)) (inr tt)])
      ++ draining Bucket (Key <$> last Contents) rest
  end.

(** The answers to the attempts of [deleteRestApi], and the waits and the
    notices between them, in order. *)
Definition attemptOf (e : Event) : option (AWSError + unit) :=
  match e with
  | @Called R c r =>
      match c in Call R return AWSError + R -> option (AWSError + unit) with
      | apiGateway_deleteRestApi _ => fun r => Some r
      | _ => fun _ => None
      end r
  | _ => None
  end.

Definition waitOf (e : Event) : option Z :=
  match e with Sleep ms => Some ms | _ => None end.

Definition noticeOf (e : Event) : option string :=
  match e with Next msg => Some msg | _ => None end.

(** ** The kinds of the task generator, as the specification lists them *)

Definition kindLabel (type : string) : option string :=
  if String.eqb type "lambda" then Some " Lambda functions"
  else if String.eqb type "bucket" then Some " buckets"
  else if String.eqb type "api-gateway" then Some " API Gateways"
  else if String.eqb type "iam-role" then Some " IAM roles"
  else if String.eqb type "cloudfront" then Some " CloudFront distribution"
  else if String.eqb type "log-group" then Some " CloudWatch Log Groups"
  else None.

Definition supported (entry : string * list Resource) : bool :=
  match kindLabel entry.1 with Some _ => true | None => false end.

Definition titleOf (entry : string * list Resource) : string :=
  "Delete " +:+ pretty (length entry.2) +:+ default "" (kindLabel entry.1).

Section Procedures.
Context {W : Type} (aws : Provider W).

(** The run of the task of a kind on the selected items. *)
Definition procedureOf (type : string) (items : list Resource) (fuel : nat)
  : M W unit :=
  if String.eqb type "lambda" then lambdaRun aws items
  else if String.eqb type "bucket" then bucketRun aws fuel items
  else if String.eqb type "api-gateway" then apiGatewayRun aws items
  else if String.eqb type "iam-role" then iamRoleRun aws items
  else if String.eqb type "cloudfront" then cloudfrontRun aws items
  else logGroupRun aws items.
End Procedures.

(** ** The resource kinds and their listers *)

Inductive Kind := Lambda | LogGroup | ApiGateway | Bucket | CloudFront | IamRole.

Definition listerOf {W} (aws : Provider W) (kind : Kind) (fuel : nat)
  : M W (list Resource) :=
  match kind with
  | Lambda => getAllFunctions aws fuel
  | LogGroup => getAllLogGroups aws fuel
  | ApiGateway => getAllApiGateways aws fuel
  | Bucket => getAllBuckets aws
  | CloudFront => getAllCloudFrontDistributions aws fuel
  | IamRole => getAllIAMRoles aws fuel
  end.

(** The records a lister keeps: all of them, but for the role lister. *)
Definition keptBy (kind : Kind) (r : Resource) : bool :=
  match kind with
  | IamRole => notSystemRole r
  | _ => true
  end.

(** The cumulative size of the pages. *)
Definition pageSizes (pages : list Page) : nat :=
  sum_list_with (fun p => length (served p)) pages.

(** Whether an answer, read by the lister of a kind, tells it to go round
    again. A rejection or an answer of another shape does not. *)
Definition goesOn (kind : Kind) (a : Answer) : bool :=
  match kind, a with
  | Lambda, FunctionsPage (ListFunctionsOutput _ NextMarker) => truthy NextMarker
  | LogGroup, LogGroupsPage (DescribeLogGroupsOutput _ nextToken) => truthy nextToken
  | ApiGateway, RestApisPage (RestApisOutput _ position) => truthy position
  | CloudFront, DistributionsPage (DistributionListOutput IsTruncated _ _) => IsTruncated
  | IamRole, RolesPage (ListRolesOutput _ IsTruncated _) => IsTruncated
  | _, _ => false
  end.

(** The same for the object drain: a non-empty, truncated page. *)
Definition drainGoesOn (a : Answer) : bool :=
  match a with
  | ObjectsPage page => negb (endsDrain page)
  | _ => false
  end.

(** The task the specification describes for an entry of the selection:
    titled with the count of the entry's items and the label of its kind,
    and running the procedure of the kind on those items. *)
Definition taskFor {W} (aws : Provider W) (entry : string * list Resource) : Task W :=
  mkTask (titleOf entry) (procedureOf aws entry.1 entry.2).

(** The CloudFront calls of a transcript: the configurations fetched, and
    the parameters of the update and delete calls. *)
Definition configOf (e : Event) : option GetDistributionConfigResult :=
  match e with
  | @Called R c r =>
      match c in Call R return AWSError + R -> option GetDistributionConfigResult with
      | cloudFront_getDistributionConfig _ => fun r =>
          match r with inr result => Some result | inl _ => None end
      | _ => fun _ => None
      end r
  | _ => None
  end.

Definition updateOf (e : Event) : option (string * DistributionConfig * string) :=
  match e with
  | @Called R c _ =>
      match c with
      | cloudFront_updateDistribution Id DistributionConfig IfMatch =>
          Some (Id, DistributionConfig, IfMatch)
      | _ => None
      end
  | _ => None
  end.

Definition deletionOf (e : Event) : option (string * string) :=
  match e with
  | @Called R c _ =>
      match c with
      | cloudFront_deleteDistribution Id IfMatch => Some (Id, IfMatch)
      | _ => None
      end
  | _ => None
  end.

(** [{ ...DistributionConfig, Enabled: false }] *)
Definition disabled (config : DistributionConfig) : DistributionConfig :=
  {| Enabled := false;
     CallerReference := CallerReference config;
     Comment := Comment config |}.

(** The transcript of the rate-limit rejections [failures] of the deletion
    of the API [id], each followed by its notice to the observer and by the
    wait before the next attempt. *)
Fixpoint retrying (id : string) (failures : list AWSError) (waits : list Z)
  : list Event :=
  match failures, waits with
  | e :: failures', timeout :: waits' =>
      Called (apiGateway_deleteRestApi id) (inl e)
      :: Next (message e +:+ ". Will retry...")
      :: Sleep timeout
      :: retrying id failures' waits'
  | _, _ => []
  end.

(** What the last attempt leaves in the transcript: the call, and the
    notice when it was a rate-limit rejection. *)
Definition lastAttempt (id : string) (final : AWSError + unit) : list Event :=
  Called (apiGateway_deleteRestApi id) final
  :: match final with
     | inl e =>
         if bool_decide (code e = "TooManyRequestsException")
         then [Next (message e +:+ ". Will retry...")]
         else []
     | inr _ => []
     end.

(** The completion signal of the progress stream. *)
Definition signalsCompletion (e : Event) : bool :=
  match e with Complete => true | _ => false end.

(** ** Sample data for the examples *)

Definition newFunction : Resource := aFunction "api-dev-graphql" 1580000000000.
Definition oldFunction : Resource := aFunction "api-dev-files" 1570000000000.

(** A page that is served under a cursor and again when that cursor is
    sent back. *)
Definition reissuedPages : list Answer :=
  [ FunctionsPage (ListFunctionsOutput [newFunction] (Some "page-2"));
    FunctionsPage (ListFunctionsOutput [newFunction] None) ].

Definition twoFunctionPages : list Answer :=
  [ FunctionsPage (ListFunctionsOutput [oldFunction] (Some "page-2"));
    FunctionsPage (ListFunctionsOutput [newFunction] None) ].

Definition lambdaLogGroup : Resource := aLogGroup "/aws/lambda/api-dev-graphql" 1580000000000.
Definition customLogGroup : Resource := aLogGroup "/webiny/api-dev/audit" 1570000000000.

Definition serviceRole : Resource := aRole "AWSServiceRoleForSupport" 1500000000000.
Definition accountRole : Resource := aRole "OrganizationAccountAccessRole" 1510000000000.
Definition deployRole : Resource := aRole "api-dev-graphql-role" 1580000000000.
Definition cmsRole : Resource := aRole "api-dev-cms-role" 1590000000000.

Definition rolePages : list Answer :=
  [ RolesPage (ListRolesOutput (Some "next") true [serviceRole; deployRole]);
    RolesPage (ListRolesOutput None false [cmsRole; accountRole]) ].

Definition sampleSelection : Selection :=
  [ ("lambda", [newFunction; oldFunction]);
    ("vpc", [blank]);
    ("iam-role", [deployRole]);
    ("bucket", []) ].

(** A role with two inline policies and one attached policy, every call
    resolving. *)
Definition roleAnswers : list Answer :=
  [ RolePolicies (ListRolePoliciesOutput ["logs"; "invoke"]);
    Resolves; Resolves;
    AttachedRolePolicies (ListAttachedRolePoliciesOutput
      [mkAttached "AWSLambdaBasicExecutionRole"
                  "arn:aws:iam::aws:policy/service-role/AWSLambdaBasicExecutionRole"]);
    Resolves;
    Resolves ].

Definition liveDistribution : Resource := aDistribution "E2QWRUHAPOMQZL" "d111111abcdef8.cloudfront.net" 1580000000000.

Definition enabledAnswers : list Answer :=
  [ DistributionConfigResult
      (GetDistributionConfigOutput "E3UN6WX5RRO2AG" (mkConfig true "api-dev" "cdn"));
    Resolves ].

Definition disabledAnswers : list Answer :=
  [ DistributionConfigResult
      (GetDistributionConfigOutput "E1F83G8C2ARO7P" (mkConfig false "api-dev" "cdn"));
    Resolves ].

Definition assetsBucket : Resource := aBucket "api-dev-assets" 1580000000000.

(** A bucket whose only page of objects is not truncated. *)
Definition onePageAnswers : list Answer :=
  [ ObjectsPage (ListObjects [mkObject "index.html" 120; mkObject "app.js" 4096] false);
    Resolves;
    Resolves ].

(** A bucket served in two truncated pages and then an empty one. *)
Definition threePageAnswers : list Answer :=
  [ ObjectsPage (ListObjects [mkObject "a" 1; mkObject "b" 2] true);
    Resolves;
    ObjectsPage (ListObjects [mkObject "c" 3] true);
    Resolves;
    ObjectsPage (ListObjects [] false);
    Resolves ].

Definition throttled : AWSError :=
  mkError "TooManyRequestsException" "Too Many Requests".
Definition notFound : AWSError :=
  mkError "NotFoundException" "Invalid API identifier specified".
Definition conflict : AWSError :=
  mkError "ResourceConflictException" "The operation cannot be performed at this time.".
Definition accessDenied : AWSError :=
  mkError "AccessDenied" "Access Denied".

Definition devApi : Resource := aRestApi "a1b2c3d4e5" "api-dev" 1580000000000.

Definition staleDistribution : Resource := aDistribution "E1A2B3C4D5E6F7" "d222222abcdef8.cloudfront.net" 1570000000000.
Definition preconditionFailed : AWSError :=
  mkError "PreconditionFailed" "The request failed because it didn't meet the preconditions.".

(** A script whose third page carries no cursor, and that would go on
    serving pages for ever if asked again. *)
Definition endlessFunctions : nat -> Answer :=
  fun n =>
    FunctionsPage (ListFunctionsOutput [newFunction]
                     (if (n =? 2)%nat then None else Some "more")).

(** A provider without state that answers every request for
    distributions with the same truncated page, and hands out no marker. *)
Definition truncatedWithoutMarker : Provider unit :=
  fun R c w =>
    (match c in Call R return AWSError + R with
     | cloudFront_listDistributions _ _ =>
         inr (DistributionListOutput true [liveDistribution] None)
     | iam_listRoles _ _ => inr (ListRolesOutput None true [deployRole])
     | c' => answerFor c' (Rejects unexpected)
     end, w).

(** ** Further readings of transcripts *)

(** The procedure of a kind on the selected items. *)
Definition runOf {W} (aws : Provider W) (kind : Kind) (fuel : nat)
    (items : list Resource) : M W unit :=
  match kind with
  | Lambda => lambdaRun aws items
  | LogGroup => logGroupRun aws items
  | ApiGateway => apiGatewayRun aws items
  | Bucket => bucketRun aws fuel items
  | CloudFront => cloudfrontRun aws items
  | IamRole => iamRoleRun aws items
  end.

(** The attribute by which the procedure of a kind addresses a record. *)
Definition nameOf (kind : Kind) (r : Resource) : string :=
  match kind with
  | Lambda => FunctionName r
  | LogGroup => logGroupName r
  | ApiGateway => id r
  | Bucket => Name r
  | CloudFront => Id r
  | IamRole => RoleName r
  end.


(** [Emits P m]: every event of every transcript of [m] satisfies [P]. *)
Definition Emits {W A} (P : Event -> Prop) (m : M W A) : Prop :=
  forall w, Forall P (m w).2.

(** The listing request of a kind, with the page size its lister asks for. *)
Definition listingOf {R} (c : Call R) : option Kind :=
  match c with
  | lambda_listFunctions _ 10 => Some Lambda
  | cloudWatchLogs_describeLogGroups "/aws/" 50 _ => Some LogGroup
  | apiGateway_getRestApis _ 10 => Some ApiGateway
  | s3_listBuckets => Some Bucket
  | cloudFront_listDistributions _ "20" => Some CloudFront
  | iam_listRoles _ 100 => Some IamRole
  | _ => None
  end.

Definition isListingOf (kind : Kind) (e : Event) : Prop :=
  match e with
  | @Called R c _ => listingOf c = Some kind
  | _ => False
  end.

(** The kind whose procedure issues a call, and the record it addresses. *)
Definition operationOf {R} (c : Call R) : option (Kind * string) :=
  match c with
  | lambda_deleteFunction FunctionName => Some (Lambda, FunctionName)
  | cloudWatchLogs_deleteLogGroup logGroupName => Some (LogGroup, logGroupName)
  | apiGateway_deleteRestApi restApiId => Some (ApiGateway, restApiId)
  | s3_listObjects name _ => Some (Bucket, name)
  | s3_deleteObjects name _ => Some (Bucket, name)
  | s3_deleteBucket name => Some (Bucket, name)
  | iam_listRolePolicies RoleName => Some (IamRole, RoleName)
  | iam_deleteRolePolicy RoleName _ => Some (IamRole, RoleName)
  | iam_listAttachedRolePolicies RoleName => Some (IamRole, RoleName)
  | iam_detachRolePolicy RoleName _ => Some (IamRole, RoleName)
  | iam_deleteRole RoleName => Some (IamRole, RoleName)
  | cloudFront_getDistributionConfig Id => Some (CloudFront, Id)
  | cloudFront_updateDistribution Id _ _ => Some (CloudFront, Id)
  | cloudFront_deleteDistribution Id _ => Some (CloudFront, Id)
  | _ => None
  end.

(** An event of the procedure of [kind] that stays within [names]: a
    call of the kind on one of the names, or no call at all. *)
Definition staysWithin (kind : Kind) (names : list string) (e : Event) : Prop :=
  match e with
  | @Called R c _ => exists name, operationOf c = Some (kind, name) /\ name ∈ names
  | _ => True
  end.

(** The record an event removes: the resolved call that deletes the
    resource itself. *)
Definition removalOf {R} (c : Call R) : option (Kind * string) :=
  match c with
  | lambda_deleteFunction FunctionName => Some (Lambda, FunctionName)
  | cloudWatchLogs_deleteLogGroup logGroupName => Some (LogGroup, logGroupName)
  | apiGateway_deleteRestApi restApiId => Some (ApiGateway, restApiId)
  | s3_deleteBucket name => Some (Bucket, name)
  | iam_deleteRole RoleName => Some (IamRole, RoleName)
  | cloudFront_deleteDistribution Id _ => Some (CloudFront, Id)
  | _ => None
  end.

Definition removedBy (e : Event) : option string :=
  match e with
  | @Called R c (inr _) => snd <$> removalOf c
  | _ => None
  end.

(** The names of the records removed, in the order of their removal. *)
Definition removed (log : list Event) : list string := omap removedBy log.

Definition isCalled (e : Event) : bool :=
  match e with Called _ _ => true | _ => false end.

(** The error of a rejected call. *)
Definition rejectionOf (e : Event) : option AWSError :=
  match e with
  | @Called R c (inl err) => Some err
  | _ => None
  end.

(** A rejection that the procedures do not retry: any but the rate-limit
    rejection of [deleteRestApi]. *)
Definition fatal (e : Event) : bool :=
  match e with
  | @Called R c (inl err) =>
      match c with
      | apiGateway_deleteRestApi _ =>
          negb (bool_decide (code err = "TooManyRequestsException"))
      | _ => true
      end
  | _ => false
  end.

(** No provider call follows a fatal rejection. *)
Fixpoint failsFast (log : list Event) : bool :=
  match log with
  | [] => true
  | e :: rest =>
      if fatal e then forallb (fun e' => negb (isCalled e')) rest
      else failsFast rest
  end.

(** The two terminal signals of the progress stream. *)
Definition terminal (e : Event) : bool :=
  signalsCompletion e || signalsFailure e.

(** The inline policies deleted and the policies detached, in order. *)
Definition deletedPolicyOf (e : Event) : option string :=
  match e with
  | @Called R c _ =>
      match c with iam_deleteRolePolicy _ PolicyName => Some PolicyName | _ => None end
  | _ => None
  end.

Definition detachedPolicyOf (e : Event) : option string :=
  match e with
  | @Called R c _ =>
      match c with iam_detachRolePolicy _ PolicyArn => Some PolicyArn | _ => None end
  | _ => None
  end.

Definition rolePoliciesOf (e : Event) : option (list string) :=
  match e with
  | @Called R c r =>
      match c in Call R return AWSError + R -> option (list string) with
      | iam_listRolePolicies _ => fun r =>
          match r with
          | inr (ListRolePoliciesOutput PolicyNames) => Some PolicyNames
          | inl _ => None
          end
      | _ => fun _ => None
      end r
  | _ => None
  end.

Definition attachedPoliciesOf (e : Event) : option (list string) :=
  match e with
  | @Called R c r =>
      match c in Call R return AWSError + R -> option (list string) with
      | iam_listAttachedRolePolicies _ => fun r =>
          match r with
          | inr (ListAttachedRolePoliciesOutput AttachedPolicies) =>
              Some (map PolicyArn AttachedPolicies)
          | inl _ => None
          end
      | _ => fun _ => None
      end r
  | _ => None
  end.

(** No fatal rejection at all. *)
Definition noFatal (log : list Event) : bool :=
  forallb (fun e => negb (fatal e)) log.

(** [Fast ok m]: a run of [m] that goes on normally (it returns a value
    accepted by [ok]) has met no fatal rejection; any other run has issued
    no call after a fatal rejection. *)
Definition Fast {W A} (ok : A -> bool) (m : M W A) : Prop :=
  forall w,
    match (m w).1.1 with
    | Done a => if ok a then noFatal (m w).2 = true else failsFast (m w).2 = true
    | _ => failsFast (m w).2 = true
    end.

Definition always {A} (a : A) : bool := true.

(** [Removes names m]: a run of [m] that returns has removed exactly the
    records [names], in this order; any other run has removed the first
    few of them. *)
Definition Removes {W A} (names : list string) (m : M W A) : Prop :=
  forall w,
    match (m w).1.1 with
    | Done _ => removed (m w).2 = names
    | _ => removed (m w).2 `prefix_of` names
    end.

(** The time a transcript spends waiting, in milliseconds. *)
Definition totalWait (log : list Event) : Z :=
  foldr Z.add 0 (omap waitOf log).

(** The objects a listing returned, and the objects a batch deletion asks
    to delete, each with its bucket. *)
Definition objectsListedBy (e : Event) : list (string * string) :=
  match e with
  | @Called R c r =>
      match c in Call R return AWSError + R -> list (string * string) with
      | s3_listObjects bucket _ => fun r =>
          match r with
          | inr (ListObjects Contents _) => map (fun obj => (bucket, Key obj)) Contents
          | inl _ => []
          end
      | _ => fun _ => []
      end r
  | _ => []
  end.

Definition objectsDeletedBy (e : Event) : list (string * string) :=
  match e with
  | @Called R c _ =>
      match c with
      | s3_deleteObjects bucket keys => map (fun key => (bucket, key)) keys
      | _ => []
      end
  | _ => []
  end.

Definition objectsListed (log : list Event) : list (string * string) :=
  concat (map objectsListedBy log).
Definition objectsDeleted (log : list Event) : list (string * string) :=
  concat (map objectsDeletedBy log).

(** [Balanced m]: in every run of [m], the objects asked to be deleted are
    the objects listed. *)
Definition Balanced {W A} (m : M W A) : Prop :=
  forall w, objectsDeleted (m w).2 = objectsListed (m w).2.

(** The kind a key of the selection stands for. *)
Definition kindOf (type : string) : option Kind :=
  if String.eqb type "lambda" then Some Lambda
  else if String.eqb type "bucket" then Some Bucket
  else if String.eqb type "api-gateway" then Some ApiGateway
  else if String.eqb type "iam-role" then Some IamRole
  else if String.eqb type "cloudfront" then Some CloudFront
  else if String.eqb type "log-group" then Some LogGroup
  else None.

(** * Properties *)

(** ** Running procedures *)

Section Runs.
Context {W : Type}.

Lemma bind_run {A B} (m : M W A) (f : A -> M W B) (w : W) :
  (m ≫= f) w =
  match m w with
  | (Done a, w1, l1) => let '(o, w2, l2) := f a w1 in (o, w2, l1 ++ l2)
  | (Throw e, w1, l1) => (Throw e, w1, l1)
  | (Starved, w1, l1) => (Starved, w1, l1)
  end.
Proof. reflexivity. Qed.

Lemma bind_Done {A B} (m : M W A) (f : A -> M W B) w b w' l :
  (m ≫= f) w = (Done b, w', l) ->
  exists a w1 l1 l2,
    m w = (Done a, w1, l1) /\ f a w1 = (Done b, w', l2) /\ l = l1 ++ l2.
Proof.
  rewrite bind_run. destruct (m w) as [[[a|e|] w1] l1]; try discriminate.
  destruct (f a w1) as [[o w2] l2] eqn:Hf. intros [= -> -> <-].
  by exists a, w1, l1, l2.
Qed.

(** A run that was not cut off is the same under any larger budget. *)
Lemma whileTrue_more_fuel {S A} (body : S -> M W (Turn S A)) fuel fuel' s w :
  (fuel <= fuel')%nat ->
  (whileTrue fuel body s w).1.1 <> Starved ->
  whileTrue fuel' body s w = whileTrue fuel body s w.
Proof.
  revert fuel' s w. induction fuel as [|fuel IH]; intros fuel' s w Hle Hrun.
  - by destruct Hrun.
  - destruct fuel' as [|fuel']; [lia|].
    cbn [whileTrue] in *. rewrite !bind_run in *.
    destruct (body s w) as [[[[s'|a]|e|] w1] l1]; try reflexivity.
    specialize (IH fuel' s' w1 ltac:(lia)).
    destruct (whileTrue fuel body s' w1) as [[o w2] l2] eqn:Hrest.
    rewrite IH; [done|]. by destruct o.
Qed.

(** The transcript of a [for] loop is the transcript of its first round
    followed by the transcript of the rounds after it. *)
Lemma forEach_cons {X} (x : X) (xs : list X) (body : X -> M W unit) w :
  forEach (x :: xs) body w =
  match body x w with
  | (Done _, w1, l1) => let '(o, w2, l2) := forEach xs body w1 in (o, w2, l1 ++ l2)
  | (Throw e, w1, l1) => (Throw e, w1, l1)
  | (Starved, w1, l1) => (Starved, w1, l1)
  end.
Proof. reflexivity. Qed.

(** A [for] loop runs its body on the items in order, one round after the
    other, each round from the state the round before left: its transcript
    is the transcripts of the rounds put end to end. The rounds cover all
    the items when the loop returns, and the items up to the one whose round
    threw otherwise. *)
Lemma forEach_rounds {X} (xs : list X) (body : X -> M W unit) w out w' log :
  forEach xs body w = (out, w', log) ->
  exists rounds : list (X * W * list Event),
    log = concat (map (fun round => round.2) rounds) /\
    map (fun round => round.1.1) rounds `prefix_of` xs /\
    Forall (fun round => (body round.1.1 round.1.2).2 = round.2) rounds /\
    (out = Done tt -> map (fun round => round.1.1) rounds = xs).
Proof.
  revert w out w' log. induction xs as [|x xs IH]; intros w out w' log.
  - intros [= <- <- <-]. exists []. split_and!; done.
  - rewrite forEach_cons. destruct (body x w) as [[[[]|e|] w1] l1] eqn:Hbody.
    + destruct (forEach xs body w1) as [[out2 w2] l2] eqn:Hrest.
      apply IH in Hrest as (rounds & -> & Hprefix & Hrounds & Hall).
      intros [= <- <- <-]. exists ((x, w, l1) :: rounds). cbn.
      split; [done|]. split; [by apply prefix_cons|].
      split; [constructor; [cbn; by rewrite Hbody|done]|].
      intros Hdone. by rewrite Hall.
    + intros [= <- <- <-]. exists [(x, w, l1)]. cbn. rewrite app_nil_r.
      split; [done|]. split; [apply prefix_cons, prefix_nil|].
      split; [constructor; [cbn; by rewrite Hbody|done]|done].
    + intros [= <- <- <-]. exists [(x, w, l1)]. cbn. rewrite app_nil_r.
      split; [done|]. split; [apply prefix_cons, prefix_nil|].
      split; [constructor; [cbn; by rewrite Hbody|done]|done].
Qed.

(** The same for a loop whose body may [return]. *)
Lemma forEachReturn_rounds {X} (xs : list X) (body : X -> M W bool) w out w' log :
  forEachReturn xs body w = (out, w', log) ->
  exists rounds : list (X * W * list Event),
    log = concat (map (fun round => round.2) rounds) /\
    map (fun round => round.1.1) rounds `prefix_of` xs /\
    Forall (fun round => (body round.1.1 round.1.2).2 = round.2) rounds /\
    (out = Done false -> map (fun round => round.1.1) rounds = xs).
Proof.
  revert w out w' log. induction xs as [|x xs IH]; intros w out w' log.
  - intros [= <- <- <-]. exists []. split_and!; done.
  - cbn [forEachReturn]. rewrite bind_run.
    destruct (body x w) as [[[[]|e|] w1] l1] eqn:Hbody.
    + intros [= <- <- <-]. exists [(x, w, l1)]. cbn.
      split; [done|]. split; [apply prefix_cons, prefix_nil|].
      split; [constructor; [cbn; by rewrite Hbody|done]|done].
    + destruct (forEachReturn xs body w1) as [[out2 w2] l2] eqn:Hrest.
      apply IH in Hrest as (rounds & -> & Hprefix & Hrounds & Hall).
      intros [= <- <- <-]. exists ((x, w, l1) :: rounds). cbn.
      split; [done|]. split; [by apply prefix_cons|].
      split; [constructor; [cbn; by rewrite Hbody|done]|].
      intros Hdone. by rewrite Hall.
    + intros [= <- <- <-]. exists [(x, w, l1)]. cbn. rewrite app_nil_r.
      split; [done|]. split; [apply prefix_cons, prefix_nil|].
      split; [constructor; [cbn; by rewrite Hbody|done]|done].
    + intros [= <- <- <-]. exists [(x, w, l1)]. cbn. rewrite app_nil_r.
      split; [done|]. split; [apply prefix_cons, prefix_nil|].
      split; [constructor; [cbn; by rewrite Hbody|done]|done].
Qed.
End Runs.

(** ** Sorting *)

Lemma insertNewest_Permutation time x l : insertNewest time x l ≡ₚ x :: l.
Proof.
  induction l as [|y l IH]; cbn; [done|].
  destruct (time y <=? time x)%Z; [done|].
  rewrite IH. apply Permutation_swap.
Qed.

Lemma sortNewestFirst_Permutation time l : sortNewestFirst time l ≡ₚ l.
Proof.
  induction l as [|x l IH]; cbn; [done|].
  unfold sortNewestFirst in IH. by rewrite insertNewest_Permutation, IH.
Qed.

Lemma sortNewestFirst_elem time l x : x ∈ sortNewestFirst time l <-> x ∈ l.
Proof. by rewrite sortNewestFirst_Permutation. Qed.

Lemma sortNewestFirst_length time l : length (sortNewestFirst time l) = length l.
Proof. by rewrite sortNewestFirst_Permutation. Qed.

(** The result is ordered from the newest to the oldest. *)
Lemma insertNewest_sorted time x l :
  Sorted (fun a b => time b <= time a) l ->
  Sorted (fun a b => time b <= time a) (insertNewest time x l).
Proof.
  induction 1 as [|y l Hl IH Hy]; cbn.
  - repeat constructor.
  - destruct (Z.leb_spec (time y) (time x)).
    + constructor; [by constructor|]. by constructor.
    + constructor; [done|].
      destruct Hy as [|z l' Hz]; cbn.
      * constructor. lia.
      * destruct (Z.leb_spec (time z) (time x)); constructor; lia.
  Qed.

Lemma sortNewestFirst_sorted time l :
  Sorted (fun a b => time b <= time a) (sortNewestFirst time l).
Proof.
  induction l as [|x l IH]; cbn; [constructor|]. by apply insertNewest_sorted.
Qed.

(** ** Listers *)

Lemma pagesOf_app l1 l2 : pagesOf (l1 ++ l2) = pagesOf l1 ++ pagesOf l2.
Proof. apply omap_app. Qed.

Lemma itemsOf_app p1 p2 : itemsOf (p1 ++ p2) = itemsOf p1 ++ itemsOf p2.
Proof. unfold itemsOf. by rewrite map_app, concat_app. Qed.

Lemma Drain_cons c p rest :
  asked p = c -> more p = true -> Drain (cursor p) rest -> Drain c (p :: rest).
Proof. intros Hc Hm Hrest. destruct rest; [destruct Hrest|].
  split; [done|]. split; [done|]. exact Hrest.
Qed.

Section Listers.
Context {W : Type} (aws : Provider W).

(** The shape shared by the five pagination loops: fetch the page at the
    cursor, append its items, stop unless the page signals more. *)
Lemma drain_loop {X} (P : Event -> Prop) (fetch : option string -> M W X)
    (items : X -> list Resource) (goesOn : X -> bool) (next : X -> option string)
    (body : list Resource * option string -> M W (Turn _ (list Resource))) :
  (forall acc Marker w,
      body (acc, Marker) w =
      (x ← fetch Marker;
       if negb (goesOn x) then mret (Break (acc ++ items x))
       else mret (Again (acc ++ items x, next x))) w) ->
  (forall Marker w x w1 l,
      fetch Marker w = (Done x, w1, l) ->
      Forall P l /\ pagesOf l = [mkPage Marker (items x) (goesOn x) (next x)] /\
      length l = 1%nat) ->
  forall fuel acc Marker w res w' log,
    whileTrue fuel body (acc, Marker) w = (Done res, w', log) ->
    Drain Marker (pagesOf log) /\
    length (pagesOf log) = length log /\
    res = acc ++ itemsOf (pagesOf log) /\
    Forall P log.
Proof.
  intros Hbody Hfetch.
  induction fuel as [|fuel IH]; intros acc Marker w res w' log Hrun; [done|].
  cbn [whileTrue] in Hrun.
  apply bind_Done in Hrun as (t & w1 & l1 & l2 & Hturn & Hrest & ->).
  rewrite Hbody in Hturn.
  apply bind_Done in Hturn as (x & w0 & l0 & l0' & Hx & Hstop & ->).
  destruct (Hfetch _ _ _ _ _ Hx) as (HP & Hpage & Hlen).
  rewrite !pagesOf_app, !length_app, Hpage, Hlen.
  destruct (goesOn x) eqn:Hgo; cbn in Hstop; injection Hstop as <- <- <-.
  - destruct (IH _ _ _ _ _ _ Hrest) as (Hdrain & Hlen2 & -> & HP2).
    change (pagesOf []) with (@nil Page). rewrite app_nil_r. cbn [app length].
    split; [|split; [|split]].
    + apply Drain_cons; [done..|exact Hdrain].
    + by rewrite Hlen2.
    + unfold itemsOf. cbn. by rewrite <- app_assoc.
    + rewrite !Forall_app. by repeat split.
  - cbn in Hrest. injection Hrest as <- <- <-.
    change (pagesOf []) with (@nil Page). rewrite !app_nil_r. cbn.
    split; [done|]. split; [done|]. split.
    + unfold itemsOf. cbn. by rewrite app_nil_r.
    + done.
Qed.

(** A resolved listing call leaves exactly its page in the transcript. *)
Ltac one_page :=
  let Hc := fresh in
  intros ? ? ? ? ? Hc; unfold call in Hc;
  match type of Hc with
  | context [aws ?R ?c ?w] => destruct (aws R c w) as [[?|[]] ?]
  end;
  cbn in Hc; [discriminate|]; injection Hc as <- <- <-;
  split; [repeat constructor; eauto|done].

Ltac same_body :=
  intros ? ? ?; rewrite !bind_run; cbn; unfold call;
  match goal with
  | |- context [aws ?R ?c ?w] => destruct (aws R c w) as [[?|[]] ?]
  end; reflexivity.

(** What a lister that returned has done: it drained the pages from the
    empty cursor, nothing else is in its transcript, and its result is
    the sorted collection of the items served. *)
Lemma getAllFunctions_transcript fuel w res w' log :
  getAllFunctions aws fuel w = (Done res, w', log) ->
  Drain None (pagesOf log) /\ length (pagesOf log) = length log /\
  res = sortNewestFirst LastModified (itemsOf (pagesOf log)).
Proof.
  unfold getAllFunctions. intros Hrun.
  apply bind_Done in Hrun as (acc & w1 & l1 & l2 & Hloop & [= <- <- <-] & ->).
  rewrite app_nil_r.
  eapply (drain_loop (fun _ => True)
            (fun Marker => call aws (lambda_listFunctions Marker 10))
            (fun '(ListFunctionsOutput Functions _) => Functions)
            (fun '(ListFunctionsOutput _ NextMarker) => truthy NextMarker)
            (fun '(ListFunctionsOutput _ NextMarker) => NextMarker))
    in Hloop as (? & ? & -> & _); [done|same_body|one_page].
Qed.

(** The log-group lister moreover only ever asks for the groups whose
    name starts with [/aws/]. *)
Lemma getAllLogGroups_transcript fuel w res w' log :
  getAllLogGroups aws fuel w = (Done res, w', log) ->
  Drain None (pagesOf log) /\ length (pagesOf log) = length log /\
  res = sortNewestFirst creationTime (itemsOf (pagesOf log)) /\
  Forall (fun e => exists nextToken answer,
              e = Called (cloudWatchLogs_describeLogGroups "/aws/" 50 nextToken) answer)
         log.
Proof.
  unfold getAllLogGroups. intros Hrun.
  apply bind_Done in Hrun as (acc & w1 & l1 & l2 & Hloop & [= <- <- <-] & ->).
  rewrite app_nil_r.
  eapply (drain_loop _
            (fun Marker => call aws (cloudWatchLogs_describeLogGroups "/aws/" 50 Marker))
            (fun '(DescribeLogGroupsOutput logGroups _) => logGroups)
            (fun '(DescribeLogGroupsOutput _ nextToken) => truthy nextToken)
            (fun '(DescribeLogGroupsOutput _ nextToken) => nextToken))
    in Hloop as (? & ? & -> & HP); [split_and!; [done..|exact HP]|same_body|one_page].
Qed.

Lemma getAllApiGateways_transcript fuel w res w' log :
  getAllApiGateways aws fuel w = (Done res, w', log) ->
  Drain None (pagesOf log) /\ length (pagesOf log) = length log /\
  res = sortNewestFirst createdDate (itemsOf (pagesOf log)).
Proof.
  unfold getAllApiGateways. intros Hrun.
  apply bind_Done in Hrun as (acc & w1 & l1 & l2 & Hloop & [= <- <- <-] & ->).
  rewrite app_nil_r.
  eapply (drain_loop (fun _ => True)
            (fun Marker => call aws (apiGateway_getRestApis Marker 10))
            (fun '(RestApisOutput items _) => items)
            (fun '(RestApisOutput _ position) => truthy position)
            (fun '(RestApisOutput _ position) => position))
    in Hloop as (? & ? & -> & _); [done|same_body|one_page].
Qed.

(** [listBuckets] is not paginated: one call, one page. *)
Lemma getAllBuckets_transcript w res w' log :
  getAllBuckets aws w = (Done res, w', log) ->
  Drain None (pagesOf log) /\ length (pagesOf log) = length log /\
  res = sortNewestFirst CreationDate (itemsOf (pagesOf log)).
Proof.
  unfold getAllBuckets. intros Hrun.
  apply bind_Done in Hrun as ([Buckets] & w1 & l1 & l2 & Hcall & [= <- <- <-] & ->).
  unfold call in Hcall. destruct (aws _ s3_listBuckets w) as [[e|[Buckets']] w2];
    cbn in Hcall; [discriminate|]. injection Hcall as <- <- <-.
  cbn. unfold itemsOf. cbn. by rewrite app_nil_r.
Qed.

Lemma getAllCloudFrontDistributions_transcript fuel w res w' log :
  getAllCloudFrontDistributions aws fuel w = (Done res, w', log) ->
  Drain None (pagesOf log) /\ length (pagesOf log) = length log /\
  res = sortNewestFirst LastModifiedTime (itemsOf (pagesOf log)).
Proof.
  unfold getAllCloudFrontDistributions. intros Hrun.
  apply bind_Done in Hrun as (acc & w1 & l1 & l2 & Hloop & [= <- <- <-] & ->).
  rewrite app_nil_r.
  eapply (drain_loop (fun _ => True)
            (fun Marker => call aws (cloudFront_listDistributions Marker "20"))
            (fun '(DistributionListOutput _ Items _) => Items)
            (fun '(DistributionListOutput IsTruncated _ _) => IsTruncated)
            (fun '(DistributionListOutput _ _ NextMarker) => NextMarker))
    in Hloop as (? & ? & -> & _); [done|same_body|one_page].
Qed.

(** The role lister sorts what is left of the items served once the
    system roles are filtered out. *)
Lemma getAllIAMRoles_transcript fuel w res w' log :
  getAllIAMRoles aws fuel w = (Done res, w', log) ->
  Drain None (pagesOf log) /\ length (pagesOf log) = length log /\
  res = sortNewestFirst CreateDate
          (filter (fun r => notSystemRole r) (itemsOf (pagesOf log))).
Proof.
  unfold getAllIAMRoles. intros Hrun.
  apply bind_Done in Hrun as (acc & w1 & l1 & l2 & Hloop & [= <- <- <-] & ->).
  rewrite app_nil_r.
  eapply (drain_loop (fun _ => True)
            (fun Marker => call aws (iam_listRoles Marker 100))
            (fun '(ListRolesOutput _ _ Roles) => Roles)
            (fun '(ListRolesOutput _ IsTruncated _) => IsTruncated)
            (fun '(ListRolesOutput NextMarker _ _) => NextMarker))
    in Hloop as (? & ? & -> & _); [done|same_body|one_page].
Qed.
End Listers.

(** ** What the listers return *)

Lemma itemsOf_length pages : length (itemsOf pages) = pageSizes pages.
Proof.
  induction pages as [|p pages IH]; [done|].
  unfold itemsOf, pageSizes in *. cbn. by rewrite length_app, IH.
Qed.

Lemma filter_all_kept kind (l : list Resource) :
  kind <> IamRole -> filter (fun r => keptBy kind r) l = l.
Proof.
  intros Hkind. induction l as [|x l IH]; [done|].
  rewrite filter_cons_True; [by rewrite IH|]. by destruct kind.
Qed.

(** The transcript lemmas of the six listers, by kind. *)
Lemma listerOf_transcript {W} (aws : Provider W) kind fuel w res w' log :
  listerOf aws kind fuel w = (Done res, w', log) ->
  Drain None (pagesOf log) /\ length (pagesOf log) = length log /\
  exists time,
    res = sortNewestFirst time (filter (fun r => keptBy kind r) (itemsOf (pagesOf log))).
Proof.
  destruct kind; cbn [listerOf]; intros Hrun.
  - apply getAllFunctions_transcript in Hrun as (? & ? & ->).
    split_and!; [done..|]. eexists. by rewrite filter_all_kept.
  - apply getAllLogGroups_transcript in Hrun as (? & ? & -> & _).
    split_and!; [done..|]. eexists. by rewrite filter_all_kept.
  - apply getAllApiGateways_transcript in Hrun as (? & ? & ->).
    split_and!; [done..|]. eexists. by rewrite filter_all_kept.
  - apply getAllBuckets_transcript in Hrun as (? & ? & ->).
    split_and!; [done..|]. eexists. by rewrite filter_all_kept.
  - apply getAllCloudFrontDistributions_transcript in Hrun as (? & ? & ->).
    split_and!; [done..|]. eexists. by rewrite filter_all_kept.
  - apply getAllIAMRoles_transcript in Hrun as (? & ? & ->).
    split_and!; [done..|]. by eexists.
Qed.

(** C4, as stated, fails: the lister of the log groups does not return
    every log group of the account. A group whose name does not start with
    [/aws/] exists and is visible, and is not in the result. *)
Lemma log_group_outside_prefix_not_listed :
  exists res,
    (getAllLogGroups (logGroupsOf [lambdaLogGroup; customLogGroup]) 1 tt).1.1 = Done res /\
    customLogGroup ∈ [lambdaLogGroup; customLogGroup] /\
    customLogGroup ∉ res.
Proof.
  exists [lambdaLogGroup]. split; [reflexivity|]. split.
  - apply list_elem_of_In. right. by left.
  - intros [=]%list_elem_of_singleton.
Qed.

(** C4 (amended). For every kind, a lister that returns has drained the
    listing: its transcript consists of the pages served from the empty
    cursor on, each request carrying the cursor of the page before it, up
    to the first page without a continuation signal (one unpaginated call
    for the buckets), and every item of every one of those pages is in the
    result, except the system roles that the role lister drops. The
    log-group lister only ever requests the groups whose name starts with
    [/aws/]. *)
Theorem lister_drains_all_pages {W} (aws : Provider W) kind fuel w res w' log :
  listerOf aws kind fuel w = (Done res, w', log) ->
  Drain None (pagesOf log) /\
  length (pagesOf log) = length log /\
  (forall x, x ∈ itemsOf (pagesOf log) -> keptBy kind x = true -> x ∈ res) /\
  (kind = LogGroup ->
   Forall (fun e => exists nextToken answer,
               e = Called (cloudWatchLogs_describeLogGroups "/aws/" 50 nextToken) answer)
          log).
Proof.
  intros Hrun.
  destruct (listerOf_transcript _ _ _ _ _ _ _ Hrun) as (Hdrain & Hlen & time & ->).
  split; [done|]. split; [done|]. split.
  - intros x Hx Hkept. apply sortNewestFirst_elem, list_elem_of_filter.
    split; [|done]. by rewrite Hkept.
  - intros ->. cbn in Hrun. by apply getAllLogGroups_transcript in Hrun as (_ & _ & _ & ?).
Qed.

Lemma lister_drains_all_pages_witness :
  exists res w' log,
    listerOf (scripted (playing twoFunctionPages)) Lambda 5 0%nat = (Done res, w', log) /\
    Drain None (pagesOf log) /\
    length (pagesOf log) = length log /\
    (forall x, x ∈ itemsOf (pagesOf log) -> keptBy Lambda x = true -> x ∈ res) /\
    (Lambda = LogGroup ->
     Forall (fun e => exists nextToken answer,
                 e = Called (cloudWatchLogs_describeLogGroups "/aws/" 50 nextToken) answer)
            log).
Proof.
  eexists _, _, _. split; [reflexivity|].
  eapply (lister_drains_all_pages (scripted (playing twoFunctionPages)) Lambda 5 0%nat).
  reflexivity.
Defined.

(** C5, as stated, fails: when the provider serves the same page again
    under the next cursor, the lister returns its item twice. *)
Lemma reissued_page_is_duplicated :
  (getAllFunctions (scripted (playing reissuedPages)) 5 0%nat).1.1
    = Done [newFunction; newFunction] /\
  ~ NoDup [newFunction; newFunction].
Proof.
  split; [reflexivity|].
  intros Hnodup. apply NoDup_cons in Hnodup as [Hnotin _].
  apply Hnotin. by left.
Qed.

(** C5 (amended). For every kind, the collection a lister returns is a
    rearrangement of all the items of all the pages served, taken with
    their multiplicity (an item served twice is returned twice), less the
    system roles for the role lister; for the five other kinds its size is
    the sum of the page sizes. *)
Theorem lister_returns_the_pages {W} (aws : Provider W) kind fuel w res w' log :
  listerOf aws kind fuel w = (Done res, w', log) ->
  res ≡ₚ filter (fun r => keptBy kind r) (itemsOf (pagesOf log)) /\
  (kind <> IamRole -> length res = pageSizes (pagesOf log)) /\
  (length res <= pageSizes (pagesOf log))%nat.
Proof.
  intros Hrun.
  destruct (listerOf_transcript _ _ _ _ _ _ _ Hrun) as (_ & _ & time & ->).
  split; [apply sortNewestFirst_Permutation|]. split.
  - intros Hkind. by rewrite sortNewestFirst_length, filter_all_kept, itemsOf_length.
  - rewrite sortNewestFirst_length, <- itemsOf_length. apply length_filter.
Qed.

Lemma lister_returns_the_pages_witness :
  exists res w' log,
    listerOf (scripted (playing reissuedPages)) Lambda 5 0%nat = (Done res, w', log) /\
    res ≡ₚ filter (fun r => keptBy Lambda r) (itemsOf (pagesOf log)) /\
    (Lambda <> IamRole -> length res = pageSizes (pagesOf log)) /\
    (length res <= pageSizes (pagesOf log))%nat.
Proof.
  eexists _, _, _. split; [reflexivity|].
  eapply (lister_returns_the_pages (scripted (playing reissuedPages)) Lambda 5 0%nat).
  reflexivity.
Defined.

(** C9. Whatever roles the provider serves, no role returned by the role
    lister has a name that begins with [AWSService] or with
    [OrganizationAccount]; the filter is applied to the accumulated roles
    and the sort to what the filter leaves, so the result is the filtered
    collection ordered newest first. *)
Theorem iam_roles_exclude_system_roles {W} (aws : Provider W) fuel w res w' log :
  getAllIAMRoles aws fuel w = (Done res, w', log) ->
  Forall (fun r => String.prefix "AWSService" (RoleName r) = false /\
                   String.prefix "OrganizationAccount" (RoleName r) = false) res /\
  res = sortNewestFirst CreateDate
          (filter (fun r => notSystemRole r) (itemsOf (pagesOf log))) /\
  Sorted (fun a b => CreateDate b <= CreateDate a) res.
Proof.
  intros Hrun. apply getAllIAMRoles_transcript in Hrun as (_ & _ & ->).
  split; [|split; [done|apply sortNewestFirst_sorted]].
  apply Forall_forall. intros r Hr.
  apply sortNewestFirst_elem, list_elem_of_filter in Hr as [Hkept _].
  unfold notSystemRole in Hkept.
  apply andb_prop_elim in Hkept as [H1 H2].
  apply negb_prop_elim in H1, H2.
  split; [by destruct (String.prefix "AWSService" _)
         |by destruct (String.prefix "OrganizationAccount" _)].
Qed.

Lemma iam_roles_exclude_system_roles_witness :
  exists res w' log,
    getAllIAMRoles (scripted (playing rolePages)) 5 0%nat = (Done res, w', log) /\
    res = [cmsRole; deployRole] /\
    Forall (fun r => String.prefix "AWSService" (RoleName r) = false /\
                     String.prefix "OrganizationAccount" (RoleName r) = false) res /\
    res = sortNewestFirst CreateDate
            (filter (fun r => notSystemRole r) (itemsOf (pagesOf log))) /\
    Sorted (fun a b => CreateDate b <= CreateDate a) res.
Proof.
  eexists _, _, _. split; [reflexivity|]. split; [reflexivity|].
  eapply (iam_roles_exclude_system_roles (scripted (playing rolePages)) 5 0%nat).
  reflexivity.
Defined.

(** ** The task generator *)

Lemma select_entry (resources : Selection) k items :
  NoDup (map fst resources) -> (k, items) ∈ resources -> select resources k = items.
Proof.
  induction resources as [|[k' items'] resources IH]; cbn; intros Hnodup Hin.
  - by apply elem_of_nil in Hin.
  - apply NoDup_cons in Hnodup as [Hfresh Hnodup].
    apply elem_of_cons in Hin as [[= <- <-]|Hin].
    + by rewrite String.eqb_refl.
    + destruct (String.eqb_spec k' k) as [->|_]; [|by apply IH].
      destruct Hfresh. apply list_elem_of_fmap. by exists (k, items).
Qed.

(** The [switch] yields a task exactly for the six supported kinds, and the
    task it yields is the one described for the entry. *)
Lemma taskOf_entry {W} (aws : Provider W) (resources : Selection) k items :
  select resources k = items ->
  taskOf aws resources k =
  if supported (k, items) then Some (taskFor aws (k, items)) else None.
Proof.
  intros <-. unfold taskOf, supported, taskFor, titleOf, procedureOf, kindLabel. cbn.
  destruct (String.eqb_spec k "lambda") as [->|?]; [reflexivity|].
  destruct (String.eqb_spec k "bucket") as [->|?]; [reflexivity|].
  destruct (String.eqb_spec k "api-gateway") as [->|?]; [reflexivity|].
  destruct (String.eqb_spec k "iam-role") as [->|?]; [reflexivity|].
  destruct (String.eqb_spec k "cloudfront") as [->|?]; [reflexivity|].
  destruct (String.eqb_spec k "log-group") as [->|?]; reflexivity.
Qed.

Lemma generateTasks_entries {W} (aws : Provider W) (all resources : Selection) :
  (forall k items, (k, items) ∈ resources -> select all k = items) ->
  omap (fun t => t) (map (taskOf aws all) (map fst resources)) =
  map (taskFor aws) (filter (fun entry => supported entry) resources).
Proof.
  induction resources as [|[k items] resources IH]; intros Hsel; [done|].
  specialize (IH (fun k' items' Hin => Hsel k' items' (list_elem_of_further _ _ _ Hin))).
  rewrite filter_cons. cbn. rewrite IH.
  rewrite (taskOf_entry aws all k items) by (apply Hsel; by left).
  by destruct (supported (k, items)).
Qed.

(** C8. For every selection, [generateTasks] returns one task for each
    entry of a supported kind, in the order of the keys of the selection:
    the task is titled "Delete", the number of items selected for the kind
    and the label of the kind, and runs the procedure of the kind on those
    items. Entries of other kinds yield nothing, so the number of tasks is
    the number of supported kinds present. *)
Theorem generateTasks_one_task_per_kind {W} (aws : Provider W) (resources : Selection) :
  NoDup (map fst resources) ->
  generateTasks aws resources
    = map (taskFor aws) (filter (fun entry => supported entry) resources) /\
  map title (generateTasks aws resources)
    = map titleOf (filter (fun entry => supported entry) resources) /\
  length (generateTasks aws resources)
    = length (filter (fun entry => supported entry) resources).
Proof.
  intros Hnodup.
  assert (generateTasks aws resources
          = map (taskFor aws) (filter (fun entry => supported entry) resources)) as ->.
  { apply generateTasks_entries. intros k items. by apply select_entry. }
  split; [done|]. split.
  - by rewrite map_map.
  - by rewrite length_map.
Qed.

Lemma generateTasks_one_task_per_kind_witness :
  NoDup (map fst sampleSelection) /\
  map title (generateTasks (scripted (playing [])) sampleSelection)
    = ["Delete 2 Lambda functions"; "Delete 1 IAM roles"; "Delete 0 buckets"] /\
  generateTasks (scripted (playing [])) sampleSelection
    = map (taskFor (scripted (playing [])))
          (filter (fun entry => supported entry) sampleSelection) /\
  map title (generateTasks (scripted (playing [])) sampleSelection)
    = map titleOf (filter (fun entry => supported entry) sampleSelection) /\
  length (generateTasks (scripted (playing [])) sampleSelection)
    = length (filter (fun entry => supported entry) sampleSelection).
Proof.
  assert (NoDup (map fst sampleSelection)) as Hnodup.
  { apply (bool_decide_unpack _). vm_compute. exact I. }
  split; [exact Hnodup|]. split; [vm_compute; reflexivity|].
  exact (generateTasks_one_task_per_kind (scripted (playing [])) sampleSelection Hnodup).
Defined.

(** ** Counting calls in transcripts *)

Lemma count_app p l1 l2 : count p (l1 ++ l2) = (count p l1 + count p l2)%nat.
Proof. unfold count. by rewrite List.filter_app, length_app. Qed.

Lemma count_cons p e l :
  count p (e :: l) = ((if p e then 1 else 0) + count p l)%nat.
Proof. unfold count. cbn. by destruct (p e). Qed.

Lemma count_nil p : count p [] = 0%nat.
Proof. reflexivity. Qed.

Lemma count_map_all {X} p (f : X -> Event) xs :
  (forall x, p (f x) = true) -> count p (map f xs) = length xs.
Proof.
  intros Hp. induction xs as [|x xs IH]; [done|].
  cbn [map]. rewrite count_cons, Hp, IH. done.
Qed.

Lemma count_map_none {X} p (f : X -> Event) xs :
  (forall x, p (f x) = false) -> count p (map f xs) = 0%nat.
Proof.
  intros Hp. induction xs as [|x xs IH]; [done|].
  cbn [map]. rewrite count_cons, Hp, IH. done.
Qed.

(** Counts the calls of a transcript built from events, appended parts and
    mapped lists of calls. *)
Ltac count_calls :=
  repeat first
    [ rewrite count_app
    | rewrite count_cons
    | rewrite count_nil
    | match goal with
      | |- context [count ?p (map ?f ?xs)] =>
          first [ rewrite (count_map_none p f xs) by done
                | rewrite (count_map_all p f xs) by done ]
      end ];
  cbn.

(** ** The deletion procedures *)

Section Deletions.
Context {W : Type} (aws : Provider W).

Lemma call_run {R} (c : Call R) w :
  call aws c w =
  (match (aws R c w).1 with inl e => Throw (Err e) | inr v => Done v end,
   (aws R c w).2, [Called c (aws R c w).1]).
Proof. unfold call. by destruct (aws R c w). Qed.

(** A [for] loop of calls without a response body: either every call
    resolved, or the loop stopped at the first call that was rejected. *)
Lemma forEach_calls {X} (c : X -> Call unit) (xs : list X) w :
  let '(out, _, log) := forEach xs (fun x => call aws (c x)) w in
  (out = Done tt /\ log = map (fun x => Called (c x) (inr tt)) xs) \/
  (exists pre x e,
      out = Throw (Err e) /\
      log = map (fun x => Called (c x) (inr tt)) pre ++ [Called (c x) (inl e)]).
Proof.
  revert w. induction xs as [|x xs IH]; intros w; [by left|].
  rewrite forEach_cons, call_run.
  destruct (aws unit (c x) w) as [[e|[]] w1]; cbn.
  - right. by exists [], x, e.
  - specialize (IH w1).
    destruct (forEach xs _ w1) as [[out w2] log].
    destruct IH as [[-> ->]|(pre & y & e & -> & ->)]; [by left|].
    right. by exists (x :: pre), y, e.
Qed.

(** C7. For every role, whenever the role-delete call is issued, the
    transcript of the role is: the announcement, the listing of the
    inline policies, one inline-policy delete call for each of the I
    names it reported, the listing of the attachments, one detach call
    for each of the A attachments it reported, and last the role-delete
    call. So exactly I inline-policy deletions and exactly A detachments
    are issued, all of them before the one role-delete call. *)
Theorem role_policies_cleared_before_delete (r : Resource) w out w' log :
  iamRoleItem aws r w = (out, w', log) ->
  (0 < count deletesRole log)%nat ->
  exists PolicyNames AttachedPolicies answer,
    log =
      [ Next ("Deleting " +:+ RoleName r +:+ "...");
        Called (iam_listRolePolicies (RoleName r))
               (inr (ListRolePoliciesOutput PolicyNames)) ]
      ++ map (fun PolicyName =>
                Called (iam_deleteRolePolicy (RoleName r) PolicyName) (inr tt))
             PolicyNames
      ++ [ Called (iam_listAttachedRolePolicies (RoleName r))
                  (inr (ListAttachedRolePoliciesOutput AttachedPolicies)) ]
      ++ map (fun attached =>
                Called (iam_detachRolePolicy (RoleName r) (PolicyArn attached)) (inr tt))
             AttachedPolicies
      ++ [ Called (iam_deleteRole (RoleName r)) answer ] /\
    count deletesRolePolicy log = length PolicyNames /\
    count detachesRolePolicy log = length AttachedPolicies /\
    count deletesRole log = 1%nat.
Proof.
  unfold iamRoleItem, observer_next, emit. intros Hrun Hdeleted.
  rewrite bind_run in Hrun. cbn -[String.append] in Hrun.
  rewrite bind_run, call_run in Hrun.
  destruct (aws _ (iam_listRolePolicies (RoleName r)) w) as [[e|[PolicyNames]] w1];
    cbn -[String.append] in Hrun.
  { injection Hrun as <- <- <-. cbv in Hdeleted. lia. }
  rewrite bind_run in Hrun.
  pose proof (forEach_calls (fun PolicyName => iam_deleteRolePolicy (RoleName r) PolicyName)
                PolicyNames w1) as Hinline.
  destruct (forEach PolicyNames _ w1) as [[out1 w2] log1].
  destruct Hinline as [[-> ->]|(pre & x & e & -> & ->)].
  2:{ injection Hrun as <- <- <-. exfalso. revert Hdeleted. count_calls. lia. }
  rewrite bind_run, call_run in Hrun.
  destruct (aws _ (iam_listAttachedRolePolicies (RoleName r)) w2)
    as [[e|[AttachedPolicies]] w3]; cbn -[String.append] in Hrun.
  { injection Hrun as <- <- <-. exfalso. revert Hdeleted. count_calls. lia. }
  rewrite bind_run in Hrun.
  pose proof (forEach_calls
                (fun attached => iam_detachRolePolicy (RoleName r) (PolicyArn attached))
                AttachedPolicies w3) as Hattached.
  destruct (forEach AttachedPolicies _ w3) as [[out2 w4] log2].
  destruct Hattached as [[-> ->]|(pre & x & e & -> & ->)].
  2:{ injection Hrun as <- <- <-. exfalso. revert Hdeleted. count_calls. lia. }
  rewrite call_run in Hrun.
  exists PolicyNames, AttachedPolicies, (aws _ (iam_deleteRole (RoleName r)) w4).1.
  injection Hrun as <- <- <-. split; [reflexivity|].
  count_calls. split_and!; lia.
Qed.

(** When no call is rejected the role-delete call is reached. *)
Lemma role_delete_reached (r : Resource) w :
  Forall (fun e => match e with Called _ (inl _) => False | _ => True end)
         (iamRoleItem aws r w).2 ->
  (0 < count deletesRole (iamRoleItem aws r w).2)%nat.
Proof.
  unfold iamRoleItem, observer_next, emit.
  rewrite bind_run. cbn -[String.append].
  rewrite bind_run, call_run.
  destruct (aws _ (iam_listRolePolicies (RoleName r)) w) as [[e|[PolicyNames]] w1];
    cbn -[String.append].
  { intros Hok. apply Forall_cons in Hok as [_ Hok]. by apply Forall_cons in Hok as [[] _]. }
  rewrite bind_run.
  pose proof (forEach_calls (fun PolicyName => iam_deleteRolePolicy (RoleName r) PolicyName)
                PolicyNames w1) as Hinline.
  destruct (forEach PolicyNames _ w1) as [[out1 w2] log1].
  destruct Hinline as [[-> ->]|(pre & x & e & -> & ->)].
  2:{ cbn. intros Hok. do 2 apply Forall_cons in Hok as [_ Hok].
      apply Forall_app in Hok as [_ Hok]. by apply Forall_cons in Hok as [[] _]. }
  rewrite bind_run, call_run.
  destruct (aws _ (iam_listAttachedRolePolicies (RoleName r)) w2)
    as [[e|[AttachedPolicies]] w3]; cbn -[String.append].
  { intros Hok. do 2 apply Forall_cons in Hok as [_ Hok].
    apply Forall_app in Hok as [_ Hok]. by apply Forall_cons in Hok as [[] _]. }
  rewrite bind_run.
  pose proof (forEach_calls
                (fun attached => iam_detachRolePolicy (RoleName r) (PolicyArn attached))
                AttachedPolicies w3) as Hattached.
  destruct (forEach AttachedPolicies _ w3) as [[out2 w4] log2].
  destruct Hattached as [[-> ->]|(pre & x & e & -> & ->)].
  2:{ cbn. intros Hok. do 2 apply Forall_cons in Hok as [_ Hok].
      apply Forall_app in Hok as [_ Hok]. apply Forall_cons in Hok as [_ Hok].
      apply Forall_app in Hok as [_ Hok]. by apply Forall_cons in Hok as [[] _]. }
  rewrite call_run. intros _. cbn [snd]. count_calls. lia.
Qed.

(** C6. For every distribution whose configuration was fetched: if the
    configuration reports it enabled, the transcript of the distribution
    has exactly one update call, which carries the fetched configuration
    with [Enabled] set to false and the fetched [ETag], and no delete
    call; if it reports it disabled, the transcript has exactly one
    delete call, which carries the fetched [ETag], and no update call. *)
Theorem distribution_disabled_or_deleted (r : Resource) w out w' log ETag config :
  cloudfrontItem aws r w = (out, w', log) ->
  omap configOf log = [GetDistributionConfigOutput ETag config] ->
  if Enabled config
  then omap updateOf log = [(Id r, disabled config, ETag)] /\
       omap deletionOf log = [] /\
       count updatesDistribution log = 1%nat /\
       count deletesDistribution log = 0%nat
  else omap deletionOf log = [(Id r, ETag)] /\
       omap updateOf log = [] /\
       count deletesDistribution log = 1%nat /\
       count updatesDistribution log = 0%nat.
Proof.
  unfold cloudfrontItem, observer_next, observer_error, emit. intros Hrun Hfetched.
  rewrite bind_run in Hrun. cbn -[String.append] in Hrun.
  rewrite bind_run, call_run in Hrun.
  destruct (aws _ (cloudFront_getDistributionConfig (Id r)) w)
    as [[e|[ETag' config']] w1]; cbn -[String.append] in Hrun.
  { injection Hrun as <- <- <-. discriminate Hfetched. }
  destruct (Enabled config') eqn:Henabled.
  - rewrite !bind_run in Hrun. cbn -[String.append] in Hrun.
    rewrite call_run in Hrun.
    destruct (aws _ (cloudFront_updateDistribution _ _ _) w1) as [[e|[]] w2];
      cbn -[String.append] in Hrun; injection Hrun as <- <- <-;
      cbn in Hfetched; injection Hfetched as <- <-; rewrite Henabled; done.
  - unfold tryCatch in Hrun. rewrite !bind_run in Hrun. cbn -[String.append] in Hrun.
    rewrite call_run in Hrun.
    destruct (aws _ (cloudFront_deleteDistribution _ _) w1) as [[e|[]] w2];
      cbn -[String.append] in Hrun; injection Hrun as <- <- <-;
      cbn in Hfetched; injection Hfetched as <- <-; rewrite Henabled; done.
Qed.
End Deletions.

Lemma role_policies_cleared_before_delete_witness :
  exists out w' log,
    iamRoleItem (scripted (playing roleAnswers)) deployRole 0%nat = (out, w', log) /\
    (0 < count deletesRole log)%nat /\
    exists PolicyNames AttachedPolicies answer,
      log =
        [ Next ("Deleting " +:+ RoleName deployRole +:+ "...");
          Called (iam_listRolePolicies (RoleName deployRole))
                 (inr (ListRolePoliciesOutput PolicyNames)) ]
        ++ map (fun PolicyName =>
                  Called (iam_deleteRolePolicy (RoleName deployRole) PolicyName) (inr tt))
               PolicyNames
        ++ [ Called (iam_listAttachedRolePolicies (RoleName deployRole))
                    (inr (ListAttachedRolePoliciesOutput AttachedPolicies)) ]
        ++ map (fun attached =>
                  Called (iam_detachRolePolicy (RoleName deployRole) (PolicyArn attached))
                         (inr tt))
               AttachedPolicies
        ++ [ Called (iam_deleteRole (RoleName deployRole)) answer ] /\
      count deletesRolePolicy log = length PolicyNames /\
      count detachesRolePolicy log = length AttachedPolicies /\
      count deletesRole log = 1%nat.
Proof.
  eexists _, _, _. split; [reflexivity|]. split; [exact (le_n 1)|].
  eapply (role_policies_cleared_before_delete
            (scripted (playing roleAnswers)) deployRole 0%nat);
    [reflexivity|exact (le_n 1)].
Defined.

Lemma distribution_disabled_or_deleted_witness :
  exists out w' log,
    cloudfrontItem (scripted (playing enabledAnswers)) liveDistribution 0%nat
      = (out, w', log) /\
    omap configOf log
      = [GetDistributionConfigOutput "E3UN6WX5RRO2AG" (mkConfig true "api-dev" "cdn")] /\
    omap updateOf log
      = [(Id liveDistribution, disabled (mkConfig true "api-dev" "cdn"), "E3UN6WX5RRO2AG")] /\
    omap deletionOf log = [] /\
    count updatesDistribution log = 1%nat /\
    count deletesDistribution log = 0%nat.
Proof.
  eexists _, _, _. split; [reflexivity|]. split; [reflexivity|].
  eapply (distribution_disabled_or_deleted
            (scripted (playing enabledAnswers)) liveDistribution 0%nat
            _ _ _ "E3UN6WX5RRO2AG" (mkConfig true "api-dev" "cdn"));
    reflexivity.
Defined.


(** A distribution that is already disabled is deleted with the [ETag] of
    its configuration, and not updated. *)
Example disabled_distribution_is_deleted :
  cloudfrontItem (scripted (playing disabledAnswers)) liveDistribution 0%nat
  = (Done false, 2%nat,
     [ Next "Fetching d111111abcdef8.cloudfront.net configuration...";
       Called (cloudFront_getDistributionConfig "E2QWRUHAPOMQZL")
              (inr (GetDistributionConfigOutput "E1F83G8C2ARO7P"
                      (mkConfig false "api-dev" "cdn")));
       Next "Deleting d111111abcdef8.cloudfront.net...";
       Called (cloudFront_deleteDistribution "E2QWRUHAPOMQZL" "E1F83G8C2ARO7P") (inr tt) ]).
Proof. reflexivity. Qed.

(** The task goes on to the next distribution after disabling one, and
    completes after the last. *)
Example enabled_then_disabled :
  let log := (cloudfrontRun (scripted (playing (enabledAnswers ++ disabledAnswers)))
                [liveDistribution; staleDistribution] 0%nat).2 in
  omap updateOf log
    = [("E2QWRUHAPOMQZL", mkConfig false "api-dev" "cdn", "E3UN6WX5RRO2AG")] /\
  omap deletionOf log = [("E1A2B3C4D5E6F7", "E1F83G8C2ARO7P")] /\
  last log = Some Complete.
Proof. by repeat split. Qed.

(** ** The bucket procedure *)

Lemma count_draining_listings Bucket Marker pages :
  count listsObjects (draining Bucket Marker pages) = length pages.
Proof.
  revert Marker. induction pages as [|[Contents IsTruncated] pages IH]; intros Marker; [done|].
  cbn [draining]. rewrite !count_cons, count_app, IH.
  destruct (length Contents =? 0)%nat; cbn; reflexivity.
Qed.

Lemma count_draining_deletions Bucket Marker pages :
  count deletesObjects (draining Bucket Marker pages)
  = length (filter (fun page => isEmptyPage page = false) pages).
Proof.
  revert Marker. induction pages as [|[Contents IsTruncated] pages IH]; intros Marker; [done|].
  cbn [draining]. rewrite !count_cons, count_app, IH, filter_cons.
  cbn. destruct (length Contents =? 0)%nat; cbn; reflexivity.
Qed.

Lemma count_draining_bucket_deletions Bucket Marker pages :
  count deletesBucket (draining Bucket Marker pages) = 0%nat.
Proof.
  revert Marker. induction pages as [|[Contents IsTruncated] pages IH]; intros Marker; [done|].
  cbn [draining]. rewrite !count_cons, count_app, IH.
  destruct (length Contents =? 0)%nat; cbn; reflexivity.
Qed.

Lemma objectPages_draining Bucket Marker pages :
  omap objectPageOf (draining Bucket Marker pages) = pages.
Proof.
  revert Marker. induction pages as [|[Contents IsTruncated] pages IH]; intros Marker; [done|].
  cbn [draining]. cbn. rewrite omap_app, IH.
  by destruct (length Contents =? 0)%nat.
Qed.

(** Every page of a finished drain but the last one is non-empty. *)
Lemma Drained_nonempty pages :
  Drained pages ->
  (length pages <= S (length (filter (fun page => isEmptyPage page = false) pages)))%nat.
Proof.
  induction pages as [|page pages IH]; [done|].
  cbn [Drained]. destruct pages as [|page' pages]; [cbn; lia|].
  intros [Hgoes Hrest]. specialize (IH Hrest).
  rewrite filter_cons. destruct page as [Contents IsTruncated].
  cbn in Hgoes. apply orb_false_iff in Hgoes as [Hne _].
  cbn [isEmptyPage]. rewrite Hne. cbn [length] in *. destruct (decide _); [cbn [length]; lia|done].
Qed.

Section Buckets.
Context {W : Type} (aws : Provider W).

(** A drain that came to its end went through pages that form a finished
    drain and left the transcript of draining them. *)
Lemma emptyBucket_drains fuel Bucket Marker w w' log :
  whileTrue fuel (emptyBucketTurn aws Bucket) Marker w = (Done tt, w', log) ->
  exists pages, Drained pages /\ log = draining Bucket Marker pages.
Proof.
  revert Marker w w' log.
  induction fuel as [|fuel IH]; intros Marker w w' log Hrun; [done|].
  cbn [whileTrue] in Hrun. rewrite bind_run in Hrun.
  unfold emptyBucketTurn at 1, observer_next, emit in Hrun.
  rewrite bind_run in Hrun. cbn -[String.append whileTrue] in Hrun.
  rewrite bind_run, call_run in Hrun.
  destruct (aws _ (s3_listObjects Bucket Marker) w) as [[e|[Contents IsTruncated]] w1];
    cbn -[String.append whileTrue] in Hrun; [discriminate|].
  destruct (length Contents =? 0)%nat eqn:Hempty.
  - cbn -[String.append] in Hrun. injection Hrun as <- <-.
    exists [ListObjects Contents IsTruncated]. split.
    + cbn. by rewrite Hempty.
    + cbn -[String.append]. by rewrite Hempty.
  - rewrite bind_run, call_run in Hrun.
    destruct (aws _ (s3_deleteObjects _ _) w1) as [[e|[]] w2];
      cbn -[String.append whileTrue] in Hrun; [discriminate|].
    destruct IsTruncated; cbn -[String.append whileTrue] in Hrun.
    + destruct (whileTrue fuel _ _ w2) as [[[[]|e|] w3] log3] eqn:Hrest;
        try discriminate.
      injection Hrun as <- <-.
      apply IH in Hrest as (pages & Hdrained & ->).
      exists (ListObjects Contents true :: pages). split.
      * cbn [Drained]. destruct pages; [destruct Hdrained|].
        split; [|done]. cbn. by rewrite Hempty.
      * cbn -[String.append]. by rewrite Hempty.
    + injection Hrun as <- <-.
      exists [ListObjects Contents false]. split.
      * cbn. by rewrite Hempty.
      * cbn -[String.append]. by rewrite Hempty.
Qed.

(** The drain itself never issues the bucket-delete call. *)
Lemma emptyBucket_keeps_bucket fuel Bucket Marker w :
  count deletesBucket (whileTrue fuel (emptyBucketTurn aws Bucket) Marker w).2 = 0%nat.
Proof.
  revert Marker w. induction fuel as [|fuel IH]; intros Marker w; [done|].
  cbn [whileTrue]. rewrite bind_run.
  unfold emptyBucketTurn at 1, observer_next, emit.
  rewrite bind_run. cbn -[String.append whileTrue].
  rewrite bind_run, call_run.
  destruct (aws _ (s3_listObjects Bucket Marker) w) as [[e|[Contents IsTruncated]] w1];
    cbn -[String.append whileTrue]; [done|].
  destruct (length Contents =? 0)%nat; [done|].
  rewrite bind_run, call_run.
  destruct (aws _ (s3_deleteObjects _ _) w1) as [[e|[]] w2];
    cbn -[String.append whileTrue]; [done|].
  destruct IsTruncated; cbn -[String.append whileTrue]; [|done].
  specialize (IH (Key <$> last Contents) w2).
  destruct (whileTrue fuel _ _ w2) as [[out3 w3] log3].
  cbn [snd] in IH.
  assert (count deletesBucket
            (Next ("Emptying " +:+ Bucket +:+ "...")
             :: Called (s3_listObjects Bucket Marker) (inr (ListObjects Contents true))
             :: Called (s3_deleteObjects Bucket (map (fun obj => Key obj) Contents)) (inr tt)
             :: log3) = 0%nat) as Hcount.
  { rewrite !count_cons, IH. reflexivity. }
  by destruct out3.
Qed.

(** C1 (amended). For every selected bucket, whenever the bucket-delete
    call is issued, the transcript of the bucket is the transcript of a
    finished drain followed by the announcement and the bucket-delete
    call: the objects were listed page after page, every non-empty page
    was batch-deleted, and the listing went on until a page was empty or
    was not truncated. With P pages served, exactly P listing calls and
    one delete-objects call for each non-empty page (P, or P - 1 when the
    last page is empty) precede the one bucket-delete call. *)
Theorem bucket_drained_before_delete fuel (r : Resource) w out w' log :
  bucketItem aws fuel r w = (out, w', log) ->
  (0 < count deletesBucket log)%nat ->
  exists pages answer,
    Drained pages /\
    log = draining (Name r) None pages
          ++ [ Next ("Deleting " +:+ Name r +:+ "...");
               Called (s3_deleteBucket (Name r)) answer ] /\
    omap objectPageOf log = pages /\
    count listsObjects log = length pages /\
    count deletesObjects log
      = length (filter (fun page => isEmptyPage page = false) pages) /\
    (length pages - 1 <= count deletesObjects log <= length pages)%nat /\
    count deletesBucket log = 1%nat.
Proof.
  unfold bucketItem, emptyBucket, observer_next, emit. intros Hrun Hdeleted.
  rewrite bind_run in Hrun.
  destruct (whileTrue fuel _ None w) as [[[[]|e|] w1] log1] eqn:Hdrain.
  2,3: injection Hrun as <- <- <-.
  - apply emptyBucket_drains in Hdrain as (pages & Hdrained & ->).
    rewrite bind_run in Hrun. cbn -[String.append] in Hrun.
    rewrite call_run in Hrun. cbn -[String.append] in Hrun.
    injection Hrun as <- <- <-.
    exists pages, (aws _ (s3_deleteBucket (Name r)) w1).1.
    split; [done|]. split; [done|].
    rewrite omap_app, objectPages_draining.
    rewrite !count_app, !count_cons, !count_nil.
    rewrite count_draining_listings, count_draining_deletions,
      count_draining_bucket_deletions.
    pose proof (Drained_nonempty pages Hdrained).
    pose proof (length_filter (fun page => isEmptyPage page = false) pages).
    cbn. rewrite app_nil_r. split_and!; try done; lia.
  - pose proof (emptyBucket_keeps_bucket fuel (Name r) None w) as Hkept.
    rewrite Hdrain in Hkept. cbn [snd] in Hkept. lia.
  - pose proof (emptyBucket_keeps_bucket fuel (Name r) None w) as Hkept.
    rewrite Hdrain in Hkept. cbn [snd] in Hkept. lia.
Qed.
End Buckets.

(** C1, as stated, fails: the bucket-delete call is issued although no
    page of the listing ever came back empty. The drain also stops at a
    page that is not truncated. *)
Lemma bucket_deleted_without_empty_page :
  count deletesBucket
    (bucketItem (scripted (playing onePageAnswers)) 5 assetsBucket 0%nat).2 = 1%nat /\
  omap objectPageOf
    (bucketItem (scripted (playing onePageAnswers)) 5 assetsBucket 0%nat).2
    = [ListObjects [mkObject "index.html" 120; mkObject "app.js" 4096] false] /\
  Forall (fun page => isEmptyPage page = false)
    (omap objectPageOf
       (bucketItem (scripted (playing onePageAnswers)) 5 assetsBucket 0%nat).2).
Proof.
  split; [reflexivity|]. split; [reflexivity|].
  repeat constructor.
Qed.

Lemma bucket_drained_before_delete_witness :
  exists out w' log,
    bucketItem (scripted (playing threePageAnswers)) 5 assetsBucket 0%nat = (out, w', log) /\
    (0 < count deletesBucket log)%nat /\
    exists pages answer,
      Drained pages /\
      log = draining (Name assetsBucket) None pages
            ++ [ Next ("Deleting " +:+ Name assetsBucket +:+ "...");
                 Called (s3_deleteBucket (Name assetsBucket)) answer ] /\
      omap objectPageOf log = pages /\
      count listsObjects log = length pages /\
      count deletesObjects log
        = length (filter (fun page => isEmptyPage page = false) pages) /\
      (length pages - 1 <= count deletesObjects log <= length pages)%nat /\
      count deletesBucket log = 1%nat.
Proof.
  eexists _, _, _. split; [reflexivity|]. split; [exact (le_n 1)|].
  eapply (bucket_drained_before_delete
            (scripted (playing threePageAnswers)) 5 assetsBucket 0%nat);
    [reflexivity|exact (le_n 1)].
Defined.

(** The three pages above: three listing calls and two batch deletions
    come before the bucket-delete call. *)
Example three_pages_two_deletions :
  let log := (bucketItem (scripted (playing threePageAnswers)) 5 assetsBucket 0%nat).2 in
  count listsObjects log = 3%nat /\ count deletesObjects log = 2%nat /\
  last log = Some (Called (s3_deleteBucket "api-dev-assets") (inr tt)).
Proof. by repeat split. Qed.

(** ** The retry wrapper around the API Gateway deletion *)

Lemma timeouts_of_the_task : timeouts 3 60000 2 = [60000; 120000; 240000].
Proof. reflexivity. Qed.

(** The main error is one of the recorded errors. *)
Lemma mainErrorFrom_elem errors counts main n e :
  mainErrorFrom errors counts main n = Some e -> e ∈ errors \/ main = Some e.
Proof.
  revert counts main n. induction errors as [|error errors IH]; intros counts main n; cbn.
  - by right.
  - destruct (n <=? S (countOf counts (message error)))%nat; intros Hmain.
    + apply IH in Hmain as [Hin|[= ->]]; left; [by right|by left].
    + apply IH in Hmain as [Hin|Hmain]; [left; by right|by right].
Qed.

Lemma mainError_elem errors e : default e (mainError (errors ++ [e])) ∈ errors ++ [e].
Proof.
  unfold mainError.
  destruct (mainErrorFrom (errors ++ [e]) [] None 0) as [e'|] eqn:Hmain; cbn.
  - by apply mainErrorFrom_elem in Hmain as [Hin|[=]].
  - apply elem_of_app. right. by left.
Qed.

(** The notice sent to the observer for a rate-limit rejection. *)
Lemma take_pred_cons {A} (n : nat) (x : A) (l : list A) :
  (1 <= n)%nat -> take (S n - 1) (x :: l) = x :: take (n - 1) l.
Proof. intros Hn. destruct n as [|n]; [lia|]. cbn. by rewrite Nat.sub_0_r. Qed.

Section Retry.
Context {W : Type} (aws : Provider W).

(** One attempt: the call resolves; or it is rejected for another reason
    than the rate limit and the attempt throws an [AbortError]; or it is
    rejected by the rate limit, and the attempt tells the observer and
    throws the error again. *)
Lemma deleteRestApiOnce_run id w :
  deleteRestApiOnce aws id w =
  match (aws unit (apiGateway_deleteRestApi id) w).1 with
  | inr _ =>
      (Done tt, (aws unit (apiGateway_deleteRestApi id) w).2,
       [Called (apiGateway_deleteRestApi id) (aws unit (apiGateway_deleteRestApi id) w).1])
  | inl e =>
      if bool_decide (code e = "TooManyRequestsException")
      then (Throw (Err e), (aws unit (apiGateway_deleteRestApi id) w).2,
            [Called (apiGateway_deleteRestApi id) (inl e);
             Next (message e +:+ ". Will retry...")])
      else (Throw (AbortError (Err e)), (aws unit (apiGateway_deleteRestApi id) w).2,
            [Called (apiGateway_deleteRestApi id) (inl e)])
  end.
Proof.
  unfold deleteRestApiOnce, tryCatch. rewrite call_run.
  destruct (aws unit (apiGateway_deleteRestApi id) w) as [[e|[]] w1]; cbn -[String.append];
    [|done].
  destruct (decide (code e = "TooManyRequestsException")) as [Hcode|Hcode].
  - rewrite (bool_decide_eq_true_2 _ Hcode).
    rewrite bool_decide_eq_false_2 by (intros Hne; apply Hne; by rewrite Hcode).
    reflexivity.
  - rewrite (bool_decide_eq_false_2 _ Hcode).
    rewrite bool_decide_eq_true_2 by congruence.
    reflexivity.
Qed.

(** The attempts of the wrapper with the waits [waits] left: every attempt
    but the last was rejected by the rate limit, a wait from the list
    precedes every attempt after the first, a notice follows every
    rate-limit rejection, and the outcome is decided by the last attempt. *)
Lemma attempt_transcript id waits errors w out w' log :
  attempt (deleteRestApiOnce aws id) waits errors w = (out, w', log) ->
  exists failures final,
    log = retrying id failures waits ++ lastAttempt id final /\
    omap attemptOf log = map inl failures ++ [final] /\
    Forall (fun e => code e = "TooManyRequestsException") failures /\
    (length failures <= length waits)%nat /\
    omap waitOf log = take (length failures) waits /\
    match final with
    | inr _ =>
        out = Done tt /\
        omap noticeOf log = map (fun e => message e +:+ ". Will retry...") failures
    | inl e =>
        if bool_decide (code e = "TooManyRequestsException")
        then length failures = length waits /\
             omap noticeOf log
               = map (fun e => message e +:+ ". Will retry...") (failures ++ [e]) /\
             exists e', out = Throw (Err e') /\ e' ∈ errors ++ failures ++ [e]
        else out = Throw (Err e) /\
             omap noticeOf log = map (fun e => message e +:+ ". Will retry...") failures
    end.
Proof.
  revert errors w out w' log.
  induction waits as [|timeout waits IH]; intros errors w out w' log;
    cbn [attempt]; unfold tryCatch; rewrite deleteRestApiOnce_run;
    destruct (aws unit (apiGateway_deleteRestApi id) w) as [[e|[]] w1]; cbn [fst snd].
  - destruct (bool_decide (code e = "TooManyRequestsException")) eqn:Hcode;
      cbn -[String.append mainError]; intros [= <- <- <-];
      exists [], (inl e); unfold lastAttempt; rewrite Hcode;
      cbn -[String.append mainError].
    + split_and!; try done. eexists. split; [done|].
      apply mainError_elem.
    + by split_and!.
  - intros [= <- <- <-]. exists [], (inr tt). by split_and!.
  - destruct (bool_decide (code e = "TooManyRequestsException")) eqn:Hcode;
      cbn -[String.append mainError attempt].
    + unfold sleep, emit. rewrite bind_run. cbn -[String.append attempt].
      destruct (attempt _ waits (errors ++ [e]) w1) as [[out2 w2] log2] eqn:Hrest.
      apply IH in Hrest
        as (failures & final & -> & Hattempts & Hfailed & Hlen & Hwaits & Hfinal).
      intros [= <- <- <-]. exists (e :: failures), final.
      cbn -[String.append lastAttempt]. rewrite Hattempts, Hwaits.
      split; [done|]. split; [done|]. split; [constructor; [by apply bool_decide_eq_true in Hcode|done]|].
      split; [lia|]. split; [done|].
      destruct final as [e2|[]].
      * destruct (bool_decide (code e2 = "TooManyRequestsException")).
        -- destruct Hfinal as (-> & -> & e' & -> & Hin).
           split; [done|]. split; [done|]. exists e'. split; [done|].
           by rewrite <- app_assoc in Hin.
        -- destruct Hfinal as (-> & ->). done.
      * destruct Hfinal as (-> & ->). done.
    + intros [= <- <- <-]. exists [], (inl e). unfold lastAttempt. rewrite Hcode.
      cbn -[String.append]. split_and!; try done; lia.
  - intros [= <- <- <-]. exists [], (inr tt). cbn. split_and!; try done; lia.
Qed.

(** C2 (amended). For every API selected, the deletion is attempted at
    least once and at most four times: the first attempt and three
    retries. Every attempt but the last was rejected with the code
    [TooManyRequestsException], and each such rejection is told to the
    observer with the message of the error before the wait; the waits
    before the second, third and fourth attempt are 60, 120 and 240
    seconds. A rejection with any other code ends the attempts at once and
    is thrown as it is; after a fourth rate-limit rejection no further
    attempt is made and one of the rate-limit errors of the four attempts
    is thrown. A resolved attempt ends the round normally. *)
Theorem api_gateway_retry_policy (r : Resource) w out w' log :
  apiGatewayItem aws r w = (out, w', log) ->
  exists failures final,
    log = Next ("Deleting " +:+ name r +:+ "...")
          :: retrying (id r) failures [60000; 120000; 240000]
          ++ lastAttempt (id r) final /\
    omap attemptOf log = map inl failures ++ [final] /\
    (1 <= length (omap attemptOf log) <= 4)%nat /\
    Forall (fun e => code e = "TooManyRequestsException") failures /\
    omap waitOf log = take (length failures) [60000; 120000; 240000] /\
    match final with
    | inr _ =>
        out = Done tt /\
        omap noticeOf log
          = ("Deleting " +:+ name r +:+ "...")
            :: map (fun e => message e +:+ ". Will retry...") failures
    | inl e =>
        if bool_decide (code e = "TooManyRequestsException")
        then length (omap attemptOf log) = 4%nat /\
             omap noticeOf log
               = ("Deleting " +:+ name r +:+ "...")
                 :: map (fun e => message e +:+ ". Will retry...") (failures ++ [e]) /\
             exists e', out = Throw (Err e') /\ e' ∈ failures ++ [e] /\
                        code e' = "TooManyRequestsException"
        else out = Throw (Err e) /\
             omap noticeOf log
               = ("Deleting " +:+ name r +:+ "...")
                 :: map (fun e => message e +:+ ". Will retry...") failures
    end.
Proof.
  unfold apiGatewayItem, pRetry, observer_next, emit. rewrite timeouts_of_the_task.
  rewrite bind_run. cbn -[String.append attempt].
  destruct (attempt _ _ [] w) as [[out1 w1] log1] eqn:Hattempt.
  apply attempt_transcript in Hattempt
    as (failures & final & Hlog & Hattempts & Hfailed & Hlen & Hwaits & Hfinal).
  intros [= <- <- <-]. exists failures, final.
  split; [by rewrite Hlog|].
  cbn -[String.append]. rewrite Hattempts, Hwaits, length_app, length_map.
  cbn [length] in *.
  split; [done|]. split; [lia|]. split; [done|]. split; [done|].
  destruct final as [e|[]].
  - destruct (bool_decide (code e = "TooManyRequestsException")) eqn:Hcode.
    + destruct Hfinal as (Hall & -> & e' & -> & Hin).
      cbn [app] in Hin.
      split; [lia|]. split; [done|]. exists e'. split; [done|]. split; [done|].
      apply elem_of_app in Hin as [Hin|Hin%list_elem_of_singleton].
      * by eapply Forall_forall in Hfailed.
      * subst e'. by apply bool_decide_eq_true in Hcode.
    + by destruct Hfinal as (-> & ->).
  - by destruct Hfinal as (-> & ->).
Qed.
End Retry.

(** C2, as stated, fails: after three rate-limit rejections the deletion is
    attempted a fourth time, 240 seconds after the third. *)
Lemma api_gateway_fourth_attempt :
  (apiGatewayItem (scripted (playing [Rejects throttled; Rejects throttled;
                                       Rejects throttled; Resolves])) devApi 0%nat).1.1
    = Done tt /\
  omap attemptOf
    (apiGatewayItem (scripted (playing [Rejects throttled; Rejects throttled;
                                         Rejects throttled; Resolves])) devApi 0%nat).2
    = [inl throttled; inl throttled; inl throttled; inr tt] /\
  omap waitOf
    (apiGatewayItem (scripted (playing [Rejects throttled; Rejects throttled;
                                         Rejects throttled; Resolves])) devApi 0%nat).2
    = [60000; 120000; 240000].
Proof. by repeat split. Qed.

Lemma api_gateway_retry_policy_witness :
  exists out w' log,
    apiGatewayItem (scripted (playing [Rejects throttled; Rejects throttled;
                                        Rejects throttled; Rejects throttled]))
                   devApi 0%nat = (out, w', log) /\
    exists failures final,
      log = Next ("Deleting " +:+ name devApi +:+ "...")
            :: retrying (id devApi) failures [60000; 120000; 240000]
            ++ lastAttempt (id devApi) final /\
      omap attemptOf log = map inl failures ++ [final] /\
      (1 <= length (omap attemptOf log) <= 4)%nat /\
      Forall (fun e => code e = "TooManyRequestsException") failures /\
      omap waitOf log = take (length failures) [60000; 120000; 240000] /\
      match final with
      | inr _ =>
          out = Done tt /\
          omap noticeOf log
            = ("Deleting " +:+ name devApi +:+ "...")
              :: map (fun e => message e +:+ ". Will retry...") failures
      | inl e =>
          if bool_decide (code e = "TooManyRequestsException")
          then length (omap attemptOf log) = 4%nat /\
               omap noticeOf log
                 = ("Deleting " +:+ name devApi +:+ "...")
                   :: map (fun e => message e +:+ ". Will retry...") (failures ++ [e]) /\
               exists e', out = Throw (Err e') /\ e' ∈ failures ++ [e] /\
                          code e' = "TooManyRequestsException"
          else out = Throw (Err e) /\
               omap noticeOf log
                 = ("Deleting " +:+ name devApi +:+ "...")
                   :: map (fun e => message e +:+ ". Will retry...") failures
      end.
Proof.
  eexists _, _, _. split; [reflexivity|].
  eapply (api_gateway_retry_policy
            (scripted (playing [Rejects throttled; Rejects throttled;
                                Rejects throttled; Rejects throttled])) devApi 0%nat).
  reflexivity.
Defined.

(** A rejection of another class: one attempt, no wait, the error thrown. *)
Example api_gateway_not_found_not_retried :
  apiGatewayItem (scripted (playing [Rejects notFound; Resolves])) devApi 0%nat
  = (Throw (Err notFound), 1%nat,
     [ Next "Deleting api-dev...";
       Called (apiGateway_deleteRestApi "a1b2c3d4e5") (inl notFound) ]).
Proof. reflexivity. Qed.

(** ** Failures of the deletion calls *)

Section Failures.
Context {W : Type} (aws : Provider W).

(** The Lambda task on any selection and any provider: either every
    deletion resolved and the task completed, or a deletion was rejected,
    the rejection escaped the [async] body, and the observer received
    neither the failure signal nor the completion signal. The failure
    signal is never sent. *)
Lemma lambdaRun_outcomes (items : list Resource) w out w' log :
  lambdaRun aws items w = (out, w', log) ->
  count signalsFailure log = 0%nat /\
  (out = Done tt /\ count signalsCompletion log = 1%nat
   \/ (exists e, out = Throw (Err e)) /\ count signalsCompletion log = 0%nat).
Proof.
  unfold lambdaRun, observer_complete, emit. rewrite bind_run.
  assert (forall w out w' log,
             forEach items (lambdaItem aws) w = (out, w', log) ->
             count signalsFailure log = 0%nat /\
             count signalsCompletion log = 0%nat /\
             (out = Done tt \/ exists e, out = Throw (Err e))) as Hloop.
  { clear. induction items as [|r items IH]; intros w out w' log.
    { intros [= <- <- <-]. by eauto. }
    rewrite forEach_cons. unfold lambdaItem at 1, observer_next, emit.
    rewrite bind_run, call_run. cbn -[String.append forEach].
    destruct (aws _ (lambda_deleteFunction (FunctionName r)) w) as [[e|[]] w1];
      cbn -[String.append forEach].
    { intros [= <- <- <-]. by eauto. }
    destruct (forEach items (lambdaItem aws) w1) as [[out2 w2] log2] eqn:Hrest.
    apply IH in Hrest as (Hfail & Hcomplete & Hout).
    intros [= <- <- <-]. rewrite !count_cons, Hfail, Hcomplete. by cbn. }
  destruct (forEach items (lambdaItem aws) w) as [[out1 w1] log1] eqn:Hrun.
  apply Hloop in Hrun as (Hfail & Hcomplete & [->|[e ->]]); cbn; intros [= <- <- <-].
  - rewrite !count_app, Hfail, Hcomplete. cbn. split; [done|]. by left.
  - split; [done|]. right. by eauto.
Qed.
End Failures.

(** C3: the code does not do what the claim says. The deletion of the first
    selected function is rejected: the second function is not attempted,
    but the task sends no failure signal, and no completion signal either;
    the rejection escapes the [async] body. The same holds for the other
    kinds. Only the rejection of [deleteDistribution] in the CloudFront
    task is caught and sent to the observer, with its message as it is. *)
Theorem rejected_deletion_not_signalled :
  lambdaRun (scripted (playing [Rejects conflict; Resolves]))
            [newFunction; oldFunction] 0%nat
    = (Throw (Err conflict), 1%nat,
       [ Next "Deleting api-dev-graphql...";
         Called (lambda_deleteFunction "api-dev-graphql") (inl conflict) ]) /\
  logGroupRun (scripted (playing [Rejects accessDenied; Resolves]))
              [lambdaLogGroup; customLogGroup] 0%nat
    = (Throw (Err accessDenied), 1%nat,
       [ Next "Deleting /aws/lambda/api-dev-graphql...";
         Called (cloudWatchLogs_deleteLogGroup "/aws/lambda/api-dev-graphql")
                (inl accessDenied) ]) /\
  bucketRun (scripted (playing [Rejects accessDenied; Resolves])) 5
            [assetsBucket] 0%nat
    = (Throw (Err accessDenied), 1%nat,
       [ Next "Emptying api-dev-assets...";
         Called (s3_listObjects "api-dev-assets" None) (inl accessDenied) ]) /\
  iamRoleRun (scripted (playing [Rejects accessDenied; Resolves]))
             [deployRole; cmsRole] 0%nat
    = (Throw (Err accessDenied), 1%nat,
       [ Next "Deleting api-dev-graphql-role...";
         Called (iam_listRolePolicies "api-dev-graphql-role") (inl accessDenied) ]) /\
  apiGatewayRun (scripted (playing [Rejects notFound; Resolves])) [devApi] 0%nat
    = (Throw (Err notFound), 1%nat,
       [ Next "Deleting api-dev...";
         Called (apiGateway_deleteRestApi "a1b2c3d4e5") (inl notFound) ]) /\
  cloudfrontRun (scripted (playing [Rejects accessDenied; Resolves]))
                [liveDistribution; staleDistribution] 0%nat
    = (Throw (Err accessDenied), 1%nat,
       [ Next "Fetching d111111abcdef8.cloudfront.net configuration...";
         Called (cloudFront_getDistributionConfig "E2QWRUHAPOMQZL") (inl accessDenied) ]) /\
  cloudfrontRun
    (scripted (playing
       [ DistributionConfigResult
           (GetDistributionConfigOutput "E1F83G8C2ARO7P" (mkConfig false "api-dev" "cdn"));
         Rejects preconditionFailed;
         Resolves ]))
    [liveDistribution; staleDistribution] 0%nat
    = (Done tt, 2%nat,
       [ Next "Fetching d111111abcdef8.cloudfront.net configuration...";
         Called (cloudFront_getDistributionConfig "E2QWRUHAPOMQZL")
                (inr (GetDistributionConfigOutput "E1F83G8C2ARO7P"
                        (mkConfig false "api-dev" "cdn")));
         Next "Deleting d111111abcdef8.cloudfront.net...";
         Called (cloudFront_deleteDistribution "E2QWRUHAPOMQZL" "E1F83G8C2ARO7P")
                (inl preconditionFailed);
         Error "The request failed because it didn't meet the preconditions." ]).
Proof. repeat split. Qed.

(** ** Termination of the pagination loops *)

Section Termination.
Context {W S A : Type}.

(** A loop whose body never hangs, and goes round again only on a
    position of the provider that does not stop it, moving the provider
    one position on, has finished after [k + 1] rounds when the position
    [k] steps ahead stops it. *)
Lemma whileTrue_terminates (pos : W -> nat) (stops : nat -> bool)
    (body : S -> M W (Turn S A)) :
  (forall s w, (body s w).1.1 <> Starved) ->
  (forall s w s', (body s w).1.1 = Done (Again s') ->
                  stops (pos w) = false /\ pos (body s w).1.2 = Datatypes.S (pos w)) ->
  forall k s w,
    stops (pos w + k)%nat = true ->
    (whileTrue (Datatypes.S k) body s w).1.1 <> Starved.
Proof.
  intros Hlive Hagain. induction k as [|k IH]; intros s w Hstops.
  - cbn [whileTrue]. rewrite bind_run.
    pose proof (Hlive s w) as Hl. pose proof (Hagain s w) as Ha.
    destruct (body s w) as [[[[s'|a]|e|] w1] l1]; cbn in *; try done.
    destruct (Ha s' eq_refl) as [Hgo _]. rewrite Nat.add_0_r in Hstops. congruence.
  - change (whileTrue (Datatypes.S (Datatypes.S k)) body s w)
      with ((body s ≫= fun t => match t with
                                 | Again s' => whileTrue (Datatypes.S k) body s'
                                 | Break a => mret a
                                 end) w).
    rewrite bind_run.
    pose proof (Hlive s w) as Hl. pose proof (Hagain s w) as Ha.
    destruct (body s w) as [[[[s'|a]|e|] w1] l1]; cbn [fst snd] in *; try done.
    destruct (Ha s' eq_refl) as [_ Hpos].
    specialize (IH s' w1). rewrite Hpos in IH.
    replace (Datatypes.S (pos w) + k)%nat with (pos w + Datatypes.S k)%nat in IH by lia.
    specialize (IH Hstops).
    destruct (whileTrue (Datatypes.S k) body s' w1) as [[o w2] l2]. by destruct o.
Qed.

(** A procedure that is a loop followed by a step that cannot hang: once
    the loop has enough fuel the procedure returns, and more fuel changes
    nothing. *)
Lemma loop_then_total {B} (body : S -> M W (Turn S A)) (after : A -> M W B) fuel s w :
  (whileTrue fuel body s w).1.1 <> Starved ->
  (forall a w1, (after a w1).1.1 <> Starved) ->
  forall fuel', (fuel <= fuel')%nat ->
    ((whileTrue fuel' body s ≫= after) w).1.1 <> Starved /\
    (whileTrue fuel' body s ≫= after) w = (whileTrue fuel body s ≫= after) w.
Proof.
  intros Hloop Hafter fuel' Hle. rewrite !bind_run.
  rewrite (whileTrue_more_fuel body fuel fuel' s w Hle Hloop).
  split; [|done].
  destruct (whileTrue fuel body s w) as [[[a|e|] w1] l1]; cbn in *; try done.
  pose proof (Hafter a w1). by destruct (after a w1) as [[[b|e|] w2] l2].
Qed.
End Termination.

(** The body of a lister loop under a scripted provider: it never hangs,
    and goes round again only when the answer tells it to. *)
Ltac lister_body kind script :=
  apply (whileTrue_terminates (fun at0 : nat => at0)
           (fun at0 => negb (goesOn kind (script at0))));
  [ intros [acc0 Marker0] at0; rewrite bind_run, call_run; cbn;
    destruct (script at0) as [?| |[]|[]|[]|[]|[]|[]|?|?|?|?]; cbn;
    repeat match goal with |- context [if ?b then _ else _] => destruct b end; done
  | intros [acc0 Marker0] at0 turn0; rewrite bind_run, call_run; cbn;
    destruct (script at0) as [?| |[]|[]|[]|[]|[]|[]|?|?|?|?]; cbn;
    repeat match goal with |- context [if ?b then _ else _] => destruct b eqn:? end;
    cbn; done
  | by apply negb_true_iff ].

Lemma listerOf_terminates kind (script : nat -> Answer) (n k : nat) :
  goesOn kind (script (n + k)%nat) = false ->
  forall fuel, (Datatypes.S k <= fuel)%nat ->
    (listerOf (scripted script) kind fuel n).1.1 <> Starved /\
    listerOf (scripted script) kind fuel n
      = listerOf (scripted script) kind (Datatypes.S k) n.
Proof.
  intros Hstops fuel Hfuel.
  destruct kind; cbn [listerOf];
    [ unfold getAllFunctions | unfold getAllLogGroups | unfold getAllApiGateways
    | | unfold getAllCloudFrontDistributions | unfold getAllIAMRoles ].
  - apply loop_then_total; [lister_body Lambda script|done|done].
  - apply loop_then_total; [lister_body LogGroup script|done|done].
  - apply loop_then_total; [lister_body ApiGateway script|done|done].
  - split; [|done]. unfold getAllBuckets. rewrite bind_run, call_run. cbn.
    by destruct (script n) as [?| |?|?|?|[]|?|?|?|?|?|?].
  - apply loop_then_total; [lister_body CloudFront script|done|done].
  - apply loop_then_total; [lister_body IamRole script|done|done].
Qed.

Lemma emptyBucket_terminates Bucket (pages others : nat -> Answer) (i j k : nat) :
  drainGoesOn (pages (i + k)%nat) = false ->
  forall fuel, (Datatypes.S k <= fuel)%nat ->
    (emptyBucket (servingObjects pages others) fuel Bucket (i, j)).1.1 <> Starved /\
    emptyBucket (servingObjects pages others) fuel Bucket (i, j)
      = emptyBucket (servingObjects pages others) (Datatypes.S k) Bucket (i, j).
Proof.
  intros Hstops fuel Hfuel. unfold emptyBucket.
  assert ((whileTrue (Datatypes.S k)
             (emptyBucketTurn (servingObjects pages others) Bucket) None (i, j)).1.1
          <> Starved) as Hloop.
  { apply (whileTrue_terminates (fun w : nat * nat => w.1)
             (fun n => negb (drainGoesOn (pages n)))).
    - intros Marker [i' j']. unfold emptyBucketTurn, observer_next, emit.
      rewrite !bind_run. cbn -[String.append].
      destruct (pages i') as [?| |?|?|?|?|?|?|[Contents IsTruncated]|?|?|?];
        cbn -[String.append]; try done.
      destruct (length Contents =? 0)%nat; cbn -[String.append]; [done|].
      rewrite bind_run, call_run. cbn -[String.append].
      destruct (others j') as [?| |?|?|?|?|?|?|?|?|?|?]; cbn -[String.append]; try done.
      by destruct IsTruncated.
    - intros Marker [i' j'] s'. unfold emptyBucketTurn, observer_next, emit.
      rewrite !bind_run. cbn -[String.append].
      destruct (pages i') as [?| |?|?|?|?|?|?|[Contents IsTruncated]|?|?|?];
        cbn -[String.append]; try done.
      destruct (length Contents =? 0)%nat; cbn -[String.append]; [done|].
      rewrite bind_run, call_run. cbn -[String.append].
      destruct (others j') as [?| |?|?|?|?|?|?|?|?|?|?]; cbn -[String.append]; try done.
      by destruct IsTruncated.
    - by apply negb_true_iff. }
  split.
  - rewrite (whileTrue_more_fuel _ (Datatypes.S k) fuel); done.
  - by apply whileTrue_more_fuel.
Qed.

(** C10. Every pagination loop terminates when the continuation signal is
    eventually absent. For every kind and every sequence of answers of the
    provider in which some answer, [k] answers ahead, does not tell the
    lister of the kind to go on (it carries no next cursor, or its
    truncation flag is false, or it is a rejection), the lister has ended
    after at most [k + 1] rounds: with any larger budget it returns or
    throws, and its result does not depend on the budget. The same holds
    for the loop that empties a bucket when some page of objects ahead is
    empty or not truncated. *)
Theorem pagination_terminates :
  (forall kind (script : nat -> Answer) (n k : nat),
      goesOn kind (script (n + k)%nat) = false ->
      forall fuel, (Datatypes.S k <= fuel)%nat ->
        (listerOf (scripted script) kind fuel n).1.1 <> Starved /\
        listerOf (scripted script) kind fuel n
          = listerOf (scripted script) kind (Datatypes.S k) n) /\
  (forall Bucket (pages others : nat -> Answer) (i j k : nat),
      drainGoesOn (pages (i + k)%nat) = false ->
      forall fuel, (Datatypes.S k <= fuel)%nat ->
        (emptyBucket (servingObjects pages others) fuel Bucket (i, j)).1.1 <> Starved /\
        emptyBucket (servingObjects pages others) fuel Bucket (i, j)
          = emptyBucket (servingObjects pages others) (Datatypes.S k) Bucket (i, j)).
Proof.
  split.
  - exact listerOf_terminates.
  - exact emptyBucket_terminates.
Qed.

Lemma pagination_terminates_witness :
  goesOn Lambda (endlessFunctions (0 + 2)%nat) = false /\
  (3 <= 7)%nat /\
  (listerOf (scripted endlessFunctions) Lambda 7 0%nat).1.1 <> Starved /\
  listerOf (scripted endlessFunctions) Lambda 7 0%nat
    = listerOf (scripted endlessFunctions) Lambda 3 0%nat.
Proof.
  split; [reflexivity|]. split; [lia|].
  apply (proj1 pagination_terminates Lambda endlessFunctions 0%nat 2%nat);
    [reflexivity|lia].
Defined.

(** With less fuel than pages the same run is cut off. *)
Example two_rounds_are_not_enough :
  (listerOf (scripted endlessFunctions) Lambda 2 0%nat).1.1 = Starved /\
  (listerOf (scripted endlessFunctions) Lambda 3 0%nat).1.1
    = Done [newFunction; newFunction; newFunction].
Proof. by split. Qed.

(** * Further properties of the listers and the tasks *)

(** ** What a procedure ever emits *)

Section Emitting.
Context {W : Type}.
Variable P : Event -> Prop.

Lemma Emits_ret {A} (a : A) : Emits P (mret a : M W A).
Proof. intros w. constructor. Qed.

Lemma Emits_throw {A} (e : Exn) : Emits P (throw e : M W A).
Proof. intros w. constructor. Qed.

Lemma Emits_emit (e : Event) : P e -> Emits P (emit e : M W unit).
Proof. intros He w. by repeat constructor. Qed.

Lemma Emits_call (aws : Provider W) {R} (c : Call R) :
  (forall r, P (Called c r)) -> Emits P (call aws c).
Proof. intros Hc w. rewrite call_run. by repeat constructor. Qed.

Lemma Emits_bind {A B} (m : M W A) (f : A -> M W B) :
  Emits P m -> (forall a, Emits P (f a)) -> Emits P (m ≫= f).
Proof.
  intros Hm Hf w. rewrite bind_run. specialize (Hm w).
  destruct (m w) as [[[a|e|] w1] l1]; cbn in *; try done.
  specialize (Hf a w1). destruct (f a w1) as [[o w2] l2]. cbn in *.
  by apply Forall_app.
Qed.

Lemma Emits_tryCatch {A} (m : M W A) (handler : Exn -> M W A) :
  Emits P m -> (forall e, Emits P (handler e)) -> Emits P (tryCatch m handler).
Proof.
  intros Hm Hh w. unfold tryCatch. specialize (Hm w).
  destruct (m w) as [[[a|e|] w1] l1]; cbn in *; try done.
  specialize (Hh e w1). destruct (handler e w1) as [[o w2] l2]. cbn in *.
  by apply Forall_app.
Qed.

Lemma Emits_forEach {X} (xs : list X) (body : X -> M W unit) :
  (forall x, x ∈ xs -> Emits P (body x)) -> Emits P (forEach xs body).
Proof.
  induction xs as [|x xs IH]; intros Hbody; cbn [forEach]; [apply Emits_ret|].
  apply Emits_bind; [apply Hbody; by left|].
  intros _. apply IH. intros y Hy. apply Hbody. by right.
Qed.

Lemma Emits_forEachReturn {X} (xs : list X) (body : X -> M W bool) :
  (forall x, x ∈ xs -> Emits P (body x)) -> Emits P (forEachReturn xs body).
Proof.
  induction xs as [|x xs IH]; intros Hbody; cbn [forEachReturn]; [apply Emits_ret|].
  apply Emits_bind; [apply Hbody; by left|].
  intros [|]; [apply Emits_ret|]. apply IH. intros y Hy. apply Hbody. by right.
Qed.

Lemma Emits_whileTrue {S A} (body : S -> M W (Turn S A)) fuel s :
  (forall s, Emits P (body s)) -> Emits P (whileTrue fuel body s).
Proof.
  intros Hbody. revert s. induction fuel as [|fuel IH]; intros s; cbn [whileTrue].
  - intros w. constructor.
  - apply Emits_bind; [apply Hbody|]. intros [s'|a]; [apply IH|apply Emits_ret].
Qed.

Lemma Emits_attempt (input : M W unit) waits errors :
  Emits P input -> (forall ms, P (Sleep ms)) -> Emits P (attempt input waits errors).
Proof.
  intros Hinput Hsleep. revert errors.
  induction waits as [|timeout waits IH]; intros errors; cbn [attempt];
    apply Emits_tryCatch; try done; intros [e|original]; try apply Emits_throw.
  apply Emits_bind; [by apply Emits_emit|]. intros _. apply IH.
Qed.
End Emitting.

(** Breaks a goal [Emits P m] down along the structure of [m], leaving the
    facts about the single events. *)
Ltac emits :=
  repeat first
    [ apply Emits_ret | apply Emits_throw
    | apply Emits_bind | apply Emits_whileTrue | apply Emits_tryCatch
    | apply Emits_forEach | apply Emits_forEachReturn | apply Emits_attempt
    | apply Emits_call | apply Emits_emit
    | match goal with
      | |- forall _, _ => intros ?
      | |- Emits _ (match ?x with _ => _ end) => destruct x
      | |- Emits _ (if ?b then _ else _) => destruct b
      end ].

(** ** Listing is read-only *)

(** X3. Whatever the provider does and however the run ends, a lister
    issues nothing but the listing request of its kind, with the page size
    of its kind: it never deletes or changes anything, and it sends nothing
    to an observer. *)
Theorem lister_only_lists {W} (aws : Provider W) kind fuel :
  Emits (isListingOf kind) (listerOf aws kind fuel).
Proof.
  destruct kind; cbn [listerOf];
    unfold getAllFunctions, getAllLogGroups, getAllApiGateways, getAllBuckets,
      getAllCloudFrontDistributions, getAllIAMRoles;
    emits; reflexivity.
Qed.

(** ** Tasks and their selection *)

Ltac unfold_runs :=
  unfold lambdaRun, logGroupRun, apiGatewayRun, bucketRun, cloudfrontRun, iamRoleRun,
    lambdaItem, logGroupItem, apiGatewayItem, bucketItem, cloudfrontItem, iamRoleItem,
    emptyBucket, emptyBucketTurn, pRetry, deleteRestApiOnce, sleep,
    observer_next, observer_complete, observer_error.

Lemma runOf_stays_within {W} (aws : Provider W) kind fuel items :
  Emits (staysWithin kind (map (nameOf kind) items)) (runOf aws kind fuel items).
Proof.
  destruct kind; cbn [runOf nameOf]; unfold_runs; emits; cbn; try done;
    (eexists; split; [reflexivity|]; apply list_elem_of_fmap;
     eexists; split; [reflexivity|eassumption]).
Qed.

(** X4. The task of a kind never leaves its selection: whatever the
    provider answers and however the run ends, every call it issues is an
    operation of its own kind on a record that was selected. *)
Theorem task_stays_within_selection {W} (aws : Provider W) kind fuel items :
  Emits (staysWithin kind (map (nameOf kind) items)) (runOf aws kind fuel items).
Proof. apply runOf_stays_within. Qed.

(** X5. The tasks of the five kinds other than CloudFront never send the
    failure signal, whatever the provider answers: no rejection of a call
    reaches the observer as [error]. *)
Theorem failure_signal_never_sent {W} (aws : Provider W) kind fuel items :
  kind <> CloudFront ->
  Emits (fun e => signalsFailure e = false) (runOf aws kind fuel items).
Proof.
  intros Hkind. destruct kind; try done; cbn [runOf]; unfold_runs; emits; done.
Qed.

Lemma failure_signal_never_sent_witness :
  ApiGateway <> CloudFront /\
  Emits (fun e => signalsFailure e = false)
        (runOf (scripted (playing [Rejects notFound])) ApiGateway 0 [devApi]).
Proof.
  assert (ApiGateway <> CloudFront) as Hkind by discriminate.
  split; [exact Hkind|].
  exact (failure_signal_never_sent (scripted (playing [Rejects notFound]))
           ApiGateway 0 [devApi] Hkind).
Defined.

(** ** More on the listers *)




Section ListerFailures.
Context {W : Type} (aws : Provider W).

(** A pagination loop that throws: the rejected request is the last event
    of the transcript and the only rejection in it, and every request
    before it resolved as a page. *)
Lemma drain_loop_throws {X} (fetch : option string -> M W X)
    (items : X -> list Resource) (goesOn : X -> bool) (next : X -> option string)
    (body : list Resource * option string -> M W (Turn _ (list Resource))) :
  (forall acc Marker w,
      body (acc, Marker) w =
      (x ← fetch Marker;
       if negb (goesOn x) then mret (Break (acc ++ items x))
       else mret (Again (acc ++ items x, next x))) w) ->
  (forall Marker w,
      match fetch Marker w with
      | (Done x, _, l) => exists e, l = [e] /\ rejectionOf e = None /\ is_Some (pageOf e)
      | (Throw e, _, l) =>
          exists err ev, e = Err err /\ l = [ev] /\ rejectionOf ev = Some err /\
                         pageOf ev = None
      | (Starved, _, _) => False
      end) ->
  forall fuel acc Marker w e w' log,
    whileTrue fuel body (acc, Marker) w = (Throw e, w', log) ->
    exists err,
      e = Err err /\
      omap rejectionOf log = [err] /\
      last log ≫= rejectionOf = Some err /\
      length log = Datatypes.S (length (pagesOf log)).
Proof.
  intros Hbody Hfetch.
  induction fuel as [|fuel IH]; intros acc Marker w e w' log Hrun; [done|].
  cbn [whileTrue] in Hrun. rewrite bind_run, Hbody, bind_run in Hrun.
  pose proof (Hfetch Marker w) as Hpage.
  destruct (fetch Marker w) as [[[x|e0|] w1] l1]; [| |done].
  - destruct Hpage as (ev & -> & Hnone & [page Hsome]).
    destruct (goesOn x); cbn in Hrun; [|done].
    destruct (whileTrue fuel body _ w1) as [[[res|e1|] w2] l2] eqn:Hrest; try done.
    injection Hrun as <- <- <-.
    apply IH in Hrest as (err & -> & Hrej & Hlast & Hlen).
    exists err. split; [done|]. cbn. rewrite Hnone, Hsome.
    split; [done|]. split.
    + destruct l2 as [|e2 l2]; [done|]. exact Hlast.
    + cbn. unfold pagesOf in Hlen. by rewrite Hlen.
  - destruct Hpage as (err & ev & -> & -> & Hrej & Hnopage).
    cbn in Hrun. injection Hrun as <- <- <-.
    exists err. cbn. rewrite Hrej, Hnopage. done.
Qed.

Ltac loop_body :=
  intros ? ? ?; rewrite !bind_run; cbn; unfold call;
  match goal with
  | |- context [aws ?R ?c ?w] => destruct (aws R c w) as [[?|[]] ?]
  end; reflexivity.

Ltac page_or_rejection :=
  intros ? ?; rewrite call_run;
  match goal with
  | |- context [aws ?R ?c ?w] => destruct (aws R c w) as [[?|[]] ?]
  end; cbn; eauto 10.

(** X2. A lister never hides and never retries a failure: when it throws,
    what it throws is the error of a rejected listing request, that request
    is the last event of its transcript and the only rejection in it, and
    every request before it was answered with a page. *)
Theorem lister_rejection_propagates kind fuel w e w' log :
  listerOf aws kind fuel w = (Throw e, w', log) ->
  exists err,
    e = Err err /\
    omap rejectionOf log = [err] /\
    last log ≫= rejectionOf = Some err /\
    length log = Datatypes.S (length (pagesOf log)).
Proof.
  destruct kind; cbn [listerOf];
    unfold getAllFunctions, getAllLogGroups, getAllApiGateways, getAllBuckets,
      getAllCloudFrontDistributions, getAllIAMRoles;
    rewrite bind_run.
  - destruct (whileTrue fuel _ _ w) as [[[res|e1|] w1] l1] eqn:Hloop; try done.
    intros [= <- <- <-].
    eapply (drain_loop_throws
              (fun Marker => call aws (lambda_listFunctions Marker 10))
              (fun '(ListFunctionsOutput Functions _) => Functions)
              (fun '(ListFunctionsOutput _ NextMarker) => truthy NextMarker)
              (fun '(ListFunctionsOutput _ NextMarker) => NextMarker))
      in Hloop; [exact Hloop|loop_body|page_or_rejection].
  - destruct (whileTrue fuel _ _ w) as [[[res|e1|] w1] l1] eqn:Hloop; try done.
    intros [= <- <- <-].
    eapply (drain_loop_throws
              (fun Marker => call aws (cloudWatchLogs_describeLogGroups "/aws/" 50 Marker))
              (fun '(DescribeLogGroupsOutput logGroups _) => logGroups)
              (fun '(DescribeLogGroupsOutput _ nextToken) => truthy nextToken)
              (fun '(DescribeLogGroupsOutput _ nextToken) => nextToken))
      in Hloop; [exact Hloop|loop_body|page_or_rejection].
  - destruct (whileTrue fuel _ _ w) as [[[res|e1|] w1] l1] eqn:Hloop; try done.
    intros [= <- <- <-].
    eapply (drain_loop_throws
              (fun Marker => call aws (apiGateway_getRestApis Marker 10))
              (fun '(RestApisOutput items _) => items)
              (fun '(RestApisOutput _ position) => truthy position)
              (fun '(RestApisOutput _ position) => position))
      in Hloop; [exact Hloop|loop_body|page_or_rejection].
  - rewrite call_run. destruct (aws _ s3_listBuckets w) as [[err|[Buckets]] w1]; cbn;
      [|done].
    intros [= <- <- <-]. by exists err.
  - destruct (whileTrue fuel _ _ w) as [[[res|e1|] w1] l1] eqn:Hloop; try done.
    intros [= <- <- <-].
    eapply (drain_loop_throws
              (fun Marker => call aws (cloudFront_listDistributions Marker "20"))
              (fun '(DistributionListOutput _ Items _) => Items)
              (fun '(DistributionListOutput IsTruncated _ _) => IsTruncated)
              (fun '(DistributionListOutput _ _ NextMarker) => NextMarker))
      in Hloop; [exact Hloop|loop_body|page_or_rejection].
  - destruct (whileTrue fuel _ _ w) as [[[res|e1|] w1] l1] eqn:Hloop; try done.
    intros [= <- <- <-].
    eapply (drain_loop_throws
              (fun Marker => call aws (iam_listRoles Marker 100))
              (fun '(ListRolesOutput _ _ Roles) => Roles)
              (fun '(ListRolesOutput _ IsTruncated _) => IsTruncated)
              (fun '(ListRolesOutput NextMarker _ _) => NextMarker))
      in Hloop; [exact Hloop|loop_body|page_or_rejection].
Qed.
End ListerFailures.

Lemma lister_rejection_propagates_witness :
  exists e w' log,
    listerOf (scripted (playing
                [ FunctionsPage (ListFunctionsOutput [oldFunction] (Some "page-2"));
                  Rejects accessDenied ]))
             Lambda 5 0%nat = (Throw e, w', log) /\
    exists err,
      e = Err err /\
      omap rejectionOf log = [err] /\
      last log ≫= rejectionOf = Some err /\
      length log = Datatypes.S (length (pagesOf log)).
Proof.
  eexists _, _, _. split; [reflexivity|].
  eapply (lister_rejection_propagates
            (scripted (playing
               [ FunctionsPage (ListFunctionsOutput [oldFunction] (Some "page-2"));
                 Rejects accessDenied ])) Lambda 5 0%nat).
  reflexivity.
Defined.

(** ** No call after a fatal rejection *)

Lemma noFatal_app l1 l2 : noFatal (l1 ++ l2) = noFatal l1 && noFatal l2.
Proof. apply forallb_app. Qed.

Lemma noFatal_failsFast l : noFatal l = true -> failsFast l = true.
Proof.
  induction l as [|e l IH]; [done|]. cbn. intros [He Hl]%andb_prop.
  destruct (fatal e); [done|]. by apply IH.
Qed.

Lemma failsFast_app l1 l2 :
  noFatal l1 = true -> failsFast l2 = true -> failsFast (l1 ++ l2) = true.
Proof.
  induction l1 as [|e l1 IH]; [done|]. cbn. intros [He Hl]%andb_prop Hl2.
  destruct (fatal e); [done|]. by apply IH.
Qed.

(** Events that are no calls may follow anything. *)
Lemma failsFast_then_silent l1 l2 :
  failsFast l1 = true -> forallb (fun e => negb (isCalled e)) l2 = true ->
  failsFast (l1 ++ l2) = true.
Proof.
  induction l1 as [|e l1 IH]; cbn; intros Hl1 Hl2.
  - induction l2 as [|e l2 IH2]; [done|]. cbn in *.
    apply andb_prop in Hl2 as [He Hl2]. destruct e; try done; by apply IH2.
  - destruct (fatal e); [|by apply IH]. rewrite forallb_app. by rewrite Hl1, Hl2.
Qed.

Section FailFast.
Context {W : Type} (aws : Provider W).

Lemma Fast_ret {A} (ok : A -> bool) (a : A) : Fast ok (mret a : M W A).
Proof. intros w. cbn. by destruct (ok a). Qed.

Lemma Fast_emit (e : Event) : fatal e = false -> Fast always (emit e : M W unit).
Proof. intros He w. cbn. by rewrite He. Qed.

Lemma Fast_call {R} (c : Call R) : Fast always (call aws c).
Proof.
  intros w. rewrite call_run. destruct (aws R c w) as [[e|v] w1]; cbn -[fatal]; [|done].
  by destruct (fatal (Called c (inl e))).
Qed.

Lemma Fast_bind {A B} (ok : B -> bool) (m : M W A) (f : A -> M W B) :
  Fast always m -> (forall a, Fast ok (f a)) -> Fast ok (m ≫= f).
Proof.
  intros Hm Hf w. rewrite bind_run. specialize (Hm w).
  destruct (m w) as [[[a|e|] w1] l1]; cbn [fst snd always] in *; try done.
  specialize (Hf a w1). destruct (f a w1) as [[o w2] l2]. cbn [fst snd] in *.
  destruct o as [b| |]; [destruct (ok b)|..].
  - by rewrite noFatal_app, Hm, Hf.
  - by apply failsFast_app.
  - by apply failsFast_app.
  - by apply failsFast_app.
Qed.

Lemma Fast_forEach {X} (xs : list X) (body : X -> M W unit) :
  (forall x, Fast always (body x)) -> Fast always (forEach xs body).
Proof.
  intros Hbody. induction xs as [|x xs IH]; cbn [forEach]; [apply Fast_ret|].
  apply Fast_bind; [apply Hbody|]. intros _. apply IH.
Qed.

Lemma Fast_forEachReturn {X} (xs : list X) (body : X -> M W bool) :
  (forall x, Fast negb (body x)) -> Fast negb (forEachReturn xs body).
Proof.
  intros Hbody. induction xs as [|x xs IH]; cbn [forEachReturn]; [apply Fast_ret|].
  intros w. rewrite bind_run. specialize (Hbody x w).
  destruct (body x w) as [[[[|]|e|] w1] l1]; cbn [fst snd negb] in *; try done.
  - cbn. by rewrite app_nil_r.
  - specialize (IH w1). destruct (forEachReturn xs body w1) as [[o w2] l2].
    cbn [fst snd] in *. destruct o as [[|]| |]; cbn [negb] in *.
    + by apply failsFast_app.
    + by rewrite noFatal_app, Hbody, IH.
    + by apply failsFast_app.
    + by apply failsFast_app.
Qed.

Lemma Fast_whileTrue {S A} (body : S -> M W (Turn S A)) fuel s :
  (forall s, Fast always (body s)) -> Fast always (whileTrue fuel body s).
Proof.
  intros Hbody. revert s. induction fuel as [|fuel IH]; intros s; cbn [whileTrue].
  - intros w. done.
  - apply Fast_bind; [apply Hbody|]. intros [s'|a]; [apply IH|apply Fast_ret].
Qed.
End FailFast.

Lemma Fast_failsFast {W} (m : M W unit) w :
  Fast always m -> failsFast (m w).2 = true.
Proof.
  intros Hfast. specialize (Hfast w).
  destruct (m w) as [[[[]|e|] w1] l1]; cbn [fst snd always] in *; try done.
  by apply noFatal_failsFast.
Qed.

Ltac fast :=
  repeat first
    [ apply Fast_ret | apply Fast_bind | apply Fast_forEach | apply Fast_whileTrue
    | apply Fast_forEachReturn | apply Fast_call | apply Fast_emit
    | match goal with
      | |- forall _, _ => intros ?
      | |- Fast _ (match ?x with _ => _ end) => destruct x
      | |- Fast _ (if ?b then _ else _) => destruct b
      end ].

Lemma noFatal_retrying id failures waits :
  Forall (fun e => code e = "TooManyRequestsException") failures ->
  noFatal (retrying id failures waits) = true.
Proof.
  intros Hfailed. revert waits.
  induction Hfailed as [|e failures He _ IH]; intros [|timeout waits]; try done.
  cbn -[String.append]. rewrite (bool_decide_eq_true_2 _ He). cbn. apply IH.
Qed.

Section FailFastRuns.
Context {W : Type} (aws : Provider W).

Lemma Fast_attempt id waits errors :
  Fast always (attempt (deleteRestApiOnce aws id) waits errors).
Proof.
  intros w.
  destruct (attempt _ waits errors w) as [[out w'] log] eqn:Hrun. cbn [fst snd].
  apply attempt_transcript in Hrun
    as (failures & final & -> & _ & Hfailed & _ & _ & Hfinal).
  pose proof (noFatal_retrying id failures waits Hfailed) as Hquiet.
  destruct final as [e|[]].
  - assert (failsFast (retrying id failures waits ++ lastAttempt id (inl e)) = true)
      as Hfast.
    { apply failsFast_app; [done|]. unfold lastAttempt. cbn -[String.append].
      by destruct (bool_decide _). }
    destruct out; [|done..].
    destruct (bool_decide (code e = "TooManyRequestsException")).
    + by destruct Hfinal as (_ & _ & e' & [=] & _).
    + by destruct Hfinal as ([=] & _).
  - destruct Hfinal as (-> & _). cbn [always]. by rewrite noFatal_app, Hquiet.
Qed.

Lemma Fast_cloudfrontItem (r : Resource) : Fast negb (cloudfrontItem aws r).
Proof.
  unfold cloudfrontItem, observer_next, observer_error.
  apply Fast_bind; [by apply Fast_emit|]. intros _.
  apply Fast_bind; [apply Fast_call|]. intros [ETag config].
  destruct (Enabled config); [fast; done|].
  intros w. unfold tryCatch, emit. rewrite !bind_run. cbn -[String.append].
  rewrite call_run.
  by destruct (aws _ (cloudFront_deleteDistribution (Id r) ETag) w) as [[e|[]] w1].
Qed.

(** X8. Every task fails fast. Once a call has been rejected for good, the
    task issues no further call, whatever the provider would answer: the
    items selected after the failing one are not attempted. The only
    rejection after which a task goes on is the rate-limit rejection of
    [deleteRestApi], which the retry wrapper takes up. *)
Theorem task_fails_fast kind fuel items w :
  failsFast (runOf aws kind fuel items w).2 = true.
Proof.
  destruct kind; cbn [runOf].
  - apply Fast_failsFast. unfold_runs. fast; done.
  - apply Fast_failsFast. unfold_runs. fast; done.
  - apply Fast_failsFast.
    unfold apiGatewayRun, apiGatewayItem, pRetry, observer_next, observer_complete.
    fast; try done. apply Fast_attempt.
  - apply Fast_failsFast. unfold_runs. fast; done.
  - unfold cloudfrontRun, observer_complete, emit. rewrite bind_run.
    pose proof (Fast_forEachReturn items (cloudfrontItem aws)
                  Fast_cloudfrontItem w) as Hloop.
    destruct (forEachReturn items (cloudfrontItem aws) w) as [[[[|]|e|] w1] l1];
      cbn [fst snd negb] in *; try done.
    + cbn [ret]. cbn [snd]. by rewrite app_nil_r.
    + cbn [snd]. apply noFatal_failsFast. by rewrite noFatal_app, Hloop.
  - apply Fast_failsFast. unfold_runs. fast; done.
Qed.
End FailFastRuns.

(** The second API is not attempted after the first was rejected for good;
    after a rate-limit rejection the first is attempted again. *)
Example second_api_not_attempted :
  omap attemptOf
    (apiGatewayRun (scripted (playing [Rejects throttled; Rejects notFound; Resolves]))
                   [devApi; aRestApi "f6g7h8i9j0" "api-prod" 0] 0%nat).2
  = [inl throttled; inl notFound].
Proof. reflexivity. Qed.

(** ** The terminal signals of the progress stream *)

Lemma no_terminal_no_failure log :
  Forall (fun e => terminal e = false) log -> count signalsFailure log = 0%nat.
Proof.
  induction 1 as [|e log He _ IH]; [done|].
  rewrite count_cons, IH. unfold terminal in He.
  apply orb_false_iff in He as [_ ->]. done.
Qed.

Lemma no_terminal_no_completion log :
  Forall (fun e => terminal e = false) log -> count signalsCompletion log = 0%nat.
Proof.
  induction 1 as [|e log He _ IH]; [done|].
  rewrite count_cons, IH. unfold terminal in He.
  apply orb_false_iff in He as [-> _]. done.
Qed.

Section Signals.
Context {W : Type} (aws : Provider W).

(** A body that sends no terminal signal, followed by
    [observer.complete()]. *)
Lemma then_complete (m : M W unit) w out w' log :
  Emits (fun e => terminal e = false) m ->
  (m;; observer_complete) w = (out, w', log) ->
  (out = Done tt ->
   exists pre e, log = pre ++ [e] /\ terminal e = true /\
                 Forall (fun e => terminal e = false) pre) /\
  (out <> Done tt -> Forall (fun e => terminal e = false) log).
Proof.
  intros Hm. rewrite bind_run. specialize (Hm w).
  destruct (m w) as [[[[]|e|] w1] l1]; cbn in *; intros [= <- <- <-].
  - split; [|done]. intros _. by exists l1, Complete.
  - by split.
  - by split.
Qed.

(** One round of the CloudFront task that ends in [return] has sent the
    failure signal, with the message of the rejected deletion and as its
    last event; every other round has sent no terminal signal. *)
Lemma cloudfrontItem_signal (r : Resource) w :
  match cloudfrontItem aws r w with
  | (Done true, _, l) =>
      exists pre ETag err,
        l = pre ++ [ Called (cloudFront_deleteDistribution (Id r) ETag) (inl err);
                     Error (message err) ] /\
        Forall (fun e => terminal e = false) pre
  | (_, _, l) => Forall (fun e => terminal e = false) l
  end.
Proof.
  unfold cloudfrontItem, observer_next, observer_error, emit.
  rewrite bind_run. cbn -[String.append].
  rewrite bind_run, call_run.
  destruct (aws _ (cloudFront_getDistributionConfig (Id r)) w)
    as [[e|[ETag config]] w1]; cbn -[String.append]; [by repeat constructor|].
  destruct (Enabled config).
  - rewrite !bind_run. cbn -[String.append]. rewrite call_run.
    destruct (aws _ (cloudFront_updateDistribution _ _ _) w1) as [[e|[]] w2];
      cbn -[String.append]; by repeat constructor.
  - unfold tryCatch. rewrite !bind_run. cbn -[String.append]. rewrite call_run.
    destruct (aws _ (cloudFront_deleteDistribution _ _) w1) as [[e|[]] w2];
      cbn -[String.append]; [|by repeat constructor].
    eexists [_; _; _], ETag, e. split; [reflexivity|]. by repeat constructor.
Qed.

Lemma cloudfrontLoop_signal (items : list Resource) w :
  match forEachReturn items (cloudfrontItem aws) w with
  | (Done true, _, l) =>
      exists pre Id ETag err,
        l = pre ++ [ Called (cloudFront_deleteDistribution Id ETag) (inl err);
                     Error (message err) ] /\
        Forall (fun e => terminal e = false) pre
  | (_, _, l) => Forall (fun e => terminal e = false) l
  end.
Proof.
  revert w. induction items as [|r items IH]; intros w; [constructor|].
  cbn [forEachReturn]. rewrite bind_run.
  pose proof (cloudfrontItem_signal r w) as Hitem.
  destruct (cloudfrontItem aws r w) as [[[[|]|e|] w1] l1]; try done.
  - destruct Hitem as (pre & ETag & err & -> & Hpre).
    cbn. rewrite app_nil_r. by exists pre, (Id r), ETag, err.
  - specialize (IH w1).
    destruct (forEachReturn items (cloudfrontItem aws) w1) as [[[[|]|e|] w2] l2].
    + destruct IH as (pre & Id' & ETag & err & -> & Hpre).
      exists (l1 ++ pre), Id', ETag, err. rewrite <- app_assoc.
      split; [done|]. by apply Forall_app.
    + by apply Forall_app.
    + by apply Forall_app.
    + by apply Forall_app.
Qed.

(** X7. A task sends a terminal signal only as the last thing it does.
    When its body returns, the transcript ends with exactly one terminal
    signal and holds no other; when its body throws, the observer has
    received no terminal signal at all, neither [complete] nor [error]. *)
Theorem terminal_signal_is_last kind fuel items w out w' log :
  runOf aws kind fuel items w = (out, w', log) ->
  (out = Done tt ->
   exists pre e, log = pre ++ [e] /\ terminal e = true /\
                 Forall (fun e => terminal e = false) pre) /\
  (out <> Done tt -> Forall (fun e => terminal e = false) log).
Proof.
  destruct kind; cbn [runOf].
  - apply then_complete. unfold_runs. emits; done.
  - apply then_complete. unfold_runs. emits; done.
  - apply then_complete. unfold_runs. emits; done.
  - apply then_complete. unfold_runs. emits; done.
  - unfold cloudfrontRun, observer_complete, emit. rewrite bind_run.
    pose proof (cloudfrontLoop_signal items w) as Hloop.
    destruct (forEachReturn items (cloudfrontItem aws) w) as [[[[|]|e|] w1] l1];
      cbn; intros [= <- <- <-].
    + destruct Hloop as (pre & Id' & ETag & err & -> & Hpre).
      split; [|done]. intros _.
      exists (pre ++ [Called (cloudFront_deleteDistribution Id' ETag) (inl err)]),
        (Error (message err)).
      rewrite app_nil_r. split; [by rewrite <- app_assoc|]. split; [done|].
      apply Forall_app. split; [done|]. by repeat constructor.
    + split; [|done]. intros _. by exists l1, Complete.
    + by split.
    + by split.
  - apply then_complete. unfold_runs. emits; done.
Qed.

(** X6. In the CloudFront task the failure signal is sent for a rejected
    [deleteDistribution] and for nothing else: when it is sent, it carries
    the message of that rejection as it is, it directly follows the
    rejected call and is the last event, the completion signal is not
    sent, and the body of the task returns. *)
Theorem cloudfront_failure_signalled (items : list Resource) w out w' log :
  cloudfrontRun aws items w = (out, w', log) ->
  (0 < count signalsFailure log)%nat ->
  exists pre Id ETag err,
    log = pre ++ [ Called (cloudFront_deleteDistribution Id ETag) (inl err);
                   Error (message err) ] /\
    Forall (fun e => terminal e = false) pre /\
    count signalsCompletion log = 0%nat /\
    out = Done tt.
Proof.
  unfold cloudfrontRun, observer_complete, emit. rewrite bind_run.
  pose proof (cloudfrontLoop_signal items w) as Hloop.
  destruct (forEachReturn items (cloudfrontItem aws) w) as [[[[|]|e|] w1] l1];
    cbn; intros [= <- <- <-] Hsent.
  - destruct Hloop as (pre & Id' & ETag & err & -> & Hpre).
    exists pre, Id', ETag, err. rewrite app_nil_r.
    split; [done|]. split; [done|]. split; [|done].
    rewrite count_app, (no_terminal_no_completion pre Hpre). done.
  - rewrite count_app, (no_terminal_no_failure l1 Hloop) in Hsent. cbn in Hsent. lia.
  - rewrite (no_terminal_no_failure l1 Hloop) in Hsent. lia.
  - rewrite (no_terminal_no_failure l1 Hloop) in Hsent. lia.
Qed.
End Signals.

Lemma terminal_signal_is_last_witness :
  exists out w' log,
    runOf (scripted (playing [Resolves; Rejects conflict])) Lambda 0
          [newFunction; oldFunction] 0%nat = (out, w', log) /\
    out = Throw (Err conflict) /\
    (out = Done tt ->
     exists pre e, log = pre ++ [e] /\ terminal e = true /\
                   Forall (fun e => terminal e = false) pre) /\
    (out <> Done tt -> Forall (fun e => terminal e = false) log).
Proof.
  eexists _, _, _. split; [reflexivity|]. split; [reflexivity|].
  eapply (terminal_signal_is_last (scripted (playing [Resolves; Rejects conflict]))
            Lambda 0 [newFunction; oldFunction] 0%nat).
  reflexivity.
Defined.

Lemma cloudfront_failure_signalled_witness :
  exists out w' log,
    cloudfrontRun
      (scripted (playing
         [ DistributionConfigResult
             (GetDistributionConfigOutput "E1F83G8C2ARO7P" (mkConfig false "api-dev" "cdn"));
           Rejects preconditionFailed ]))
      [liveDistribution; staleDistribution] 0%nat = (out, w', log) /\
    (0 < count signalsFailure log)%nat /\
    exists pre Id ETag err,
      log = pre ++ [ Called (cloudFront_deleteDistribution Id ETag) (inl err);
                     Error (message err) ] /\
      Forall (fun e => terminal e = false) pre /\
      count signalsCompletion log = 0%nat /\
      out = Done tt.
Proof.
  eexists _, _, _. split; [reflexivity|]. split; [exact (le_n 1)|].
  eapply (cloudfront_failure_signalled
            (scripted (playing
               [ DistributionConfigResult
                   (GetDistributionConfigOutput "E1F83G8C2ARO7P"
                      (mkConfig false "api-dev" "cdn"));
                 Rejects preconditionFailed ]))
            [liveDistribution; staleDistribution] 0%nat);
    [reflexivity|exact (le_n 1)].
Defined.

(** ** What a task removes, and in which order *)

Lemma removed_app l1 l2 : removed (l1 ++ l2) = removed l1 ++ removed l2.
Proof. apply omap_app. Qed.

Lemma removed_none log :
  Forall (fun e => removedBy e = None) log -> removed log = [].
Proof.
  induction 1 as [|e log He _ IH]; [done|]. unfold removed in *. cbn. by rewrite He.
Qed.

Lemma prefix_sublist {A} (l1 l2 : list A) : l1 `prefix_of` l2 -> l1 `sublist_of` l2.
Proof. intros [k ->]. by apply sublist_inserts_r. Qed.

Lemma removed_retrying id failures waits : removed (retrying id failures waits) = [].
Proof.
  revert waits. induction failures as [|e failures IH]; intros [|timeout waits]; try done.
  cbn -[String.append]. apply IH.
Qed.

Ltac no_removal :=
  try done;
  match goal with |- removedBy (Called _ ?r) = None => by destruct r end.

Section Removals.
Context {W : Type} (aws : Provider W).

Lemma Removes_quiet_bind {A B} names (m : M W A) (f : A -> M W B) :
  Emits (fun e => removedBy e = None) m ->
  (forall a, Removes names (f a)) ->
  Removes names (m ≫= f).
Proof.
  intros Hm Hf w. rewrite bind_run. specialize (Hm w).
  apply removed_none in Hm.
  destruct (m w) as [[[a|e|] w1] l1]; cbn [fst snd] in *.
  - specialize (Hf a w1). destruct (f a w1) as [[o w2] l2]. cbn [fst snd] in *.
    rewrite removed_app, Hm. done.
  - rewrite Hm. apply prefix_nil.
  - rewrite Hm. apply prefix_nil.
Qed.

Lemma Removes_call {R} (c : Call R) kind name :
  removalOf c = Some (kind, name) -> Removes [name] (call aws c).
Proof.
  intros Hc w. rewrite call_run.
  destruct (aws R c w) as [[e|v] w1]; cbn [fst snd]; unfold removed; cbn.
  - apply prefix_nil.
  - by rewrite Hc.
Qed.

Lemma Removes_then_quiet names (m : M W unit) (m' : M W unit) :
  Removes names m -> Emits (fun e => removedBy e = None) m' ->
  (forall w, (m' w).1.1 = Done tt) ->
  Removes names (m;; m').
Proof.
  intros Hm Hquiet Hdone w. rewrite bind_run. specialize (Hm w).
  destruct (m w) as [[[[]|e|] w1] l1]; cbn [fst snd] in *; try done.
  specialize (Hquiet w1). specialize (Hdone w1). apply removed_none in Hquiet.
  destruct (m' w1) as [[o w2] l2]. cbn [fst snd] in *. subst o.
  by rewrite removed_app, Hquiet, app_nil_r.
Qed.

Lemma Removes_forEach {X} (name : X -> string) (xs : list X) (body : X -> M W unit) :
  (forall x, Removes [name x] (body x)) ->
  Removes (map name xs) (forEach xs body).
Proof.
  intros Hbody. induction xs as [|x xs IH]; intros w; [done|].
  rewrite forEach_cons. specialize (Hbody x w).
  destruct (body x w) as [[[[]|e|] w1] l1]; cbn [fst snd map] in *.
  - specialize (IH w1). destruct (forEach xs body w1) as [[o w2] l2].
    cbn [fst snd] in *. rewrite removed_app, Hbody.
    destruct o; [by rewrite IH|by apply prefix_cons..].
  - by apply (prefix_app_r _ [name x] (map name xs)).
  - by apply (prefix_app_r _ [name x] (map name xs)).
Qed.

Lemma Removes_apiGatewayItem (r : Resource) : Removes [id r] (apiGatewayItem aws r).
Proof.
  unfold apiGatewayItem, pRetry, observer_next.
  apply Removes_quiet_bind; [by apply Emits_emit|]. intros _ w.
  destruct (attempt _ _ [] w) as [[out w'] log] eqn:Hrun. cbn [fst snd].
  apply attempt_transcript in Hrun as (failures & final & -> & _ & _ & _ & _ & Hfinal).
  rewrite removed_app, removed_retrying. unfold lastAttempt, removed.
  destruct final as [e|[]]; cbn -[String.append].
  - assert (omap removedBy
              (if bool_decide (code e = "TooManyRequestsException")
               then [Next (message e +:+ ". Will retry...")] else []) = []) as ->
      by by destruct (bool_decide _).
    destruct (bool_decide (code e = "TooManyRequestsException")).
    + destruct Hfinal as (_ & _ & e' & -> & _). apply prefix_nil.
    + destruct Hfinal as (-> & _). apply prefix_nil.
  - by destruct Hfinal as (-> & _).
Qed.

(** One round of the CloudFront task removes its distribution or nothing. *)
Lemma cloudfrontItem_removes (r : Resource) w :
  removed (cloudfrontItem aws r w).2 `sublist_of` [Id r].
Proof.
  unfold cloudfrontItem, observer_next, observer_error, emit.
  rewrite bind_run. cbn -[String.append].
  rewrite bind_run, call_run.
  destruct (aws _ (cloudFront_getDistributionConfig (Id r)) w)
    as [[e|[ETag config]] w1]; cbn -[String.append]; [apply sublist_nil_l|].
  destruct (Enabled config).
  - rewrite !bind_run. cbn -[String.append]. rewrite call_run.
    destruct (aws _ (cloudFront_updateDistribution _ _ _) w1) as [[e|[]] w2];
      cbn -[String.append]; apply sublist_nil_l.
  - unfold tryCatch. rewrite !bind_run. cbn -[String.append]. rewrite call_run.
    destruct (aws _ (cloudFront_deleteDistribution _ _) w1) as [[e|[]] w2];
      cbn -[String.append]; [apply sublist_nil_l|done].
Qed.

Lemma cloudfrontLoop_removes (items : list Resource) w :
  removed (forEachReturn items (cloudfrontItem aws) w).2 `sublist_of` map Id items.
Proof.
  revert w. induction items as [|r items IH]; intros w; [done|].
  cbn [forEachReturn]. rewrite bind_run.
  pose proof (cloudfrontItem_removes r w) as Hitem.
  destruct (cloudfrontItem aws r w) as [[[[|]|e|] w1] l1]; cbn [fst snd map] in *.
  - cbn -[removed]. rewrite app_nil_r.
    by apply (sublist_inserts_r (map Id items)) in Hitem.
  - specialize (IH w1).
    destruct (forEachReturn items (cloudfrontItem aws) w1) as [[o w2] l2].
    cbn [fst snd] in *. rewrite removed_app.
    by apply (sublist_app _ [Id r] _ (map Id items)).
  - by apply (sublist_inserts_r (map Id items)) in Hitem.
  - by apply (sublist_inserts_r (map Id items)) in Hitem.
Qed.

(** X9. A task removes only selected records, each at most once, and in
    the order of the selection. For the five kinds other than CloudFront
    the records removed are the first of the selection, up to the one whose
    round failed, and the whole selection when the body of the task
    returns. The CloudFront task skips the distributions it only disables. *)
Theorem task_removes_in_selection_order kind fuel items w out w' log :
  runOf aws kind fuel items w = (out, w', log) ->
  removed log `sublist_of` map (nameOf kind) items /\
  (kind <> CloudFront ->
   removed log `prefix_of` map (nameOf kind) items /\
   (out = Done tt -> removed log = map (nameOf kind) items)).
Proof.
  intros Hrun.
  assert (kind <> CloudFront ->
          removed log `prefix_of` map (nameOf kind) items /\
          (out = Done tt -> removed log = map (nameOf kind) items)) as Hprefix.
  { intros Hkind.
    assert (Removes (map (nameOf kind) items) (runOf aws kind fuel items)) as Hremoves.
    { destruct kind; try done; cbn [runOf nameOf];
        unfold lambdaRun, logGroupRun, apiGatewayRun, bucketRun, iamRoleRun,
          observer_complete;
        (apply Removes_then_quiet; [|by apply Emits_emit|done]);
        apply Removes_forEach; intros r.
      - unfold lambdaItem, observer_next.
        apply Removes_quiet_bind; [by apply Emits_emit|]. intros _.
        by eapply Removes_call.
      - unfold logGroupItem, observer_next.
        apply Removes_quiet_bind; [by apply Emits_emit|]. intros _.
        by eapply Removes_call.
      - apply Removes_apiGatewayItem.
      - unfold bucketItem, observer_next.
        apply Removes_quiet_bind; [unfold_runs; emits; no_removal|]. intros _.
        apply Removes_quiet_bind; [by apply Emits_emit|]. intros _.
        by eapply Removes_call.
      - unfold iamRoleItem, observer_next.
        apply Removes_quiet_bind; [by apply Emits_emit|]. intros _.
        apply Removes_quiet_bind; [emits; no_removal|]. intros [PolicyNames].
        apply Removes_quiet_bind; [emits; no_removal|]. intros _.
        apply Removes_quiet_bind; [emits; no_removal|]. intros [AttachedPolicies].
        apply Removes_quiet_bind; [emits; no_removal|]. intros _.
        by eapply Removes_call. }
    specialize (Hremoves w). rewrite Hrun in Hremoves. cbn [fst snd] in Hremoves.
    destruct out as [[]| |]; [by rewrite Hremoves|by split..]. }
  split; [|done].
  destruct kind; try (apply prefix_sublist, Hprefix; done).
  cbn [runOf nameOf] in *. revert Hrun.
  unfold cloudfrontRun, observer_complete, emit. rewrite bind_run.
  pose proof (cloudfrontLoop_removes items w) as Hloop.
  destruct (forEachReturn items (cloudfrontItem aws) w) as [[[[|]|e|] w1] l1];
    cbn [fst snd] in *; cbn; intros [= <- <- <-]; rewrite ?removed_app, ?app_nil_r; done.
Qed.
End Removals.

Lemma task_removes_in_selection_order_witness :
  exists out w' log,
    runOf (scripted (playing [Resolves; Rejects accessDenied; Resolves])) LogGroup 0
          [lambdaLogGroup; customLogGroup; aLogGroup "/aws/lambda/api-dev-files" 0] 0%nat
      = (out, w', log) /\
    removed log = ["/aws/lambda/api-dev-graphql"] /\
    removed log `sublist_of`
      map (nameOf LogGroup)
          [lambdaLogGroup; customLogGroup; aLogGroup "/aws/lambda/api-dev-files" 0] /\
    (LogGroup <> CloudFront ->
     removed log `prefix_of`
       map (nameOf LogGroup)
           [lambdaLogGroup; customLogGroup; aLogGroup "/aws/lambda/api-dev-files" 0] /\
     (out = Done tt ->
      removed log
      = map (nameOf LogGroup)
            [lambdaLogGroup; customLogGroup; aLogGroup "/aws/lambda/api-dev-files" 0])).
Proof.
  eexists _, _, _. split; [reflexivity|]. split; [reflexivity|].
  eapply (task_removes_in_selection_order
            (scripted (playing [Resolves; Rejects accessDenied; Resolves])) LogGroup 0
            [lambdaLogGroup; customLogGroup; aLogGroup "/aws/lambda/api-dev-files" 0]
            0%nat).
  reflexivity.
Defined.

(** ** The retry budget of the API Gateway task *)

Lemma count_attempts log : count deletesRestApi log = length (omap attemptOf log).
Proof.
  induction log as [|e log IH]; [done|].
  rewrite count_cons. destruct e as [R c r| | | |]; cbn; try done.
  destruct c; cbn; try done. by rewrite IH.
Qed.

Lemma totalWait_app l1 l2 : totalWait (l1 ++ l2) = totalWait l1 + totalWait l2.
Proof.
  unfold totalWait. rewrite omap_app.
  induction (omap waitOf l1) as [|t ts IH]; cbn; [done|]. rewrite IH. lia.
Qed.

Lemma totalWait_take (n : nat) :
  0 <= foldr Z.add 0 (take n [60000; 120000; 240000]) <= 420000.
Proof. destruct n as [|[|[|[|n]]]]; cbn; lia. Qed.

Section Budget.
Context {W : Type} (aws : Provider W).

Lemma apiGatewayItem_budget (r : Resource) w :
  (count deletesRestApi (apiGatewayItem aws r w).2 <= 4)%nat /\
  0 <= totalWait (apiGatewayItem aws r w).2 <= 420000.
Proof.
  unfold apiGatewayItem, pRetry, observer_next, emit. rewrite timeouts_of_the_task.
  rewrite bind_run. cbn -[String.append attempt].
  destruct (attempt _ _ [] w) as [[out w'] log] eqn:Hrun.
  apply attempt_transcript in Hrun
    as (failures & final & _ & Hattempts & _ & Hlen & Hwaits & _).
  cbn [snd]. rewrite count_cons, count_attempts, Hattempts, length_app, length_map.
  unfold totalWait. cbn -[String.append]. rewrite Hwaits.
  cbn [length] in *. split; [lia|]. apply totalWait_take.
Qed.

(** X10. The retry budget is spent per API, not per task: a task over [n]
    selected APIs issues at most [4 * n] [deleteRestApi] calls and waits at
    most 420 seconds times [n] between its attempts. *)
Theorem api_gateway_budget_per_item (items : list Resource) w :
  (count deletesRestApi (apiGatewayRun aws items w).2 <= 4 * length items)%nat /\
  0 <= totalWait (apiGatewayRun aws items w).2 <= 420000 * Z.of_nat (length items).
Proof.
  unfold apiGatewayRun, observer_complete, emit. rewrite bind_run.
  assert ((count deletesRestApi (forEach items (apiGatewayItem aws) w).2
           <= 4 * length items)%nat /\
          0 <= totalWait (forEach items (apiGatewayItem aws) w).2
            <= 420000 * Z.of_nat (length items)) as Hloop.
  { revert w. induction items as [|r items IH]; intros w; [cbn; lia|].
    rewrite forEach_cons.
    pose proof (apiGatewayItem_budget r w) as [Hcount Hwait].
    destruct (apiGatewayItem aws r w) as [[[[]|e|] w1] l1]; cbn [fst snd length] in *;
      try lia.
    specialize (IH w1). destruct (forEach items (apiGatewayItem aws) w1) as [[o w2] l2].
    cbn [fst snd] in *. rewrite count_app, totalWait_app. lia. }
  destruct (forEach items (apiGatewayItem aws) w) as [[[[]|e|] w1] l1];
    cbn [fst snd] in *; try done.
  cbn. rewrite count_app, totalWait_app. cbn. lia.
Qed.
End Budget.

(** The first API runs out of retries after four attempts and seven minutes
    of waiting; the second API is then not attempted. *)
Example first_api_spends_its_budget :
  let log := (apiGatewayRun (scripted (playing [Rejects throttled; Rejects throttled;
                                                 Rejects throttled; Rejects throttled]))
                [devApi; aRestApi "f6g7h8i9j0" "api-prod" 0] 0%nat).2 in
  count deletesRestApi log = 4%nat /\ totalWait log = 420000.
Proof. by split. Qed.

(** ** A role round that fails part-way *)

Lemma omap_map_some {A B C} (f : B -> option C) (g : A -> B) (h : A -> C) xs :
  (forall x, f (g x) = Some (h x)) -> omap f (map g xs) = map h xs.
Proof. intros Hfg. induction xs as [|x xs IH]; [done|]. cbn. by rewrite Hfg, IH. Qed.

Lemma omap_map_none {A B C} (f : B -> option C) (g : A -> B) xs :
  (forall x, f (g x) = None) -> omap f (map g xs) = [].
Proof. intros Hfg. induction xs as [|x xs IH]; [done|]. cbn. by rewrite Hfg, IH. Qed.

(** Reads the policies listed, deleted and detached off the transcript of
    a role round. *)
Ltac role_transcript :=
  cbn -[String.append];
  repeat (rewrite omap_app; cbn -[String.append]);
  repeat match goal with
    | |- context [omap ?f (map ?g ?xs)] =>
        first [ rewrite (omap_map_none f g xs) by done
              | rewrite (omap_map_some f g (fun p => p) xs), map_id by done
              | rewrite (omap_map_some f g PolicyArn xs) by done ]
    end;
  cbn -[String.append].

Section RoleRounds.
Context {W : Type} (aws : Provider W).

(** A [for] loop of calls without a response body stops at the first
    rejection: the calls issued are the calls for the first items of the
    list, all resolved but possibly the last. *)
Lemma forEach_calls_prefix {X} (c : X -> Call unit) (xs : list X) w :
  let '(out, _, log) := forEach xs (fun x => call aws (c x)) w in
  (out = Done tt /\ log = map (fun x => Called (c x) (inr tt)) xs) \/
  (exists pre x post e,
      xs = pre ++ x :: post /\
      out = Throw (Err e) /\
      log = map (fun x => Called (c x) (inr tt)) pre ++ [Called (c x) (inl e)]).
Proof.
  revert w. induction xs as [|x xs IH]; intros w; [by left|].
  rewrite forEach_cons, call_run.
  destruct (aws unit (c x) w) as [[e|[]] w1]; cbn.
  - right. by exists [], x, xs, e.
  - specialize (IH w1).
    destruct (forEach xs _ w1) as [[out w2] log].
    destruct IH as [[-> ->]|(pre & y & post & e & -> & -> & ->)]; [by left|].
    right. by exists (x :: pre), y, post, e.
Qed.

(** X11. However the round of a role ends, it only ever deletes inline
    policies and detaches managed policies that the listings reported, in
    the order reported and each at most once: the policies deleted are the
    first of the names reported, the policies detached the first of the
    attachments reported. No policy is detached before every inline policy
    reported was deleted, and the role is not deleted before every
    attachment reported was detached. *)
Theorem role_round_follows_the_listings (r : Resource) w out w' log :
  iamRoleItem aws r w = (out, w', log) ->
  omap deletedPolicyOf log `prefix_of` concat (omap rolePoliciesOf log) /\
  omap detachedPolicyOf log `prefix_of` concat (omap attachedPoliciesOf log) /\
  (omap detachedPolicyOf log <> [] ->
   omap deletedPolicyOf log = concat (omap rolePoliciesOf log)) /\
  ((0 < count deletesRole log)%nat ->
   omap deletedPolicyOf log = concat (omap rolePoliciesOf log) /\
   omap detachedPolicyOf log = concat (omap attachedPoliciesOf log)).
Proof.
  unfold iamRoleItem, observer_next, emit. intros Hrun.
  rewrite bind_run in Hrun. cbn -[String.append] in Hrun.
  rewrite bind_run, call_run in Hrun.
  destruct (aws _ (iam_listRolePolicies (RoleName r)) w) as [[e|[PolicyNames]] w1];
    cbn -[String.append] in Hrun.
  { injection Hrun as <- <- <-. cbn. split_and!; try done; cbv; lia. }
  rewrite bind_run in Hrun.
  pose proof (forEach_calls_prefix
                (fun PolicyName => iam_deleteRolePolicy (RoleName r) PolicyName)
                PolicyNames w1) as Hinline.
  destruct (forEach PolicyNames _ w1) as [[out1 w2] log1].
  destruct Hinline as [[-> ->]|(pre & x & post & e & -> & -> & ->)].
  2:{ injection Hrun as <- <- <-.
      match goal with |- context [count deletesRole ?l] =>
        assert (count deletesRole l = 0%nat) as -> by (count_calls; lia) end.
      role_transcript. rewrite !app_nil_r.
      split; [|split; [done|split; [done|intros ?; lia]]].
      exists post. by rewrite <- app_assoc. }
  rewrite bind_run, call_run in Hrun.
  destruct (aws _ (iam_listAttachedRolePolicies (RoleName r)) w2)
    as [[e|[AttachedPolicies]] w3]; cbn -[String.append] in Hrun.
  { injection Hrun as <- <- <-.
    match goal with |- context [count deletesRole ?l] =>
      assert (count deletesRole l = 0%nat) as -> by (count_calls; lia) end.
    role_transcript. rewrite !app_nil_r.
    split; [done|]. split; [done|]. split; [done|intros ?; lia]. }
  rewrite bind_run in Hrun.
  pose proof (forEach_calls_prefix
                (fun attached => iam_detachRolePolicy (RoleName r) (PolicyArn attached))
                AttachedPolicies w3) as Hattached.
  destruct (forEach AttachedPolicies _ w3) as [[out2 w4] log2].
  destruct Hattached as [[-> ->]|(pre & x & post & e & -> & -> & ->)].
  2:{ injection Hrun as <- <- <-.
      match goal with |- context [count deletesRole ?l] =>
        assert (count deletesRole l = 0%nat) as -> by (count_calls; lia) end.
      role_transcript. rewrite !app_nil_r, map_app.
      split; [done|]. split; [exists (map PolicyArn post); by rewrite <- app_assoc|].
      split; [done|intros ?; lia]. }
  rewrite call_run in Hrun. injection Hrun as <- <- <-.
  role_transcript. rewrite !app_nil_r. done.
Qed.
End RoleRounds.

Lemma role_round_follows_the_listings_witness :
  exists out w' log,
    iamRoleItem
      (scripted (playing [ RolePolicies (ListRolePoliciesOutput ["logs"; "invoke"; "trace"]);
                           Resolves; Rejects accessDenied ]))
      deployRole 0%nat = (out, w', log) /\
    omap deletedPolicyOf log = ["logs"; "invoke"] /\
    omap deletedPolicyOf log `prefix_of` concat (omap rolePoliciesOf log) /\
    omap detachedPolicyOf log `prefix_of` concat (omap attachedPoliciesOf log) /\
    (omap detachedPolicyOf log <> [] ->
     omap deletedPolicyOf log = concat (omap rolePoliciesOf log)) /\
    ((0 < count deletesRole log)%nat ->
     omap deletedPolicyOf log = concat (omap rolePoliciesOf log) /\
     omap detachedPolicyOf log = concat (omap attachedPoliciesOf log)).
Proof.
  eexists _, _, _. split; [reflexivity|]. split; [reflexivity|].
  eapply (role_round_follows_the_listings
            (scripted (playing
               [ RolePolicies (ListRolePoliciesOutput ["logs"; "invoke"; "trace"]);
                 Resolves; Rejects accessDenied ])) deployRole 0%nat).
  reflexivity.
Defined.

(** ** The objects of a bucket *)

Lemma objectsListed_app l1 l2 :
  objectsListed (l1 ++ l2) = objectsListed l1 ++ objectsListed l2.
Proof. unfold objectsListed. by rewrite map_app, concat_app. Qed.

Lemma objectsDeleted_app l1 l2 :
  objectsDeleted (l1 ++ l2) = objectsDeleted l1 ++ objectsDeleted l2.
Proof. unfold objectsDeleted. by rewrite map_app, concat_app. Qed.

Section Objects.
Context {W : Type} (aws : Provider W).

Lemma Balanced_ret {A} (a : A) : Balanced (mret a : M W A).
Proof. by intros w. Qed.

Lemma Balanced_bind {A B} (m : M W A) (f : A -> M W B) :
  Balanced m -> (forall a, Balanced (f a)) -> Balanced (m ≫= f).
Proof.
  intros Hm Hf w. rewrite bind_run. specialize (Hm w).
  destruct (m w) as [[[a|e|] w1] l1]; cbn [fst snd] in *; try done.
  specialize (Hf a w1). destruct (f a w1) as [[o w2] l2]. cbn [fst snd] in *.
  by rewrite objectsListed_app, objectsDeleted_app, Hm, Hf.
Qed.

Lemma Balanced_forEach {X} (xs : list X) (body : X -> M W unit) :
  (forall x, Balanced (body x)) -> Balanced (forEach xs body).
Proof.
  intros Hbody. induction xs as [|x xs IH]; cbn [forEach]; [apply Balanced_ret|].
  apply Balanced_bind; [apply Hbody|]. intros _. apply IH.
Qed.

Lemma Balanced_whileTrue {S A} (body : S -> M W (Turn S A)) fuel s :
  (forall s, Balanced (body s)) -> Balanced (whileTrue fuel body s).
Proof.
  intros Hbody. revert s. induction fuel as [|fuel IH]; intros s; cbn [whileTrue].
  - by intros w.
  - apply Balanced_bind; [apply Hbody|]. intros [s'|a]; [apply IH|apply Balanced_ret].
Qed.

(** One turn of the drain: the page listed is the page deleted. *)
Lemma Balanced_emptyBucketTurn (name : string) Marker :
  Balanced (emptyBucketTurn aws name Marker).
Proof.
  intros w. unfold emptyBucketTurn, observer_next, emit.
  rewrite bind_run. cbn -[String.append]. rewrite bind_run, call_run.
  destruct (aws _ (s3_listObjects name Marker) w) as [[e|[Contents IsTruncated]] w1];
    cbn -[String.append]; [done|].
  destruct Contents as [|obj Contents]; [done|]. cbn -[String.append].
  rewrite bind_run, call_run.
  destruct (aws _ (s3_deleteObjects name _) w1) as [[e|[]] w2]; cbn -[String.append].
  - unfold objectsDeleted, objectsListed. cbn. by rewrite map_map.
  - destruct IsTruncated; cbn -[String.append];
      unfold objectsDeleted, objectsListed; cbn; by rewrite map_map.
Qed.

(** X13. Whatever the provider answers and however the run ends, the
    bucket task asks [deleteObjects] to delete exactly the objects that
    [listObjects] returned, in the bucket and in the order they were
    listed: it never names an object that it has not just been told about,
    and it leaves out none that was listed. *)
Theorem bucket_deletes_what_it_listed fuel (items : list Resource) w :
  objectsDeleted (bucketRun aws fuel items w).2
  = objectsListed (bucketRun aws fuel items w).2.
Proof.
  revert w. change (Balanced (bucketRun aws fuel items)).
  unfold bucketRun, bucketItem, emptyBucket, observer_next, observer_complete.
  apply Balanced_bind; [|by intros _ w].
  apply Balanced_forEach. intros r.
  apply Balanced_bind.
  - apply Balanced_whileTrue. apply Balanced_emptyBucketTurn.
  - intros _. apply Balanced_bind; [by intros w|]. intros _ w. rewrite call_run.
    by destruct (aws _ (s3_deleteBucket (Name r)) w) as [[e|[]] w1].
Qed.
End Objects.

(** The page listed is asked to be deleted even when that deletion is
    then rejected. *)
Example rejected_batch_names_the_page :
  objectsDeleted
    (bucketRun (scripted (playing
       [ ObjectsPage (ListObjects [mkObject "index.html" 120; mkObject "app.js" 4096] true);
         Rejects accessDenied ])) 5 [assetsBucket] 0%nat).2
  = [("api-dev-assets", "index.html"); ("api-dev-assets", "app.js")].
Proof. reflexivity. Qed.

(** ** The tasks that [generateTasks] returns *)

Lemma kindOf_supported (entry : string * list Resource) :
  supported entry = true -> exists kind, kindOf entry.1 = Some kind.
Proof.
  unfold supported, kindLabel, kindOf. destruct entry as [type items]. cbn.
  repeat (destruct (String.eqb type _); [by eauto|]). done.
Qed.

Lemma procedureOf_runOf {W} (aws : Provider W) type kind items fuel :
  kindOf type = Some kind -> procedureOf aws type items fuel = runOf aws kind fuel items.
Proof.
  unfold kindOf, procedureOf.
  repeat (destruct (String.eqb type _); [by intros [= <-]|]). done.
Qed.

(** X12. Every task that [generateTasks] returns belongs to one entry of
    the selection, of a supported kind, and works on that entry alone: in
    every run, whatever the provider answers, each call it issues is an
    operation of the kind of its key on a record selected under that key. *)
Theorem generated_task_stays_within_its_entry {W} (aws : Provider W)
    (resources : Selection) (t : Task W) :
  NoDup (map fst resources) ->
  t ∈ generateTasks aws resources ->
  exists type items kind,
    (type, items) ∈ resources /\
    kindOf type = Some kind /\
    title t = titleOf (type, items) /\
    forall fuel,
      Emits (staysWithin kind (map (nameOf kind) items)) (task t fuel).
Proof.
  intros Hnodup Ht. unfold generateTasks in Ht.
  rewrite (generateTasks_entries aws resources resources) in Ht
    by (intros k items; by apply select_entry).
  apply list_elem_of_fmap in Ht as ([type items] & -> & Hentry).
  apply list_elem_of_filter in Hentry as [Hsupported Hentry].
  destruct (kindOf_supported (type, items)) as [kind Hkind];
    [by destruct (supported (type, items))|].
  exists type, items, kind. split; [done|]. split; [done|]. split; [done|].
  intros fuel. cbn in Hkind. unfold taskFor. cbn [task fst snd].
  rewrite (procedureOf_runOf aws type kind items fuel Hkind).
  apply runOf_stays_within.
Qed.

Lemma generated_task_stays_within_its_entry_witness :
  NoDup (map fst sampleSelection) /\
  mkTask "Delete 1 IAM roles" (fun _ => iamRoleRun (scripted (playing [])) [deployRole])
    ∈ generateTasks (scripted (playing [])) sampleSelection /\
  exists type items kind,
    (type, items) ∈ sampleSelection /\
    kindOf type = Some kind /\
    title (mkTask "Delete 1 IAM roles"
             (fun _ => iamRoleRun (scripted (playing [])) [deployRole]))
      = titleOf (type, items) /\
    forall fuel,
      Emits (staysWithin kind (map (nameOf kind) items))
            (task (mkTask "Delete 1 IAM roles"
                     (fun _ => iamRoleRun (scripted (playing [])) [deployRole])) fuel).
Proof.
  assert (NoDup (map fst sampleSelection)) as Hnodup.
  { apply (bool_decide_unpack _). vm_compute. exact I. }
  assert (mkTask "Delete 1 IAM roles"
            (fun _ => iamRoleRun (scripted (playing [])) [deployRole])
          ∈ generateTasks (scripted (playing [])) sampleSelection) as Hin.
  { apply list_elem_of_In. right. left. reflexivity. }
  split; [exact Hnodup|]. split; [exact Hin|].
  exact (generated_task_stays_within_its_entry (scripted (playing [])) sampleSelection
           _ Hnodup Hin).
Defined.

(** ** A truncated page without a marker *)

Section Restart.
Context {W : Type} (aws : Provider W).

Lemma distributions_restart fuel acc w :
  (forall w, exists Items,
      (aws _ (cloudFront_listDistributions None "20") w).1
      = inr (DistributionListOutput true Items None)) ->
  let run := whileTrue fuel (fun '(distributions, Marker) =>
        '(DistributionListOutput IsTruncated Items NextMarker) ←
            call aws (cloudFront_listDistributions Marker "20");
        let distributions := distributions ++ Items in
        if negb IsTruncated then ret (Break distributions)
        else ret (Again (distributions, NextMarker)))
      (acc, None) w in
  run.1.1 = Starved /\ length run.2 = fuel /\
  Forall (fun page => asked page = None) (pagesOf run.2) /\
  length (pagesOf run.2) = fuel.
Proof.
  intros Hpage. revert acc w.
  induction fuel as [|fuel IH]; intros acc w; cbv zeta; [cbn; by split_and!|].
  cbn [whileTrue]. rewrite !bind_run, call_run.
  destruct (Hpage w) as [Items Hanswer].
  destruct (aws _ (cloudFront_listDistributions None "20") w) as [answer w1].
  cbn [fst snd] in *. subst answer. cbn -[whileTrue pagesOf].
  specialize (IH (acc ++ Items) w1). cbn zeta in IH.
  destruct (whileTrue fuel _ (acc ++ Items, None) w1) as [[o w2] l2].
  cbn [fst snd] in *. destruct IH as (-> & Hlen & Hasked & Hpages).
  cbn. unfold pagesOf in Hpages. rewrite Hlen, Hpages.
  split; [done|]. split; [done|]. split; [by constructor|done].
Qed.

Lemma roles_restart fuel acc w :
  (forall w, exists Roles,
      (aws _ (iam_listRoles None 100) w).1 = inr (ListRolesOutput None true Roles)) ->
  let run := whileTrue fuel (fun '(roles, Marker) =>
        '(ListRolesOutput NextMarker IsTruncated Roles) ←
            call aws (iam_listRoles Marker 100);
        let roles := roles ++ Roles in
        if negb IsTruncated then ret (Break roles)
        else ret (Again (roles, NextMarker)))
      (acc, None) w in
  run.1.1 = Starved /\ length run.2 = fuel /\
  Forall (fun page => asked page = None) (pagesOf run.2) /\
  length (pagesOf run.2) = fuel.
Proof.
  intros Hpage. revert acc w.
  induction fuel as [|fuel IH]; intros acc w; cbv zeta; [cbn; by split_and!|].
  cbn [whileTrue]. rewrite !bind_run, call_run.
  destruct (Hpage w) as [Roles Hanswer].
  destruct (aws _ (iam_listRoles None 100) w) as [answer w1].
  cbn [fst snd] in *. subst answer. cbn -[whileTrue pagesOf].
  specialize (IH (acc ++ Roles) w1). cbn zeta in IH.
  destruct (whileTrue fuel _ (acc ++ Roles, None) w1) as [[o w2] l2].
  cbn [fst snd] in *. destruct IH as (-> & Hlen & Hasked & Hpages).
  cbn. unfold pagesOf in Hpages. rewrite Hlen, Hpages.
  split; [done|]. split; [done|]. split; [by constructor|done].
Qed.

(** X14. The listers of the distributions and of the roles go by the
    truncation flag alone and pass on whatever marker the page hands out,
    even none. Against a provider that answers every request without
    marker with a truncated page that hands out no marker, they ask for
    the first page again and again and never return: whatever the budget,
    the run is cut off after as many requests, all of them without marker. *)
Theorem truncated_page_without_marker_restarts :
  ((forall w, exists Items,
       (aws _ (cloudFront_listDistributions None "20") w).1
       = inr (DistributionListOutput true Items None)) ->
   forall fuel w,
     (getAllCloudFrontDistributions aws fuel w).1.1 = Starved /\
     length (pagesOf (getAllCloudFrontDistributions aws fuel w).2) = fuel /\
     Forall (fun page => asked page = None)
            (pagesOf (getAllCloudFrontDistributions aws fuel w).2)) /\
  ((forall w, exists Roles,
       (aws _ (iam_listRoles None 100) w).1 = inr (ListRolesOutput None true Roles)) ->
   forall fuel w,
     (getAllIAMRoles aws fuel w).1.1 = Starved /\
     length (pagesOf (getAllIAMRoles aws fuel w).2) = fuel /\
     Forall (fun page => asked page = None) (pagesOf (getAllIAMRoles aws fuel w).2)).
Proof.
  split; intros Hpage fuel w.
  - unfold getAllCloudFrontDistributions. rewrite bind_run.
    pose proof (distributions_restart fuel [] w Hpage) as Hrun. cbn zeta in Hrun.
    destruct (whileTrue fuel _ ([], None) w) as [[o w1] l1]. cbn [fst snd] in *.
    by destruct Hrun as (-> & _ & Hasked & Hpages).
  - unfold getAllIAMRoles. rewrite bind_run.
    pose proof (roles_restart fuel [] w Hpage) as Hrun. cbn zeta in Hrun.
    destruct (whileTrue fuel _ ([], None) w) as [[o w1] l1]. cbn [fst snd] in *.
    by destruct Hrun as (-> & _ & Hasked & Hpages).
Qed.
End Restart.

Lemma truncated_page_without_marker_restarts_witness :
  (forall w, exists Items,
      (truncatedWithoutMarker _ (cloudFront_listDistributions None "20") w).1
      = inr (DistributionListOutput true Items None)) /\
  (getAllCloudFrontDistributions truncatedWithoutMarker 7 tt).1.1 = Starved /\
  length (pagesOf (getAllCloudFrontDistributions truncatedWithoutMarker 7 tt).2) = 7%nat /\
  Forall (fun page => asked page = None)
         (pagesOf (getAllCloudFrontDistributions truncatedWithoutMarker 7 tt).2).
Proof.
  assert (forall w, exists Items,
             (truncatedWithoutMarker _ (cloudFront_listDistributions None "20") w).1
             = inr (DistributionListOutput true Items None)) as Hpage.
  { intros w. exists [liveDistribution]. reflexivity. }
  split; [exact Hpage|].
  exact (proj1 (truncated_page_without_marker_restarts truncatedWithoutMarker) Hpage 7%nat tt).
Defined.
